(** * Health Atlas provider validator: the HTTP layer of backend/main.py

    A shallow embedding of the record-validation endpoints of
    [backend/main.py] (normalisation of the input record, formatting of the
    agent's result, the per-record worker of /validate-file with its
    semaphore and result queue, /validate-single, and the dimension table of
    /api/analytics/confidence-breakdown), of its [ConnectionManager], of
    /api/providers/apply and of the four analytics endpoints, followed by
    the properties the specification states about them and by further
    properties of the code.

    How Python is modelled:
    - values are JSON-like data: [None], booleans, integers, IEEE binary64
      floats ([PrimFloat]), strings, lists, and dictionaries with string
      keys as finite maps ([gmap string value]); the order of a
      dictionary's keys is not kept;
    - a computation returns or raises ([result]); an exception is an
      instance of [Exception], with its class name and its [str(e)], which
      is what an [except Exception] clause catches; interpreter exits and
      task cancellations are outside the model;
    - the worker's puts on the queue are threaded through a state and
      error monad ([task_m]), so what was put before a raise stays put;
    - one /validate-file request is a transition system ([fire], [run])
      over all interleavings of its tasks and of the response generator;
    - the agent ([validation_agent_app.invoke], agent.py) and Python's
      conversions of values to text are parameters ([Host]);
    - console output ([print], tracebacks) and the bytes of the response
      ([json.dumps] of each event, which accepts every JSON-like value) are
      left out: the response is the list of events yielded;
    - what the file system, the database, the clock, [uuid], [hash] and the
      websockets decide is given from outside, one outcome for each call
      ([upload], [Server], [database], [dashboard_queries], the [send_text]
      of [broadcast]); the state a handler changes (the list of connections,
      the uploads and the applications file) is passed explicitly. *)

From Stdlib Require Import ZArith QArith String List Floats Lia.
From stdpp Require Import gmap strings list fin_maps pretty.

#[local] Set Warnings "-register-all,-inexact-float,-clear-no-such-hyp".
#[local] Open Scope Z_scope.
#[local] Open Scope string_scope.
#[local] Open Scope list_scope.

(** ** Python values *)

Module Py.

Inductive value : Type :=
| VNone
| VBool (b : bool)
| VInt (n : Z)
| VFloat (f : float)
| VStr (s : string)
| VList (l : list value)
| VDict (d : gmap string value).

(** An exception: its class name and [str(e)]. *)
Record exn : Type := Exn { exn_type : string; exn_msg : string }.

(** A computation that returns or raises. *)
Inductive result (A : Type) : Type :=
| Ok (a : A)
| Raise (e : exn).

Arguments Ok {A} a.
Arguments Raise {A} e.

Definition bind {A B : Type} (m : result A) (k : A -> result B) : result B :=
  match m with
  | Ok a => k a
  | Raise e => Raise e
  end.

(** [mapM f l]: apply [f] from left to right, stopping at the first raise. *)
Fixpoint mapM {A B : Type} (f : A -> result B) (l : list A) : result (list B) :=
  match l with
  | [] => Ok []
  | a :: l' =>
      bind (f a) (fun b => bind (mapM f l') (fun bs => Ok (b :: bs)))
  end.

(** [type(v).__name__] *)
Definition type_name (v : value) : string :=
  match v with
  | VNone => "NoneType"
  | VBool _ => "bool"
  | VInt _ => "int"
  | VFloat _ => "float"
  | VStr _ => "str"
  | VList _ => "list"
  | VDict _ => "dict"
  end.

(** [bool(v)]: Python's truth value. *)
Definition truthy (v : value) : bool :=
  match v with
  | VNone => false
  | VBool b => b
  | VInt n => negb (n =? 0)%Z
  | VFloat f => negb (PrimFloat.eqb f 0)
  | VStr s => negb (String.eqb s "")
  | VList l => match l with [] => false | _ :: _ => true end
  | VDict d => negb (bool_decide (size d = 0%nat))
  end.

(** [a or b] *)
Definition py_or (a b : value) : value := if truthy a then a else b.

(** [d.get(k, default)] on a dictionary. *)
Definition dict_get (d : gmap string value) (k : string) (default : value) : value :=
  match d !! k with
  | Some v => v
  | None => default
  end.

(** A dictionary display [{**base, k1: v1, ..., kn: vn}]: later keys win. *)
Definition dict_update (base : gmap string value) (items : list (string * value))
  : gmap string value :=
  fold_left (fun d kv => <[kv.1 := kv.2]> d) items base.

Definition dict_literal (items : list (string * value)) : gmap string value :=
  dict_update ∅ items.

Definition AttributeError (v : value) (attr : string) : exn :=
  Exn "AttributeError"
      ("'" +:+ type_name v +:+ "' object has no attribute '" +:+ attr +:+ "'").

(** The dictionary behind [v] when the code calls [v.get(...)]; any other
    JSON value has no such method. *)
Definition has_get (v : value) : result (gmap string value) :=
  match v with
  | VDict d => Ok d
  | _ => Raise (AttributeError v "get")
  end.

(** [v.items()] *)
Definition has_items (v : value) : result (list (string * value)) :=
  match v with
  | VDict d => Ok (map_to_list d)
  | _ => Raise (AttributeError v "items")
  end.

(** [v == "s"] for a string literal. *)
Definition eq_str (v : value) (s : string) : bool :=
  match v with
  | VStr s' => String.eqb s' s
  | _ => false
  end.

Fixpoint str_repeat (s : string) (n : nat) : string :=
  match n with
  | O => ""
  | S n' => s +:+ str_repeat s n'
  end.

(** [v * 100] *)
Definition mul_100 (v : value) : result value :=
  match v with
  | VBool b => Ok (VInt (if b then 100 else 0))
  | VInt n => Ok (VInt (n * 100)%Z)
  | VFloat f => Ok (VFloat (f * 100)%float)
  | VStr s => Ok (VStr (str_repeat s 100))
  | VList l => Ok (VList (concat (replicate 100 l)))
  | VNone | VDict _ =>
      Raise (Exn "TypeError"
               ("unsupported operand type(s) for *: '" +:+ type_name v +:+ "' and 'int'"))
  end.

(** [int(f)] on a float: truncation towards zero. *)
Definition float_to_int (f : float) : result Z :=
  match Prim2SF f with
  | S754_zero _ => Ok 0
  | S754_finite s m e =>
      let a := (if 0 <=? e then Z.pos m * 2 ^ e else Z.pos m / 2 ^ (- e))%Z in
      Ok (if s then (- a)%Z else a)
  | S754_infinity _ =>
      Raise (Exn "OverflowError" "cannot convert float infinity to integer")
  | S754_nan =>
      Raise (Exn "ValueError" "cannot convert float NaN to integer")
  end.

(** [str(n)] for an integer. *)
Definition str_int (n : Z) : string := pretty n.

End Py.

Import Py.

Declare Scope py_scope.
Delimit Scope py_scope with py.
Notation "'let!' x ':=' m 'in' k" := (Py.bind m (fun x => k))
  (at level 10, x name, m at level 100, k at level 200) : py_scope.
#[local] Open Scope py_scope.

(** The non-ASCII glyphs of the log lines and tier badges, byte for byte as
    they stand in main.py. *)
Definition glyph (bytes : list N) : string :=
  fold_right (fun b s => String (Ascii.ascii_of_N b) s) "" bytes.

Definition GLYPH_PLATINUM : string := glyph [239; 163; 191; 195; 188; 195; 188; 194; 162]%N.
Definition GLYPH_GOLD : string := glyph [239; 163; 191; 195; 188; 195; 188; 194; 176]%N.
Definition GLYPH_QUESTIONABLE : string := glyph [239; 163; 191; 195; 188; 195; 174; 194; 165]%N.
Definition GLYPH_CHART : string := glyph [239; 163; 191; 195; 188; 195; 172; 195; 164]%N.
Definition GLYPH_ROCKET : string := glyph [239; 163; 191; 195; 188; 195; 182; 195; 132]%N.
Definition GLYPH_PROCESSING : string := glyph [239; 163; 191; 195; 188; 195; 174; 195; 145]%N.
Definition GLYPH_CROSS : string := glyph [226; 128; 154; 195; 185; 195; 165]%N.
Definition GLYPH_CHECK : string := glyph [226; 128; 154; 195; 186; 195; 150]%N.

Definition MAX_CONCURRENT_WORKERS : nat := 5.

(** ** normalize_provider_data *)

Definition normalize_provider_data (provider_info : gmap string value)
  : gmap string value :=
  dict_literal
    [ ("full_name", py_or (dict_get provider_info "full_name" VNone)
                          (dict_get provider_info "fullName" (VStr "")));
      ("NPI", py_or (dict_get provider_info "NPI" VNone)
                    (dict_get provider_info "npi" (VStr "")));
      ("address", dict_get provider_info "address" (VStr ""));
      ("city", dict_get provider_info "city" (VStr ""));
      ("state", dict_get provider_info "state" (VStr ""));
      ("zip_code", py_or (dict_get provider_info "zip_code" VNone)
                         (dict_get provider_info "zipCode" (VStr "")));
      ("website", dict_get provider_info "website" (VStr ""));
      ("specialty", dict_get provider_info "specialty" (VStr ""));
      ("phone", dict_get provider_info "phone" (VStr ""));
      ("license_number", py_or (dict_get provider_info "license_number" VNone)
                               (dict_get provider_info "license" (VStr "")));
      ("last_updated", py_or (dict_get provider_info "last_updated" VNone)
                             (dict_get provider_info "lastUpdated" (VStr "2024-01-01"))) ].

(** The canonical fields read under one name, and those read under two. *)
Definition plain_fields : list string :=
  [ "address"; "city"; "state"; "website"; "specialty"; "phone" ].

Definition variant_fields : list (string * string) :=
  [ ("full_name", "fullName"); ("NPI", "npi"); ("zip_code", "zipCode");
    ("license_number", "license") ].

(** ** What main.py takes from outside

    [invoke] is [validation_agent_app.invoke] of agent.py: it maps the
    initial agent state to the final one, or raises. The other three are
    Python's text conversions, whose digits and quoting no property below
    depends on: [int_of_str] is [int(s)] on text, [py_str] is [str(v)] as an
    f-string renders a value, [percent1] is [format(x, ".1%")] on a number. *)

Class Host : Type := {
  invoke : value -> result value;
  int_of_str : string -> result Z;
  py_str : value -> string;
  percent1 : value -> string;
}.

Section Endpoints.

Context `{Host}.

(** [int(v)] *)
Definition py_int (v : value) : result Z :=
  match v with
  | VBool b => Ok (if b then 1 else 0)%Z
  | VInt n => Ok n
  | VFloat f => float_to_int f
  | VStr s => int_of_str s
  | VNone | VList _ | VDict _ =>
      Raise (Exn "TypeError"
               ("int() argument must be a string, a bytes-like object or a real number, not '"
                +:+ type_name v +:+ "'"))
  end.

(** [f"{int(v * 100)}%"] *)
Definition percentage (v : value) : result value :=
  let! x := mul_100 v in
  let! n := py_int x in
  Ok (VStr (str_int n +:+ "%")).

(** [literal.get(key, default)] on a dictionary display whose keys are all
    strings: lists and dictionaries are unhashable, any other key that is
    not a string is absent. *)
Definition literal_get (literal : gmap string value) (key default : value)
  : result value :=
  match key with
  | VStr s => Ok (dict_get literal s default)
  | VList _ | VDict _ =>
      Raise (Exn "TypeError" ("unhashable type: '" +:+ type_name key +:+ "'"))
  | _ => Ok default
  end.

Definition zero_score_breakdown : gmap string value :=
  dict_literal
    [ ("identity", VFloat 0); ("address", VFloat 0); ("completeness", VFloat 0);
      ("freshness", VFloat 0); ("enrichment", VFloat 0); ("risk", VFloat 0) ].

(** The fallback for a missing [dimension_percentages]: the comprehension
    over [score_breakdown.items()], then [risk] renamed to [risk_penalty].
    Entries are visited in the order of [map_to_list]; with several
    malformed entries Python raises for the first one in insertion order. *)
Definition percentages_of (score_breakdown : value) : result value :=
  let! items := has_items score_breakdown in
  let! entries := mapM (fun kv => let! p := percentage kv.2 in Ok (kv.1, p)) items in
  let dimension_percentages := dict_literal entries in
  Ok (VDict (<["risk_penalty" := dict_get dimension_percentages "risk" (VStr "0%")]>
               (delete "risk" dimension_percentages))).

Definition tier_emoji_table : gmap string value :=
  dict_literal
    [ ("PLATINUM", VStr GLYPH_PLATINUM); ("GOLD", VStr GLYPH_GOLD);
      ("QUESTIONABLE", VStr GLYPH_QUESTIONABLE) ].

(** ** format_result_for_frontend *)

(** The ["verification_status"] entry of the returned dictionary. *)
Definition verification_status
    (fr npi_result oig_leie_result state_board_result address_result
       : gmap string value) : value :=
  VDict (dict_literal
    [ ("nppes_verified", VBool (truthy (dict_get npi_result "result_count" (VInt 0))));
      ("oig_clear",
        VBool (negb (truthy (dict_get oig_leie_result "is_excluded" (VBool false)))));
      ("license_active",
        VBool (eq_str (dict_get state_board_result "status" VNone) "Active"));
      ("address_validated",
        dict_get address_result "is_medical_facility" (VBool false));
      ("digital_footprint_score", dict_get fr "digital_footprint_score" (VInt 0)) ]).

(** The dictionary of the [return] statement, once the lookups that can
    raise have been made. *)
Definition frontend_result
    (fr qm provider_info : gmap string value)
    (score_breakdown dimension_percentages tier tier_emoji : value)
    (npi_result oig_leie_result state_board_result address_result
       : gmap string value) : value :=
  VDict (dict_literal
    [ ("original_data", VDict provider_info);
      ("final_profile",
        py_or (dict_get fr "final_profile" VNone)
          (py_or (dict_get fr "golden_record" VNone)
             (VDict (dict_literal
                [ ("provider_name", dict_get provider_info "full_name" (VStr "Unknown Provider"));
                  ("npi", dict_get provider_info "NPI" (VStr "N/A"));
                  ("specialty", dict_get provider_info "specialty" (VStr "N/A")) ]))));
      ("confidence_score", dict_get fr "confidence_score" (VInt 0));
      ("requires_human_review", dict_get fr "requires_human_review" (VBool false));
      ("review_reason", dict_get fr "review_reason" (VStr ""));
      ("path", dict_get qm "path" (VStr "UNKNOWN"));
      ("qa_flags", dict_get fr "qa_flags" (VList []));
      ("fraud_indicators", dict_get fr "fraud_indicators" (VList []));
      ("qa_corrections", dict_get fr "qa_corrections" (VDict ∅));
      ("quality_metrics",
        VDict (dict_update qm
          [ ("score_breakdown", score_breakdown);
            ("dimension_percentages", dimension_percentages);
            ("confidence_tier", tier);
            ("tier_emoji", tier_emoji);
            ("tier_description", dict_get qm "tier_description" (VStr ""));
            ("flag_severity", dict_get qm "flag_severity" (VDict ∅));
            ("risk_score", dict_get qm "risk_score" (VInt 0));
            ("fraud_indicator_count", dict_get qm "fraud_indicator_count" (VInt 0));
            ("conflict_count", dict_get qm "conflict_count" (VInt 0)) ]));
      ("execution_metadata", dict_get fr "execution_metadata" (VDict ∅));
      ("verification_status",
        verification_status fr npi_result oig_leie_result state_board_result
          address_result) ]).

Definition format_result_for_frontend
    (final_result : value) (provider_info : gmap string value) : result value :=
  let! fr := has_get final_result in
  let quality_metrics := dict_get fr "quality_metrics" (VDict ∅) in
  let! qm := has_get quality_metrics in
  let score_breakdown := dict_get qm "score_breakdown" (VDict ∅) in
  let dimension_percentages := dict_get qm "dimension_percentages" (VDict ∅) in
  let score_breakdown :=
    if negb (truthy score_breakdown) then VDict zero_score_breakdown
    else score_breakdown in
  let! dimension_percentages :=
    (if negb (truthy dimension_percentages) then percentages_of score_breakdown
     else Ok dimension_percentages) in
  let tier := dict_get qm "confidence_tier" (VStr "UNKNOWN") in
  let! tier_emoji := literal_get tier_emoji_table tier (VStr GLYPH_CHART) in
  let! npi_result := has_get (dict_get fr "npi_result" (VDict ∅)) in
  let! oig_leie_result := has_get (dict_get fr "oig_leie_result" (VDict ∅)) in
  let! state_board_result := has_get (dict_get fr "state_board_result" (VDict ∅)) in
  let! address_result := has_get (dict_get fr "address_result" (VDict ∅)) in
  Ok (frontend_result fr qm provider_info score_breakdown dimension_percentages
        tier tier_emoji npi_result oig_leie_result state_board_result address_result).

(** The score breakdown and the percentages the formatter settles on. *)
Definition chosen_breakdown (qm : gmap string value) : value :=
  if negb (truthy (dict_get qm "score_breakdown" (VDict ∅)))
  then VDict zero_score_breakdown
  else dict_get qm "score_breakdown" (VDict ∅).

Definition chosen_percentages (qm : gmap string value) : result value :=
  if negb (truthy (dict_get qm "dimension_percentages" (VDict ∅)))
  then percentages_of (chosen_breakdown qm)
  else Ok (dict_get qm "dimension_percentages" (VDict ∅)).

(** The keys of a formatted result and of an error result. *)
Definition frontend_keys : list string :=
  [ "original_data"; "final_profile"; "confidence_score"; "requires_human_review";
    "review_reason"; "path"; "qa_flags"; "fraud_indicators"; "qa_corrections";
    "quality_metrics"; "execution_metadata"; "verification_status" ].

Definition error_keys : list string :=
  [ "original_data"; "confidence_score"; "path"; "requires_human_review";
    "review_reason" ].

(** What the [verification_status] block of a formatted result [r] is, given
    the agent result [final_result]: the evidence entries are dictionaries
    (the empty one when absent) and the five entries of the block are read
    off them; "true" and "nonzero" are Python's truth values. *)
Definition verification_status_spec (final_result r : value) : Prop :=
  exists fr npi oig board addr d vs,
    final_result = VDict fr
    /\ dict_get fr "npi_result" (VDict ∅) = VDict npi
    /\ dict_get fr "oig_leie_result" (VDict ∅) = VDict oig
    /\ dict_get fr "state_board_result" (VDict ∅) = VDict board
    /\ dict_get fr "address_result" (VDict ∅) = VDict addr
    /\ r = VDict d
    /\ d !! "verification_status" = Some (VDict vs)
    /\ dom vs = list_to_set [ "nppes_verified"; "oig_clear"; "license_active";
                              "address_validated"; "digital_footprint_score" ]
    /\ (exists b, vs !! "nppes_verified" = Some (VBool b)
          /\ (b = true <->
              exists v, npi !! "result_count" = Some v /\ truthy v = true)
          /\ (forall n, npi !! "result_count" = Some (VInt n) ->
              (b = true <-> n <> 0%Z)))
    /\ (exists b, vs !! "oig_clear" = Some (VBool b)
          /\ (b = true <->
              oig !! "is_excluded" = None
              \/ exists v, oig !! "is_excluded" = Some v /\ truthy v = false)
          /\ (forall x, oig !! "is_excluded" = Some (VBool x) ->
              (b = true <-> x <> true)))
    /\ (exists b, vs !! "license_active" = Some (VBool b)
          /\ (b = true <-> board !! "status" = Some (VStr "Active")))
    /\ vs !! "address_validated"
       = Some (dict_get addr "is_medical_facility" (VBool false))
    /\ (vs !! "address_validated" = Some (VBool true)
        <-> addr !! "is_medical_facility" = Some (VBool true))
    /\ vs !! "digital_footprint_score"
       = Some (dict_get fr "digital_footprint_score" (VInt 0)).

(** The state both endpoints hand to the agent. *)
Definition initial_state (normalized_data : gmap string value) : value :=
  VDict (dict_literal
    [ ("initial_data", VDict normalized_data);
      ("log", VList []);
      ("npi_result", VDict ∅);
      ("oig_leie_result", VDict ∅);
      ("state_board_result", VDict ∅);
      ("address_result", VDict ∅);
      ("web_enrichment_data", VDict ∅);
      ("digital_footprint_score", VFloat 0);
      ("qa_flags", VList []);
      ("qa_corrections", VDict ∅);
      ("fraud_indicators", VList []);
      ("conflicting_data", VList []);
      ("golden_record", VDict ∅);
      ("confidence_score", VFloat 0);
      ("confidence_breakdown", VDict ∅);
      ("requires_human_review", VBool false);
      ("review_reason", VStr "");
      ("final_profile", VDict ∅);
      ("execution_metadata", VDict ∅);
      ("data_provenance", VDict ∅);
      ("quality_metrics", VDict ∅) ]).

(** ** The result queue of one /validate-file request

    A worker talks to the stream through [result_queue]: it puts
    [('log', text)] and [('result', payload)] tuples. A worker computation
    threads the queue and may raise; what was put before a raise stays put. *)

Inductive event : Type :=
| Log (content : string)
| Result (data : value).

Definition task_m (A : Type) : Type := list event -> result A * list event.

Definition task_ret {A : Type} (a : A) : task_m A := fun q => (Ok a, q).

Definition task_bind {A B : Type} (m : task_m A) (k : A -> task_m B) : task_m B :=
  fun q =>
    match m q with
    | (Ok a, q') => k a q'
    | (Raise e, q') => (Raise e, q')
    end.

(** A pure step of the worker. *)
Definition lift {A : Type} (r : result A) : task_m A := fun q => (r, q).

(** [await result_queue.put(e)]: the queue is unbounded. *)
Definition put (e : event) : task_m unit := fun q => (Ok tt, (q ++ [e])%list).

(** [try: body  except Exception as e: handler(e)] *)
Definition task_try {A : Type} (body : task_m A) (handler : exn -> task_m A) : task_m A :=
  fun q =>
    match body q with
    | (Ok a, q') => (Ok a, q')
    | (Raise e, q') => handler e q'
    end.

Definition try_except {A : Type} (body : result A) (handler : exn -> result A) : result A :=
  match body with
  | Ok a => Ok a
  | Raise e => handler e
  end.

Notation "'do!' x ':=' m 'in' k" := (task_bind m (fun x => k))
  (at level 10, x name, m at level 100, k at level 200).
Notation "m ';;' k" := (task_bind m (fun _ => k))
  (at level 100, k at level 200, right associativity, only parsing).

(** [f"{x:.1%}"]: numbers are rendered, anything else has no such format. *)
Definition format_percent1 (v : value) : result string :=
  match v with
  | VBool _ | VInt _ | VFloat _ => Ok (percent1 v)
  | VStr _ =>
      Raise (Exn "ValueError" "Unknown format code '%' for object of type 'str'")
  | VNone | VList _ | VDict _ =>
      Raise (Exn "TypeError"
               ("unsupported format string passed to " +:+ type_name v +:+ ".__format__"))
  end.

(** [f"[{index + 1}/{total_records}]"] *)
Definition position (index total_records : nat) : string :=
  "[" +:+ str_int (Z.of_nat index + 1) +:+ "/" +:+ str_int (Z.of_nat total_records) +:+ "]".

(** The dictionary the worker's [except] branch puts on the queue. *)
Definition worker_error_result (provider_info : value) (e : exn) : value :=
  VDict (dict_literal
    [ ("original_data", provider_info);
      ("error", VStr (exn_msg e));
      ("confidence_score", VInt 0);
      ("path", VStr "ERROR");
      ("requires_human_review", VBool true);
      ("review_reason", VStr ("Processing error: " +:+ exn_msg e)) ]).

(** ** worker (of /validate-file) *)

(** The [try] block. *)
Definition worker_body (provider_info : value) (index total_records : nat)
  : task_m unit :=
  do! info := lift (has_get provider_info) in
  let provider_name :=
    py_or (dict_get info "full_name" VNone)
          (dict_get info "fullName"
             (VStr ("Record " +:+ str_int (Z.of_nat index + 1)))) in
  put (Log (GLYPH_PROCESSING +:+ " " +:+ position index total_records
            +:+ " Processing: " +:+ py_str provider_name)) ;;
  let normalized_data := normalize_provider_data info in
  do! final_result := lift (invoke (initial_state normalized_data)) in
  do! result_payload := lift (format_result_for_frontend final_result info) in
  do! payload := lift (has_get result_payload) in
  let path := dict_get payload "path" (VStr "UNKNOWN") in
  let path_emoji :=
    if eq_str path "GREEN" then GLYPH_PLATINUM
    else if eq_str path "YELLOW" then GLYPH_GOLD
    else GLYPH_QUESTIONABLE in
  let confidence := dict_get payload "confidence_score" (VInt 0) in
  do! shown := lift (format_percent1 confidence) in
  let completion_msg :=
    path_emoji +:+ " " +:+ position index total_records +:+ " "
    +:+ py_str provider_name +:+ " - " +:+ py_str path +:+ " PATH (" +:+ shown +:+ ")" in
  put (Log completion_msg) ;;
  put (Result result_payload).

Definition worker (provider_info : value) (index total_records : nat) : task_m unit :=
  task_try (worker_body provider_info index total_records)
    (fun e =>
       let error_msg :=
         GLYPH_CROSS +:+ " Error processing record " +:+ str_int (Z.of_nat index + 1)
         +:+ ": " +:+ exn_msg e in
       put (Log error_msg) ;;
       put (Result (worker_error_result provider_info e))).

(** What one worker puts on an empty queue, in order. *)
Definition worker_events (provider_info : value) (index total_records : nat)
  : list event :=
  (worker provider_info index total_records []).2.

(** ** validate_single_provider (/validate-single)

    The request body is a JSON object. The [print] and traceback of the
    [except] branch go to the console and are left out. *)

Definition validate_single_body (provider_data : gmap string value) : result value :=
  let normalized_data := normalize_provider_data provider_data in
  let! final_result := invoke (initial_state normalized_data) in
  let! result_payload := format_result_for_frontend final_result provider_data in
  Ok (VDict (dict_literal [ ("status", VStr "success"); ("data", result_payload) ])).

Definition single_error_data (provider_data : gmap string value) (e : exn) : value :=
  VDict (dict_literal
    [ ("original_data", VDict provider_data);
      ("confidence_score", VInt 0);
      ("path", VStr "ERROR");
      ("requires_human_review", VBool true);
      ("review_reason", VStr ("Processing error: " +:+ exn_msg e)) ]).

Definition validate_single_provider (provider_data : gmap string value) : result value :=
  try_except (validate_single_body provider_data)
    (fun e =>
       Ok (VDict (dict_literal
         [ ("status", VStr "error");
           ("error", VStr (exn_msg e));
           ("data", single_error_data provider_data e) ]))).

(** ** The dimension table of /api/analytics/confidence-breakdown

    [dimensions] is the list built for one stored row from its
    [score_breakdown]: six entries with a score in percent, a maximum and
    the weight of the dimension in percent. *)

Definition NL : string := String (Ascii.ascii_of_nat 10) "".

(** The rows of the [dimensions] display, a list of six dictionaries in the
    source: label, key of [score_breakdown], weight in percent. *)
Definition dimension_table : list (string * string * Z) :=
  [ ("Primary" +:+ NL +:+ "Source", "identity", 35%Z);
    ("Address" +:+ NL +:+ "Reliability", "address", 20%Z);
    ("Digital" +:+ NL +:+ "Footprint", "enrichment", 15%Z);
    ("Data" +:+ NL +:+ "Completeness", "completeness", 15%Z);
    ("Data" +:+ NL +:+ "Freshness", "freshness", 10%Z);
    ("Fraud" +:+ NL +:+ "Risk", "risk", 5%Z) ].

(** [int(sb.get(key, 0) * 100)] *)
Definition percent_score (sb : gmap string value) (key : string) : result Z :=
  let! x := mul_100 (dict_get sb key (VInt 0)) in
  py_int x.

(** One entry: [{"dimension": label, "score": int(sb.get(key, 0) * 100),
    "max": 100, "weight": weight}]. *)
Definition dimension_entry (sb : gmap string value) (row : string * string * Z)
  : result value :=
  let '(label, key, weight) := row in
  let! score := percent_score sb key in
  Ok (VDict (dict_literal
    [ ("dimension", VStr label); ("score", VInt score);
      ("max", VInt 100); ("weight", VInt weight) ])).

(** The entries are built in the order of the display. *)
Definition dimensions (score_breakdown : value) : result (list value) :=
  let! sb := has_get score_breakdown in
  mapM (dimension_entry sb) dimension_table.

(** The ["weight"] of an entry of the table. *)
Definition weight_of (entry : value) : Z :=
  match entry with
  | VDict d => match d !! "weight" with Some (VInt w) => w | _ => 0%Z end
  | _ => 0%Z
  end.

Definition total_weight (table : list value) : Z :=
  fold_right Z.add 0%Z (map weight_of table).

(** ** file_processor_stream, from the parsed [provider_list] on

    One request is a transition system. Every record has a task
    ([bounded_worker]): it waits for the semaphore, runs [worker], which puts
    its events on [result_queue] one by one, and releases the semaphore. The
    generator takes events off the queue and yields them as server-sent
    events, counting the results; on a 2 s timeout with every task done it
    leaves the loop, awaits the tasks, yields what is left in the queue and
    closes. The schedule (which task or the generator moves next) is free;
    a timeout that finds a task still running changes nothing and is not a
    step. *)

Inductive sse : Type :=
| SseLog (content : string)
| SseResult (data : value)
| SseClose (content : string).

Definition sse_of (e : event) : sse :=
  match e with
  | Log content => SseLog content
  | Result data => SseResult data
  end.

Inductive task : Type :=
| Waiting
| Running (todo : list event)
| Finished.

Inductive phase : Type :=
| MainLoop
| Gather
| Drain
| Closed.

Record stream : Type := Stream {
  semaphore : nat;
  tasks : list task;
  result_queue : list event;
  yielded : list sse;
  completed : nat;
  at_phase : phase;
}.

Definition is_result (e : event) : bool :=
  match e with
  | Result _ => true
  | Log _ => false
  end.

Definition done (t : task) : bool :=
  match t with
  | Finished => true
  | _ => false
  end.

Definition running (t : task) : bool :=
  match t with
  | Running _ => true
  | _ => false
  end.

(** The number of workers inside [async with semaphore]. *)
Definition running_workers (s : stream) : nat :=
  length (List.filter running (tasks s)).

(** The stream once the upload has been parsed: closed at once when there is
    no record (no semaphore exists then), else one waiting task per record. *)
Definition stream_start (provider_list : list value) : stream :=
  let total_records := length provider_list in
  if (total_records =? 0)%nat then
    Stream MAX_CONCURRENT_WORKERS [] []
      [ SseLog (GLYPH_CROSS +:+ " No records found in file");
        SseClose "Stream closed." ] 0 Closed
  else
    Stream MAX_CONCURRENT_WORKERS (replicate total_records Waiting) []
      [ SseLog (GLYPH_ROCKET +:+ " Found " +:+ str_int (Z.of_nat total_records)
                +:+ " records. Processing...") ] 0 MainLoop.

Inductive action : Type :=
| Acquire (i : nat)
| Put (i : nat)
| Release (i : nat)
| Receive
| TimeoutBreak
| LoopExit
| Gathered
| DrainItem
| Close.

(** [fire provider_list a s]: the state after [a], when [a] is enabled. *)
Definition fire (provider_list : list value) (a : action) (s : stream)
  : option stream :=
  let total_records := length provider_list in
  match a with
  | Acquire i =>
      match tasks s !! i, provider_list !! i, semaphore s with
      | Some Waiting, Some provider, S n =>
          Some (Stream n
                  (<[i := Running (worker_events provider i total_records)]> (tasks s))
                  (result_queue s) (yielded s) (completed s) (at_phase s))
      | _, _, _ => None
      end
  | Put i =>
      match tasks s !! i with
      | Some (Running (e :: todo)) =>
          Some (Stream (semaphore s) (<[i := Running todo]> (tasks s))
                  (result_queue s ++ [e])%list (yielded s) (completed s) (at_phase s))
      | _ => None
      end
  | Release i =>
      match tasks s !! i with
      | Some (Running []) =>
          Some (Stream (S (semaphore s)) (<[i := Finished]> (tasks s))
                  (result_queue s) (yielded s) (completed s) (at_phase s))
      | _ => None
      end
  | Receive =>
      match at_phase s, result_queue s with
      | MainLoop, e :: q =>
          if (completed s <? total_records)%nat then
            Some (Stream (semaphore s) (tasks s) q (yielded s ++ [sse_of e])%list
                    (if is_result e then S (completed s) else completed s) MainLoop)
          else None
      | _, _ => None
      end
  | TimeoutBreak =>
      match at_phase s, result_queue s with
      | MainLoop, [] =>
          if (completed s <? total_records)%nat && forallb done (tasks s) then
            Some (Stream (semaphore s) (tasks s) [] (yielded s) (completed s) Gather)
          else None
      | _, _ => None
      end
  | LoopExit =>
      match at_phase s with
      | MainLoop =>
          if (completed s <? total_records)%nat then None
          else Some (Stream (semaphore s) (tasks s) (result_queue s) (yielded s)
                       (completed s) Gather)
      | _ => None
      end
  | Gathered =>
      match at_phase s with
      | Gather =>
          if forallb done (tasks s) then
            Some (Stream (semaphore s) (tasks s) (result_queue s) (yielded s)
                    (completed s) Drain)
          else None
      | _ => None
      end
  | DrainItem =>
      match at_phase s, result_queue s with
      | Drain, e :: q =>
          Some (Stream (semaphore s) (tasks s) q (yielded s ++ [sse_of e])%list
                  (completed s) Drain)
      | _, _ => None
      end
  | Close =>
      match at_phase s, result_queue s with
      | Drain, [] =>
          Some (Stream (semaphore s) (tasks s) []
                  (yielded s ++
                     [ SseLog (GLYPH_CHECK +:+ " Complete! "
                               +:+ str_int (Z.of_nat total_records) +:+ " records validated.");
                       SseClose "Stream closed." ])%list
                  (completed s) Closed)
      | _, _ => None
      end
  end.

(** [run provider_list schedule s]: fire the actions of [schedule] in order. *)
Fixpoint run (provider_list : list value) (schedule : list action) (s : stream)
  : option stream :=
  match schedule with
  | [] => Some s
  | a :: schedule' =>
      match fire provider_list a s with
      | Some s' => run provider_list schedule' s'
      | None => None
      end
  end.

Definition reachable (provider_list : list value) (s : stream) : Prop :=
  exists schedule, run provider_list schedule (stream_start provider_list) = Some s.

(** The ['result'] events of the response, in the order they were yielded. *)
Definition results_yielded (s : stream) : list value :=
  omap (fun m => match m with SseResult data => Some data | _ => None end) (yielded s).

(** The payloads of the ['result'] tuples among queue events. *)
Definition results_put (q : list event) : list value :=
  omap (fun e => match e with Result data => Some data | Log _ => None end) q.

(** What the workers of a batch put as results, record by record, from
    record [index] on. *)
Fixpoint results_from (total_records index : nat) (providers : list value)
  : list value :=
  match providers with
  | [] => []
  | provider :: rest =>
      results_put (worker_events provider index total_records)
      ++ results_from total_records (S index) rest
  end.

Definition expected_results (provider_list : list value) : list value :=
  results_from (length provider_list) 0 provider_list.

End Endpoints.

(** ** The request as a relation, and what its proofs count *)

(** The tasks inside [async with semaphore]. *)
Definition count_running (ts : list task) : nat :=
  length (List.filter running ts).

(** The semaphore counts the free slots. *)
Definition semaphore_invariant (s : stream) : Prop :=
  (semaphore s + running_workers s = MAX_CONCURRENT_WORKERS)%nat.

(** [gather f i providers ts]: what [f] gives for each record and its task,
    counting records from [i]. *)
Fixpoint gather {A : Type} (f : nat -> value -> task -> list A) (i : nat)
    (providers : list value) (ts : list task) : list A :=
  match providers, ts with
  | provider :: providers', t :: ts' => f i provider t ++ gather f (S i) providers' ts'
  | _, _ => []
  end.

Section StreamModel.

Context `{Host}.

Variable provider_list : list value.

(** The actions of [fire], as a relation. *)
Inductive step : action -> stream -> stream -> Prop :=
| step_acquire i provider n s :
    tasks s !! i = Some Waiting ->
    provider_list !! i = Some provider ->
    semaphore s = S n ->
    step (Acquire i) s
      (Stream n
         (<[i := Running (worker_events provider i (length provider_list))]> (tasks s))
         (result_queue s) (yielded s) (completed s) (at_phase s))
| step_put i e todo s :
    tasks s !! i = Some (Running (e :: todo)) ->
    step (Put i) s
      (Stream (semaphore s) (<[i := Running todo]> (tasks s))
         (result_queue s ++ [e]) (yielded s) (completed s) (at_phase s))
| step_release i s :
    tasks s !! i = Some (Running []) ->
    step (Release i) s
      (Stream (S (semaphore s)) (<[i := Finished]> (tasks s))
         (result_queue s) (yielded s) (completed s) (at_phase s))
| step_receive e q s :
    at_phase s = MainLoop ->
    result_queue s = e :: q ->
    (completed s < length provider_list)%nat ->
    step Receive s
      (Stream (semaphore s) (tasks s) q (yielded s ++ [sse_of e])
         (if is_result e then S (completed s) else completed s) MainLoop)
| step_timeout_break s :
    at_phase s = MainLoop ->
    result_queue s = [] ->
    (completed s < length provider_list)%nat ->
    forallb done (tasks s) = true ->
    step TimeoutBreak s
      (Stream (semaphore s) (tasks s) [] (yielded s) (completed s) Gather)
| step_loop_exit s :
    at_phase s = MainLoop ->
    ~ (completed s < length provider_list)%nat ->
    step LoopExit s
      (Stream (semaphore s) (tasks s) (result_queue s) (yielded s) (completed s) Gather)
| step_gathered s :
    at_phase s = Gather ->
    forallb done (tasks s) = true ->
    step Gathered s
      (Stream (semaphore s) (tasks s) (result_queue s) (yielded s) (completed s) Drain)
| step_drain_item e q s :
    at_phase s = Drain ->
    result_queue s = e :: q ->
    step DrainItem s
      (Stream (semaphore s) (tasks s) q (yielded s ++ [sse_of e]) (completed s) Drain)
| step_close s :
    at_phase s = Drain ->
    result_queue s = [] ->
    step Close s
      (Stream (semaphore s) (tasks s) []
         (yielded s ++
            [ SseLog (GLYPH_CHECK +:+ " Complete! "
                      +:+ str_int (Z.of_nat (length provider_list))
                      +:+ " records validated.");
              SseClose "Stream closed." ])
         (completed s) Closed).

(** The results a task has still to put. *)
Definition owed (i : nat) (provider : value) (t : task) : list value :=
  match t with
  | Waiting => results_put (worker_events provider i (length provider_list))
  | Running todo => results_put todo
  | Finished => []
  end.

(** Every result is in exactly one place: yielded, in the queue, or still
    owed by its task; once the tasks have been awaited they are all done,
    and the stream closes on an empty queue. *)
Definition results_invariant (s : stream) : Prop :=
  length (tasks s) = length provider_list
  /\ results_yielded s ++ results_put (result_queue s)
       ++ gather owed 0 provider_list (tasks s)
     ≡ₚ expected_results provider_list
  /\ (at_phase s = Drain \/ at_phase s = Closed -> forallb done (tasks s) = true)
  /\ (at_phase s = Closed -> result_queue s = []).

(** The work left: two units per event a task has still to put and one per
    queued event, one or two for the task's own moves, and the phases the
    generator has still to go through. *)
Definition weight (i : nat) (provider : value) (t : task) : list unit :=
  match t with
  | Waiting =>
      replicate (2 * length (worker_events provider i (length provider_list)) + 2) tt
  | Running todo => replicate (2 * length todo + 1) tt
  | Finished => []
  end.

Definition phase_rank (p : phase) : nat :=
  match p with
  | MainLoop => 3
  | Gather => 2
  | Drain => 1
  | Closed => 0
  end.

Definition remaining (s : stream) : nat :=
  (length (gather weight 0 provider_list (tasks s)) + length (result_queue s)
   + phase_rank (at_phase s))%nat.

End StreamModel.

(** ** What the response of /validate-file is made of *)

Section StreamDelivery.

Context `{Host}.

(** The events the workers of a batch put, record by record, from record
    [index] on. *)
Fixpoint events_from (total_records index : nat) (providers : list value)
  : list event :=
  match providers with
  | [] => []
  | provider :: rest =>
      worker_events provider index total_records
      ++ events_from total_records (S index) rest
  end.

Definition expected_events (provider_list : list value) : list event :=
  events_from (length provider_list) 0 provider_list.

Variable provider_list : list value.

(** The events a task has still to put. *)
Definition unsent (i : nat) (provider : value) (t : task) : list event :=
  match t with
  | Waiting => worker_events provider i (length provider_list)
  | Running todo => todo
  | Finished => []
  end.

(** The first line of the response to a batch with records, and its last
    two. *)
Definition opening_line : sse :=
  SseLog (GLYPH_ROCKET +:+ " Found " +:+ str_int (Z.of_nat (length provider_list))
          +:+ " records. Processing...").

Definition closing_lines : list sse :=
  [ SseLog (GLYPH_CHECK +:+ " Complete! " +:+ str_int (Z.of_nat (length provider_list))
            +:+ " records validated.");
    SseClose "Stream closed." ].

(** What a running worker has left to put is nothing, or ends with its
    result. *)
Definition ends_with_result (todo : list event) : Prop :=
  todo = [] \/ exists r, last todo = Some (Result r).

(** Where every event of a batch is: received by the generator (and
    yielded, between the opening line and the closing lines), in the queue,
    or not yet put by its task. The counter of the main loop counts the
    results received, and once the loop is left they have all been
    received. A queue that is not empty ends with a result, or some task has
    a result still to put. *)
Definition delivery_invariant (s : stream) : Prop :=
  (provider_list = [] /\ s = stream_start provider_list)
  \/ (provider_list <> []
      /\ length (tasks s) = length provider_list
      /\ exists received : list event,
           received ++ result_queue s ++ gather unsent 0 provider_list (tasks s)
           ≡ₚ expected_events provider_list
           /\ (at_phase s <> Closed -> yielded s = opening_line :: map sse_of received)
           /\ (at_phase s = Closed ->
               yielded s = opening_line :: map sse_of received ++ closing_lines)
           /\ (at_phase s = MainLoop -> completed s = length (results_put received))
           /\ (at_phase s <> MainLoop ->
               length (results_put received) = length provider_list)
           /\ (forall i todo, tasks s !! i = Some (Running todo) -> ends_with_result todo)
           /\ (result_queue s <> [] ->
               (exists r, last (result_queue s) = Some (Result r))
               \/ (0 < length (results_put (gather unsent 0 provider_list (tasks s))))%nat)).

End StreamDelivery.

(** ** The order of a record's events in the response *)

(** [interleaved parts whole]: [whole] is built by appending, one element at
    a time, to one of the [parts], which all start empty. *)
Inductive interleaved {A : Type} : list (list A) -> list A -> Prop :=
| interleaved_start parts :
    Forall (fun part => part = []) parts -> interleaved parts []
| interleaved_snoc parts i part x whole :
    parts !! i = Some part ->
    interleaved parts whole ->
    interleaved (<[i := part ++ [x]]> parts) (whole ++ [x]).

Section StreamOrder.

Context `{Host}.

Variable provider_list : list value.

(** The events each worker puts, record by record. *)
Definition events_by_record : list (list event) :=
  imap (fun i provider => worker_events provider i (length provider_list))
       provider_list.

(** The events received by the generator and those in the queue, in this
    order, interleave what the workers have put so far, and what a worker has
    put so far is the start of its events. *)
Definition order_invariant (s : stream) : Prop :=
  provider_list <> [] ->
  exists (received : list event) (sent : list (list event)),
    interleaved sent (received ++ result_queue s)
    /\ length sent = length provider_list
    /\ length (tasks s) = length provider_list
    /\ (forall i provider t part,
          provider_list !! i = Some provider ->
          tasks s !! i = Some t ->
          sent !! i = Some part ->
          part ++ unsent provider_list i provider t
          = worker_events provider i (length provider_list))
    /\ (at_phase s <> Closed ->
        yielded s = opening_line provider_list :: map sse_of received)
    /\ (at_phase s = Closed ->
        yielded s
        = opening_line provider_list :: map sse_of received
          ++ closing_lines provider_list).

End StreamOrder.

(** ** The response of /validate-file, from the upload on

    Before the records are processed the generator writes the upload to a
    temporary file and reads the records from it, by the suffix of the file
    name. What the request gets from outside: the file name (which may be
    [None]), the outcome of writing the temporary file, and the outcomes of
    [pd.read_csv(...).fillna("").to_dict(orient='records')] and of
    [parse_provider_pdf] (tools.py), each the list of the records or an
    exception. *)

Definition GLYPH_PAGE : string := glyph [239; 163; 191; 195; 188; 195; 172; 195; 145]%N.
Definition GLYPH_LENS : string := glyph [239; 163; 191; 195; 188; 195; 174; 195; 167]%N.

Record upload : Type := Upload {
  file_filename : option string;
  written : result unit;
  read_csv : result (list value);
  parse_provider_pdf : result (list value);
}.

(** [s.endswith(suffix)] *)
Definition endswith (s suffix : string) : bool :=
  let n := String.length s in
  let m := String.length suffix in
  (m <=? n)%nat && String.eqb (substring (n - m) m s) suffix.

Section Response.

Context `{Host}.

(** The events yielded while the upload is read, and how the reading ends:
    with the records to process, with the [return] taken for a file that is
    neither CSV nor PDF ([None]), or with an exception. A PDF whose first
    record is a dictionary with a truthy ["error"] is reported and gives no
    record. *)
Definition read_upload (u : upload) : list sse * result (option (list value)) :=
  match written u with
  | Raise e => ([], Raise e)
  | Ok _ =>
      match file_filename u with
      | None => ([], Raise (AttributeError VNone "endswith"))
      | Some name =>
          if endswith name ".csv" then
            let lines := [ SseLog (GLYPH_PAGE +:+ " Reading CSV file...") ] in
            match read_csv u with
            | Ok provider_list => (lines, Ok (Some provider_list))
            | Raise e => (lines, Raise e)
            end
          else if endswith name ".pdf" then
            let lines := [ SseLog (GLYPH_LENS +:+ " Parsing PDF with Vision AI...") ] in
            match parse_provider_pdf u with
            | Ok provider_list =>
                match provider_list with
                | VDict first :: _ =>
                    if truthy (dict_get first "error" VNone) then
                      (lines ++ [ SseLog (GLYPH_CROSS +:+ " PDF Error: "
                                          +:+ py_str (dict_get first "error" VNone)) ],
                       Ok (Some []))
                    else (lines, Ok (Some provider_list))
                | _ => (lines, Ok (Some provider_list))
                end
            | Raise e => (lines, Raise e)
            end
          else ([ SseLog (GLYPH_CROSS +:+ " Unsupported file format") ], Ok None)
      end
  end.

(** The line of the outer [except]. *)
Definition critical_line (e : exn) : sse :=
  SseLog (GLYPH_CROSS +:+ " Critical error: " +:+ exn_type e +:+ ": " +:+ exn_msg e).

(** [response u events]: [events] is what the generator yields, from its
    first event to its last, on a run to the end: the events of the reading,
    then those of a closed stream of the records, or the close event of
    [finally] alone after the [return], or the line of the outer [except]
    and the close event. *)
Definition response (u : upload) (events : list sse) : Prop :=
  match read_upload u with
  | (lines, Ok (Some provider_list)) =>
      exists s,
        reachable provider_list s /\ at_phase s = Closed
        /\ events = lines ++ yielded s
  | (lines, Ok None) => events = lines ++ [ SseClose "Stream closed." ]
  | (lines, Raise e) =>
      events = lines ++ [ critical_line e; SseClose "Stream closed." ]
  end.

End Response.

(** ** Scoring and routing of the agent *)

Module Routing.

(** Modelled from the spec: the confidence tiers of section 3
    (ConfidenceResult); the agent that computes them is agent.py, which is
    not among the source files. *)
Inductive tier : Type := PLATINUM | GOLD | QUESTIONABLE.

(** Modelled from the spec: the routing paths of section 3 (ConfidenceResult). *)
Inductive path : Type := GREEN | YELLOW | RED.

(** Modelled from the spec: what the Scoring Engine of section 4.5 and the
    Review Router of section 4.6 read: the six dimension values, whether the
    exclusion list reports a hit, the number of fraud indicators, how many
    of them are of high severity, and the number of conflicts. *)
Record evidence : Type := Evidence {
  identity : float;
  address : float;
  completeness : float;
  freshness : float;
  enrichment : float;
  risk : float;
  is_excluded : bool;
  fraud_indicators : nat;
  high_severity : nat;
  conflicts : nat;
}.

(** Modelled from the spec: the tier thresholds of section 4.5 and the
    review threshold of section 4.6, as named constants. *)
Definition PLATINUM_THRESHOLD : float := 0.85.
Definition GOLD_THRESHOLD : float := 0.60.
Definition REVIEW_THRESHOLD : float := 0.5.

(** Modelled from the spec: [clamp(x, 0, 1)] of section 4.5. *)
Definition clamp01 (x : float) : float :=
  if (x <? 0)%float then 0%float else if (1 <? x)%float then 1%float else x.

(** Modelled from the spec: the score formula of section 4.5, the weighted
    sum of the five positive dimensions minus the weighted risk. *)
Definition confidence_score (ev : evidence) : float :=
  clamp01 (0.35 * identity ev + 0.20 * address ev + 0.15 * completeness ev
           + 0.10 * freshness ev + 0.15 * enrichment ev - 0.05 * risk ev)%float.

(** Modelled from the spec: the tier mapping of section 4.5. *)
Definition confidence_tier (ev : evidence) : tier :=
  if (PLATINUM_THRESHOLD <=? confidence_score ev)%float && (high_severity ev =? 0)%nat
  then PLATINUM
  else if (GOLD_THRESHOLD <=? confidence_score ev)%float then GOLD
  else QUESTIONABLE.

(** Modelled from the spec: the path mapping of section 4.5; the
    exclusion-list hit is the absolute override, so it is looked at first. *)
Definition route (ev : evidence) : path :=
  if is_excluded ev then RED
  else
    match confidence_tier ev with
    | PLATINUM => if (fraud_indicators ev =? 0)%nat then GREEN else YELLOW
    | GOLD => YELLOW
    | QUESTIONABLE => RED
    end.

(** Modelled from the spec: [requires_human_review] of section 4.6, for a
    configured conflict threshold. *)
Definition requires_human_review (conflict_threshold : nat) (ev : evidence) : bool :=
  match route ev with
  | RED => true
  | YELLOW =>
      (confidence_score ev <? REVIEW_THRESHOLD)%float
      || (conflict_threshold <? conflicts ev)%nat
  | GREEN => (conflict_threshold <? conflicts ev)%nat
  end.

(** Modelled from the spec: the names of the tiers and paths as the fixed
    enumerations of section 3 spell them. *)
Definition tier_name (t : tier) : string :=
  match t with
  | PLATINUM => "PLATINUM"
  | GOLD => "GOLD"
  | QUESTIONABLE => "QUESTIONABLE"
  end.

Definition path_name (p : path) : string :=
  match p with
  | GREEN => "GREEN"
  | YELLOW => "YELLOW"
  | RED => "RED"
  end.

(** Modelled from the spec: the ScoreBreakdown of section 3 as a dictionary
    of the six dimension values. *)
Definition score_breakdown (ev : evidence) : gmap string value :=
  dict_literal
    [ ("identity", VFloat (identity ev)); ("address", VFloat (address ev));
      ("completeness", VFloat (completeness ev)); ("freshness", VFloat (freshness ev));
      ("enrichment", VFloat (enrichment ev)); ("risk", VFloat (risk ev)) ].

(** Modelled from the spec: the final agent state for a record with
    evidence [ev], laid out under the keys main.py reads: the score, the
    review flag, [quality_metrics] with tier, path and breakdown, and the
    exclusion-list evidence. *)
Definition final_state (conflict_threshold : nat) (ev : evidence) : value :=
  VDict (dict_literal
    [ ("confidence_score", VFloat (confidence_score ev));
      ("requires_human_review", VBool (requires_human_review conflict_threshold ev));
      ("quality_metrics",
        VDict (dict_literal
          [ ("confidence_tier", VStr (tier_name (confidence_tier ev)));
            ("path", VStr (path_name (route ev)));
            ("score_breakdown", VDict (score_breakdown ev)) ]));
      ("oig_leie_result", VDict (dict_literal [ ("is_excluded", VBool (is_excluded ev)) ])) ]).

End Routing.

(** Modelled from the spec: the fixed importance weights of the
    ScoreBreakdown (section 3), as fractions. *)
Definition importance_weights : list (string * Q) :=
  [ ("identity", 35 # 100); ("address", 20 # 100); ("enrichment", 15 # 100);
    ("completeness", 15 # 100); ("freshness", 10 # 100); ("risk", 5 # 100) ]%Q.

(** A float that is neither an infinity nor a NaN. *)
Definition finite (f : float) : bool :=
  match Prim2SF f with
  | S754_infinity _ | S754_nan => false
  | _ => true
  end.

(** ** ConnectionManager

    The manager holds the list [active_connections]. A websocket is an
    object that [in] and [remove] compare by identity; a number stands for
    the identity. The outcome of an [await] on a websocket ([accept],
    [send_text]) is given from outside. Each method is modelled as it runs
    when no other coroutine changes the list between its awaits. *)

Module ConnectionManager.

Definition websocket : Type := nat.

(** [l.remove(x)]: the first [x] is removed; [ValueError] when there is none. *)
Fixpoint remove (x : websocket) (l : list websocket) : result (list websocket) :=
  match l with
  | [] => Raise (Exn "ValueError" "list.remove(x): x not in list")
  | y :: l' =>
      if decide (y = x) then Ok l'
      else let! r := remove x l' in Ok (y :: r)
  end.

(** [connect]: [accept] is the outcome of [await websocket.accept()]. *)
Definition connect (accept : result unit) (ws : websocket)
    (active_connections : list websocket) : result unit * list websocket :=
  match accept with
  | Ok _ => (Ok tt, active_connections ++ [ws])
  | Raise e => (Raise e, active_connections)
  end.

Definition disconnect (ws : websocket) (active_connections : list websocket)
  : result unit * list websocket :=
  if bool_decide (ws ∈ active_connections) then
    match remove ws active_connections with
    | Ok l => (Ok tt, l)
    | Raise e => (Raise e, active_connections)
    end
  else (Ok tt, active_connections).

(** The first loop of [broadcast]: [send_text i c] is the outcome of the
    [i]-th [await connection.send_text(message)], made on the connection
    [c]; a connection whose send raises is appended to [disconnected]. *)
Fixpoint failed_sends (send_text : nat -> websocket -> result unit) (i : nat)
    (connections disconnected : list websocket) : list websocket :=
  match connections with
  | [] => disconnected
  | connection :: rest =>
      failed_sends send_text (S i) rest
        (match send_text i connection with
         | Ok _ => disconnected
         | Raise _ => disconnected ++ [connection]
         end)
  end.

(** The second loop of [broadcast]. *)
Fixpoint disconnect_each (disconnected active_connections : list websocket)
  : result unit * list websocket :=
  match disconnected with
  | [] => (Ok tt, active_connections)
  | connection :: rest =>
      match disconnect connection active_connections with
      | (Ok _, active_connections') => disconnect_each rest active_connections'
      | (Raise e, active_connections') => (Raise e, active_connections')
      end
  end.

Definition broadcast (send_text : nat -> websocket -> result unit)
    (active_connections : list websocket) : result unit * list websocket :=
  disconnect_each (failed_sends send_text 0 active_connections [])
    active_connections.

End ConnectionManager.

(** ** apply_provider (/api/providers/apply)

    The handler works on the file system: it saves the upload under
    provider_applications/ and appends the application to the list kept in
    provider_applications.json. The state below is what it changes: the
    paths of the uploads written, and the applications file, held as the
    value [json.load] reads from it ([None] when the file does not exist,
    [Raise] when reading it raises); a list written with [json.dump] reads
    back as that list. The library calls whose result the source cannot
    know are taken from outside, one outcome for each call of the request. *)

Record disk : Type := Disk {
  uploads : list string;
  applications_file : option (result value);
}.

Class Server : Type := {
  (** [UPLOAD_DIR.mkdir(exist_ok=True)] *)
  mkdir : result unit;
  (** [uuid.uuid4().hex[:8].upper()] *)
  uuid_hex8 : string;
  (** [Path(name).suffix] *)
  suffix : string -> string;
  (** [str(UPLOAD_DIR / saved_filename)] *)
  upload_path : string -> string;
  (** [file_path.open("wb")] and [shutil.copyfileobj] *)
  copyfileobj : string -> result unit;
  (** [json.loads] on a form field *)
  json_loads : string -> result value;
  (** [datetime.now().isoformat()] *)
  now_isoformat : string;
  (** [file_path.stat().st_size] *)
  st_size : string -> result Z;
  (** [applications_file.open("w")] *)
  open_w : result unit;
  (** [len(s)] on text *)
  str_len : string -> Z;
}.

(** The form of the request; [filename] is [file.filename], which may be
    [None]. *)
Record application_form : Type := Form {
  fullName : string;
  email : string;
  phoneNumber : string;
  speciality : string;
  licenseNumber : string;
  npiId : string;
  practiceAddress : string;
  aiRawResult : string;
  aiParsedResult : string;
  filename : option string;
}.

(** The characters [' '] and ['_']. *)
Definition SPACE : Ascii.ascii := Ascii.ascii_of_nat 32.
Definition UNDERSCORE : Ascii.ascii := Ascii.ascii_of_nat 95.

(** [s.replace(' ', '_')] *)
Fixpoint replace_spaces (s : string) : string :=
  match s with
  | EmptyString => EmptyString
  | String c s' =>
      String (if Ascii.eqb c SPACE then UNDERSCORE else c) (replace_spaces s')
  end.

(** The order of an integer and a float, compared exactly as Python does;
    [None] when the float is a NaN. *)
Definition int_compare_float (n : Z) (f : float) : option comparison :=
  match Prim2SF f with
  | S754_zero _ => Some (n ?= 0)%Z
  | S754_finite s m e =>
      let a := (if s then Z.neg m else Z.pos m) in
      Some (if (0 <=? e)%Z then (n ?= a * 2 ^ e)%Z
            else (n * 2 ^ (- e) ?= a)%Z)
  | S754_infinity s => Some (if s then Gt else Lt)
  | S754_nan => None
  end.

Definition not_supported (op : string) (v : value) : exn :=
  Exn "TypeError"
      ("'" +:+ op +:+ "' not supported between instances of '" +:+ type_name v
       +:+ "' and 'float'").

(** [v >= c] for a float [c] *)
Definition py_ge (v : value) (c : float) : result bool :=
  let int_ge n :=
    match int_compare_float n c with
    | Some Lt | None => false
    | Some _ => true
    end in
  match v with
  | VBool b => Ok (int_ge (if b then 1 else 0)%Z)
  | VInt n => Ok (int_ge n)
  | VFloat f => Ok (PrimFloat.leb c f)
  | _ => Raise (not_supported ">=" v)
  end.

(** [v < c] for a float [c] *)
Definition py_lt (v : value) (c : float) : result bool :=
  let int_lt n :=
    match int_compare_float n c with
    | Some Lt => true
    | _ => false
    end in
  match v with
  | VBool b => Ok (int_lt (if b then 1 else 0)%Z)
  | VInt n => Ok (int_lt n)
  | VFloat f => Ok (PrimFloat.ltb f c)
  | _ => Raise (not_supported "<" v)
  end.

(** The [if] / [elif] / [else] that sets [status]; [and] and [or] evaluate
    their right operand only when the left one does not decide. *)
Definition application_status (path confidence_score requires_review : value)
  : result string :=
  let! approved :=
    (if eq_str path "GREEN" then
       let! high := py_ge confidence_score 0.7 in
       Ok (high && negb (truthy requires_review))
     else Ok false) in
  if approved then Ok "approved"
  else
    let! pending :=
      (if eq_str path "YELLOW" then Ok true
       else
         let! some := py_ge confidence_score 0.4 in
         if some then py_lt confidence_score 0.7 else Ok false) in
    Ok (if pending then "pending_review" else "flagged_for_review").

Section Apply.

Context `{Host} `{Server}.

(** [len(v)] *)
Definition py_len (v : value) : result Z :=
  match v with
  | VStr s => Ok (str_len s)
  | VList l => Ok (Z.of_nat (length l))
  | VDict d => Ok (Z.of_nat (size d))
  | _ =>
      Raise (Exn "TypeError" ("object of type '" +:+ type_name v +:+ "' has no len()"))
  end.

(** The inner [try]: both fields are decoded, or neither is. *)
Definition decode_results (form : application_form) : result (value * value) :=
  match (let! ai_raw := json_loads (aiRawResult form) in
         let! ai_parsed := json_loads (aiParsedResult form) in
         Ok (ai_raw, ai_parsed)) with
  | Ok decoded => Ok decoded
  | Raise e =>
      if String.eqb (exn_type e) "JSONDecodeError" then
        Ok (VDict (dict_literal [ ("raw_data", VStr (aiRawResult form)) ]),
            VDict (dict_literal [ ("parsed_data", VStr (aiParsedResult form)) ]))
      else Raise e
  end.

Definition original_name (form : application_form) : value :=
  match filename form with
  | Some name => VStr name
  | None => VNone
  end.

(** [Path(file.filename).suffix] *)
Definition file_extension (form : application_form) : result string :=
  match filename form with
  | Some name => Ok (suffix name)
  | None =>
      Raise (Exn "TypeError"
               "expected str, bytes or os.PathLike object, not NoneType")
  end.

Definition application_id : string := "APP_" +:+ uuid_hex8.

Definition saved_filename (form : application_form) (extension : string) : string :=
  application_id +:+ "_" +:+ replace_spaces (fullName form) +:+ extension.

(** What the handler has read from the decoded result. *)
Record validation : Type := Validation {
  v_confidence_score : value;
  v_path : value;
  v_requires_review : value;
  v_fraud_indicators : value;
  v_qa_flags : value;
  v_status : string;
}.

Definition read_validation (ai_parsed : value) : result validation :=
  let! parsed := has_get ai_parsed in
  let confidence_score := dict_get parsed "confidence_score" (VInt 0) in
  let path := dict_get parsed "path" (VStr "UNKNOWN") in
  let requires_review := dict_get parsed "requires_human_review" (VBool false) in
  let fraud_indicators := dict_get parsed "fraud_indicators" (VList []) in
  let qa_flags := dict_get parsed "qa_flags" (VList []) in
  let! status := application_status path confidence_score requires_review in
  Ok (Validation confidence_score path requires_review fraud_indicators qa_flags
        status).

Definition application_data (form : application_form) (saved_name : string)
    (ai_raw ai_parsed : value) (v : validation) (size_bytes : Z) : value :=
  VDict (dict_literal
    [ ("application_id", VStr application_id);
      ("submission_date", VStr now_isoformat);
      ("status", VStr (v_status v));
      ("provider_info", VDict (dict_literal
         [ ("full_name", VStr (fullName form));
           ("email", VStr (email form));
           ("phone", VStr (phoneNumber form));
           ("specialty", VStr (speciality form));
           ("license_number", VStr (licenseNumber form));
           ("npi", VStr (npiId form));
           ("practice_address", VStr (practiceAddress form)) ]));
      ("ai_validation", VDict (dict_literal
         [ ("confidence_score", v_confidence_score v);
           ("path", v_path v);
           ("requires_review", v_requires_review v);
           ("fraud_indicators", v_fraud_indicators v);
           ("qa_flags", v_qa_flags v);
           ("raw_result", ai_raw);
           ("parsed_result", ai_parsed) ]));
      ("uploaded_file", VDict (dict_literal
         [ ("original_name", original_name form);
           ("saved_name", VStr saved_name);
           ("path", VStr (upload_path saved_name));
           ("size_bytes", VInt size_bytes) ])) ]).

(** The applications read from the file: none when there is no file or its
    text is not JSON. *)
Definition load_applications (d : disk) : result value :=
  match applications_file d with
  | None => Ok (VList [])
  | Some (Ok applications) => Ok applications
  | Some (Raise e) =>
      if String.eqb (exn_type e) "JSONDecodeError" then Ok (VList [])
      else Raise e
  end.

(** [applications.append(application_data)] *)
Definition append (applications application : value) : result value :=
  match applications with
  | VList l => Ok (VList (l ++ [application]))
  | _ => Raise (AttributeError applications "append")
  end.

(** The two [print]s after the write, which format the score, and the
    [return]. *)
Definition submitted (v : validation) : result value :=
  let! shown := format_percent1 (v_confidence_score v) in
  let! fraud_indicators_count := py_len (v_fraud_indicators v) in
  let! qa_flags_count := py_len (v_qa_flags v) in
  Ok (VDict (dict_literal
    [ ("success", VBool true);
      ("message", VStr "Application submitted successfully");
      ("application_id", VStr application_id);
      ("status", VStr (v_status v));
      ("validation_summary", VDict (dict_literal
         [ ("confidence_score", v_confidence_score v);
           ("path", v_path v);
           ("requires_review", v_requires_review v);
           ("fraud_indicators_count", VInt fraud_indicators_count);
           ("qa_flags_count", VInt qa_flags_count) ]));
      ("next_steps",
        VStr (if String.eqb (v_status v) "approved"
              then "Your application has been approved and will be added to our network."
              else "Your application is under review. We will contact you within 2-3 business days.")) ])).

(** The entry the handler is about to append, once the upload is saved. *)
Definition prepared (form : application_form) (saved_name : string)
  : result (value * validation) :=
  let! decoded := decode_results form in
  let '(ai_raw, ai_parsed) := decoded in
  let! v := read_validation ai_parsed in
  let! size_bytes := st_size (upload_path saved_name) in
  Ok (application_data form saved_name ai_raw ai_parsed v size_bytes, v).

(** The body of the outer [try]. *)
Definition apply_provider_body (form : application_form) (d : disk)
  : result value * disk :=
  match (let! _ := mkdir in file_extension form) with
  | Raise e => (Raise e, d)
  | Ok extension =>
      let saved_name := saved_filename form extension in
      match copyfileobj (upload_path saved_name) with
      | Raise e => (Raise e, d)
      | Ok _ =>
          let d := Disk (uploads d ++ [upload_path saved_name]) (applications_file d) in
          match (let! entry := prepared form saved_name in
                 let! applications := load_applications d in
                 let! applications := append applications entry.1 in
                 let! _ := open_w in
                 Ok (applications, entry.2)) with
          | Raise e => (Raise e, d)
          | Ok (applications, v) =>
              (submitted v, Disk (uploads d) (Some (Ok applications)))
          end
      end
  end.

Definition failed_response (e : exn) : value :=
  VDict (dict_literal
    [ ("success", VBool false);
      ("message", VStr ("Failed to save application: " +:+ exn_msg e));
      ("error", VStr (exn_msg e)) ]).

Definition apply_provider (form : application_form) (d : disk) : value * disk :=
  match apply_provider_body form d with
  | (Ok response, d') => (response, d')
  | (Raise e, d') => (failed_response e, d')
  end.

End Apply.

(** ** The list endpoints of the analytics

    [get_providers_geolocation], [get_validation_heatmap] and
    [get_confidence_breakdown] query [validated_providers] and build one
    entry for each row. A row is held as the RealDictCursor returns it:
    every selected column is present (an endpoint reads only the columns it
    selects). [validation_metadata] is the decoded
    JSON column, or [None]; [created_at] is a datetime, held here as the text
    [isoformat()] gives for it, or [None]. What the environment decides is
    given from outside: the variable [DATABASE_URL], the outcome of
    [psycopg2.connect], the outcome of the query on the connection (the
    cursor, [execute], [fetchall]), the builtin [hash] on text, and the
    timestamp of the response. *)

Record provider_row : Type := Row {
  row_id : value;
  row_provider_name : value;
  row_npi : value;
  row_city : value;
  row_state : value;
  row_zip_code : value;
  row_confidence_score : value;
  row_confidence_tier : value;
  row_validation_metadata : value;
  row_created_at : option string;
}.

Record database : Type := Database {
  DATABASE_URL : option string;
  connect : string -> result unit;
  fetchall : result (list provider_row);
}.

(** [get_db_connection]: [not database_url] holds of an unset variable and
    of an empty one. *)
Definition get_db_connection (db : database) : result unit :=
  match DATABASE_URL db with
  | Some database_url =>
      if String.eqb database_url "" then
        Raise (Exn "ValueError" "DATABASE_URL environment variable is not set")
      else connect db database_url
  | None => Raise (Exn "ValueError" "DATABASE_URL environment variable is not set")
  end.

(** The rows an endpoint has to work on. *)
Definition fetched (db : database) : result (list provider_row) :=
  let! _ := get_db_connection db in
  fetchall db.

(** [row['created_at'].isoformat() if row['created_at'] else None] *)
Definition validated_at (row : provider_row) : value :=
  match row_created_at row with
  | Some text => VStr text
  | None => VNone
  end.

(** [row['validation_metadata'] if row['validation_metadata'] else {}] *)
Definition metadata_of (row : provider_row) : value :=
  if truthy (row_validation_metadata row) then row_validation_metadata row
  else VDict ∅.

(** An integer below 2^53 as a float. *)
Definition float_of_Z (z : Z) : float :=
  match z with
  | Z0 => 0%float
  | Zpos _ => PrimFloat.of_uint63 (Uint63.of_Z z)
  | Zneg p => (- PrimFloat.of_uint63 (Uint63.of_Z (Zpos p)))%float
  end.

(** [(h % 1000 - 500) / 100] for the hash [h] *)
Definition jitter (h : Z) : float :=
  (float_of_Z (h mod 1000 - 500) / float_of_Z 100)%float.

(** The table [state_coords]; an entry [{"lat": a, "lon": b}] is held as
    the pair of [a] and [b]. *)
Definition state_table : list (string * (float * float)) :=
    [ ("CA", (36.7783, -119.4179)); ("TX", (31.9686, -99.9018));
      ("FL", (27.6648, -81.5158)); ("NY", (42.1657, -74.9481));
      ("IL", (40.6331, -89.3985)); ("PA", (41.2033, -77.1945));
      ("OH", (40.4173, -82.9071)); ("MA", (42.4072, -71.3824));
      ("WA", (47.7511, -120.7401)); ("CO", (39.5501, -105.7821));
      ("AZ", (34.0489, -111.0937)); ("MI", (44.3148, -85.6024));
      ("GA", (32.1656, -82.9001)); ("NC", (35.7596, -79.0193));
      ("NJ", (40.0583, -74.4057)) ]%float.

Definition state_coords : gmap string (float * float) := list_to_map state_table.

(** The coordinates used for a state that is not in the table. *)
Definition default_coords : float * float := (39.8283, -98.5795)%float.

(** [state_coords.get(state, default_coords)]: lists and dictionaries are
    unhashable, any other key that is not a string is absent. *)
Definition coords_of (state : value) : result (float * float) :=
  match state with
  | VStr s => Ok (default default_coords (state_coords !! s))
  | VList _ | VDict _ =>
      Raise (Exn "TypeError" ("unhashable type: '" +:+ type_name state +:+ "'"))
  | _ => Ok default_coords
  end.

Section Analytics.

Context `{Host}.

(** [hash] on text *)
Variable hash : string -> Z.

(** One pass of the loop of [get_providers_geolocation]. *)
Definition geolocation_entry (row : provider_row) : result value :=
  let state := row_state row in
  let! coords := coords_of state in
  let tier := py_or (row_confidence_tier row) (VStr "UNKNOWN") in
  let status :=
    if eq_str tier "PLATINUM" then "green"
    else if eq_str tier "GOLD" then "yellow"
    else "red" in
  let validation_metadata := py_or (row_validation_metadata row) (VDict ∅) in
  let! validation_metadata := has_get validation_metadata in
  let! quality_metrics :=
    has_get (dict_get validation_metadata "quality_metrics" (VDict ∅)) in
  let path := dict_get quality_metrics "path" (VStr "UNKNOWN") in
  let lat := (coords.1 + jitter (hash (py_str (row_id row))))%float in
  let lon := (coords.2 + jitter (hash (py_str (row_id row) +:+ "lon")))%float in
  Ok (VDict (dict_literal
    [ ("id", row_id row);
      ("name", row_provider_name row);
      ("npi", row_npi row);
      ("city", row_city row);
      ("state", state);
      ("zip_code", row_zip_code row);
      ("lat", VFloat lat);
      ("lon", VFloat lon);
      ("confidence", row_confidence_score row);
      ("status", VStr status);
      ("tier", tier);
      ("path", path);
      ("validated_at", validated_at row) ])).

(** One pass of the loop of [get_confidence_breakdown]. *)
Definition breakdown_entry (row : provider_row) : result value :=
  let! validation_metadata := has_get (metadata_of row) in
  let! quality_metrics :=
    has_get (dict_get validation_metadata "quality_metrics" (VDict ∅)) in
  let score_breakdown := dict_get quality_metrics "score_breakdown" (VDict ∅) in
  let! dimensions := dimensions score_breakdown in
  Ok (VDict (dict_literal
    [ ("name", row_provider_name row);
      ("npi", row_npi row);
      ("overallScore", row_confidence_score row);
      ("tier", py_or (row_confidence_tier row) (VStr "UNKNOWN"));
      ("path", dict_get quality_metrics "path" (VStr "UNKNOWN"));
      ("dimensions", VList dimensions);
      ("validated_at", validated_at row) ])).

(** [execution_meta.get(stage, {}).get(key, default)] *)
Definition stage_get (execution_meta : gmap string value) (stage key : string)
    (default : value) : result value :=
  let! entry := has_get (dict_get execution_meta stage (VDict ∅)) in
  Ok (dict_get entry key default).

(** One pass of the loop of [get_validation_heatmap]. *)
Definition heatmap_entry (row : provider_row) : result value :=
  let! validation_metadata := has_get (metadata_of row) in
  let! execution_meta :=
    has_get (dict_get validation_metadata "execution_metadata" (VDict ∅)) in
  let! vlm := stage_get execution_meta "vlm" "status" (VStr "pending") in
  let! npi := stage_get execution_meta "nppes" "status" (VStr "pending") in
  let! oig := stage_get execution_meta "oig_leie" "status" (VStr "pending") in
  let! license := stage_get execution_meta "state_board" "status" (VStr "pending") in
  let! address := stage_get execution_meta "address" "status" (VStr "pending") in
  let! web := stage_get execution_meta "web_enrichment" "status" (VStr "pending") in
  let! npi_score := stage_get execution_meta "nppes" "match_confidence" (VInt 0) in
  let! address_score := stage_get execution_meta "address" "confidence" (VInt 0) in
  let! web_score :=
    stage_get execution_meta "web_enrichment" "digital_footprint_score" (VInt 0) in
  Ok (VDict (dict_literal
    [ ("id", row_id row);
      ("name", row_provider_name row);
      ("npi", row_npi row);
      ("stages", VDict (dict_literal
         [ ("vlm", vlm); ("npi", npi); ("oig", oig); ("license", license);
           ("address", address); ("web", web); ("score", VStr "complete") ]));
      ("stage_scores", VDict (dict_literal
         [ ("npi", npi_score); ("address", address_score); ("web", web_score) ]));
      ("validated_at", validated_at row) ])).

(** The three endpoints end alike: the list of the entries with its length
    and a timestamp, or, when the connection, the query or any pass of the
    loop raised, the error with an empty list. *)
Definition providers_response (entry : provider_row -> result value)
    (db : database) (timestamp : string) : value :=
  match (let! rows := fetched db in mapM entry rows) with
  | Ok providers =>
      VDict (dict_literal
        [ ("success", VBool true);
          ("providers", VList providers);
          ("total", VInt (Z.of_nat (length providers)));
          ("timestamp", VStr timestamp) ])
  | Raise e =>
      VDict (dict_literal
        [ ("success", VBool false);
          ("error", VStr (exn_msg e));
          ("providers", VList []) ])
  end.

Definition get_providers_geolocation (db : database) (timestamp : string) : value :=
  providers_response geolocation_entry db timestamp.

Definition get_validation_heatmap (db : database) (timestamp : string) : value :=
  providers_response heatmap_entry db timestamp.

Definition get_confidence_breakdown (db : database) (timestamp : string) : value :=
  providers_response breakdown_entry db timestamp.

End Analytics.

(** ** get_dashboard_stats

    The endpoint makes six queries on one cursor. The outcome of each is
    given from outside: the three counts, the average of [confidence_score]
    as a float ([None] for SQL's NULL, which is what the average of an empty
    table is), the rows of the path distribution as pairs of [path] and
    [count], and the rows of the last 24 hours. A row of the last query has
    the six columns the query selects; its [created_at] is not NULL, since
    the query keeps the rows with [created_at >= NOW() - INTERVAL '24
    hours'], and is held as the text [isoformat()] gives for it. *)

Record recent_row : Type := Recent {
  recent_provider_name : value;
  recent_npi : value;
  recent_confidence_score : value;
  recent_confidence_tier : value;
  recent_validation_metadata : value;
  recent_created_at : string;
}.

Record dashboard_queries : Type := Queries {
  total_providers : result value;
  needs_review : result value;
  avg : result (option float);
  path_results : result (list (string * value));
  fraud_detected : result value;
  recent : result (list recent_row);
}.

(** [float(avg or 0) * 100] *)
Definition avg_percent (avg : option float) : float :=
  let avg_confidence :=
    match avg with
    | Some f => if truthy (VFloat f) then f else float_of_Z 0
    | None => float_of_Z 0
    end in
  (avg_confidence * 100)%float.

(** One pass of the loop over the recent rows. *)
Definition recent_entry (row : recent_row) : result value :=
  let! validation_metadata :=
    has_get (py_or (recent_validation_metadata row) (VDict ∅)) in
  let! quality_metrics :=
    has_get (dict_get validation_metadata "quality_metrics" (VDict ∅)) in
  Ok (VDict (dict_literal
    [ ("provider_name", recent_provider_name row);
      ("npi", recent_npi row);
      ("confidence_score", recent_confidence_score row);
      ("tier", py_or (recent_confidence_tier row) (VStr "UNKNOWN"));
      ("path", dict_get quality_metrics "path" (VStr "UNKNOWN"));
      ("validated_at", VStr (recent_created_at row)) ])).

Definition dashboard_stats (db : database) (q : dashboard_queries)
  : result (gmap string value) :=
  let! _ := get_db_connection db in
  let! total_providers := total_providers q in
  let! needs_review := needs_review q in
  let! avg := avg q in
  let! path_results := path_results q in
  let path_distribution :=
    dict_literal (map (fun row => (row.1, row.2)) path_results) in
  let! fraud_detected := fraud_detected q in
  let! rows := recent q in
  let! recent_activity := mapM recent_entry rows in
  Ok (dict_literal
    [ ("total_providers", total_providers);
      ("needs_review", needs_review);
      ("avg_confidence", VFloat (avg_percent avg));
      ("path_distribution", VDict path_distribution);
      ("fraud_detected", fraud_detected);
      ("recent_activity", VList recent_activity) ]).

Definition get_dashboard_stats (db : database) (q : dashboard_queries)
    (timestamp : string) : value :=
  match dashboard_stats db q with
  | Ok stats =>
      VDict (dict_literal
        [ ("success", VBool true);
          ("stats", VDict stats);
          ("timestamp", VStr timestamp) ])
  | Raise e =>
      VDict (dict_literal
        [ ("success", VBool false);
          ("error", VStr (exn_msg e));
          ("stats", VDict ∅) ])
  end.

(** What a list endpoint answers: every row's entry, in the order of the
    rows, or the error of the connection, of the query or of the first row
    whose entry raises, with no entry at all. *)
Definition all_or_nothing (entry : provider_row -> result value)
    (db : database) (timestamp : string) (response : value) : Prop :=
  exists r,
    response = VDict r
    /\ ((exists rows providers,
           fetched db = Ok rows
           /\ Forall2 (fun row provider => entry row = Ok provider) rows providers
           /\ r !! "success" = Some (VBool true)
           /\ r !! "providers" = Some (VList providers)
           /\ r !! "total" = Some (VInt (Z.of_nat (length rows)))
           /\ r !! "timestamp" = Some (VStr timestamp)
           /\ r !! "error" = None)
        \/ (exists e,
              (fetched db = Raise e
               \/ exists before row after,
                    fetched db = Ok (before ++ row :: after)
                    /\ Forall (fun row' => exists provider, entry row' = Ok provider)
                         before
                    /\ entry row = Raise e)
              /\ r !! "success" = Some (VBool false)
              /\ r !! "error" = Some (VStr (exn_msg e))
              /\ r !! "providers" = Some (VList [])
              /\ r !! "total" = None)).

(** [x] is within five degrees of [centre]. *)
Definition near (centre x : float) : bool :=
  PrimFloat.leb (centre - 5) x && PrimFloat.leb x (centre + 5).

(** ** Sample hosts and inputs *)

(** An agent that hands the state back unchanged. *)
Definition echo_host : Host :=
  {| invoke := fun state => Ok state;
     int_of_str := fun _ => Raise (Exn "ValueError" "invalid literal for int()");
     py_str := fun v => match v with VStr s => s | _ => type_name v end;
     percent1 := fun _ => "0.0%" |}.

(** An agent that is down. *)
Definition failing_host : Host :=
  {| invoke := fun _ => Raise (Exn "RuntimeError" "agent unavailable");
     int_of_str := fun _ => Raise (Exn "ValueError" "invalid literal for int()");
     py_str := fun v => match v with VStr s => s | _ => type_name v end;
     percent1 := fun _ => "0.0%" |}.

(** A final agent state whose four evidence entries all verify. *)
Definition verified_state : value :=
  VDict (dict_literal
    [ ("npi_result", VDict (dict_literal [ ("result_count", VInt 1) ]));
      ("oig_leie_result", VDict (dict_literal [ ("is_excluded", VBool false) ]));
      ("state_board_result", VDict (dict_literal [ ("status", VStr "Active") ]));
      ("address_result", VDict (dict_literal [ ("is_medical_facility", VBool true) ]));
      ("digital_footprint_score", VFloat 0.6) ]).

Definition jane_doe : gmap string value :=
  dict_literal
    [ ("full_name", VStr "Jane Doe"); ("NPI", VStr "1234567890");
      ("address", VStr "1 Main St"); ("state", VStr "CA");
      ("last_updated", VStr "2024-01-01") ].

(** Modelled from the spec: the six dimension values of a record's
    evidence, in the order of the ScoreBreakdown. *)
Definition dimension_values (ev : Routing.evidence) : list float :=
  [ Routing.identity ev; Routing.address ev; Routing.completeness ev;
    Routing.freshness ev; Routing.enrichment ev; Routing.risk ev ].

(** A record on the exclusion list whose positive dimensions are all 1.0. *)
Definition excluded_perfect : Routing.evidence :=
  Routing.Evidence 1 1 1 1 1 0 true 0 0 0.

(** A batch whose first record is not a dictionary, so its worker raises. *)
Definition mixed_batch : list value := [ VNone; VDict jane_doe ].

(** Six records (none of them a dictionary, which the semaphore does not
    look at), and the schedule that starts the first five workers. *)
Definition six_records : list value := replicate 6 VNone.

Definition five_acquired : list action :=
  [ Acquire 0; Acquire 1; Acquire 2; Acquire 3; Acquire 4 ].

(** The state after [five_acquired]: no free slot, the sixth task waiting. *)
Definition five_running `{Host} : stream :=
  Stream 0
    [ Running (worker_events VNone 0 6); Running (worker_events VNone 1 6);
      Running (worker_events VNone 2 6); Running (worker_events VNone 3 6);
      Running (worker_events VNone 4 6); Waiting ]
    [] (yielded (stream_start six_records)) 0 MainLoop.

(** An agent result whose [quality_metrics] carry a path and a metric of
    the agent's own. *)
Definition tagged_metrics : gmap string value :=
  dict_literal [ ("path", VStr "GREEN"); ("model_version", VStr "v2") ].

Definition tagged_state : gmap string value :=
  dict_literal [ ("quality_metrics", VDict tagged_metrics) ].

(** A server whose file system does what it is asked; [loads] is its
    [json.loads]. *)
Definition quiet_server (loads : string -> result value) : Server :=
  {| mkdir := Ok tt;
     uuid_hex8 := "1A2B3C4D";
     suffix := fun _ => ".pdf";
     upload_path := fun name => "provider_applications/" +:+ name;
     copyfileobj := fun _ => Ok tt;
     json_loads := loads;
     now_isoformat := "2025-01-01T00:00:00";
     st_size := fun _ => Ok 1024%Z;
     open_w := Ok tt;
     str_len := fun s => Z.of_nat (String.length s) |}.

(** A result on the YELLOW path whose score is text, and one that is not
    JSON. *)
Definition yellow_text_score : gmap string value :=
  dict_literal [ ("path", VStr "YELLOW"); ("confidence_score", VStr "high") ].

Definition loads_yellow (text : string) : result value := Ok (VDict yellow_text_score).

Definition loads_nothing (text : string) : result value :=
  Raise (Exn "JSONDecodeError" "Expecting value: line 1 column 1 (char 0)").

Definition jane_form : application_form :=
  Form "Jane Doe" "jane@example.org" "555-0100" "Cardiology" "A12345"
       "1234567890" "1 Main St" "raw" "parsed" (Some "license.pdf").

Definition no_applications : disk := Disk [] None.


(** A stored row without metadata, tier or date. *)
Definition bare_row : provider_row :=
  Row (VInt 1) (VStr "Jane Doe") (VStr "1234567890") (VStr "Springfield")
      (VStr "ZZ") (VStr "00000") (VFloat 0.9) VNone VNone None.

(** A server without [DATABASE_URL]. *)
Definition no_database : database :=
  Database None (fun _ => Ok tt) (Ok [bare_row]).

(** * Properties *)

(** ** Dictionaries *)

Lemma dict_get_None (d : gmap string value) (k : string) (default : value) :
  d !! k = None -> dict_get d k default = default.
Proof. intros Hk. unfold dict_get. now rewrite Hk. Qed.

Lemma dict_get_Some (d : gmap string value) (k : string) (default v : value) :
  d !! k = Some v -> dict_get d k default = v.
Proof. intros Hk. unfold dict_get. now rewrite Hk. Qed.

Lemma truthy_nonempty_str (s : string) : s <> "" -> truthy (VStr s) = true.
Proof.
  intros Hs. simpl. destruct (String.eqb_spec s ""); [contradiction | reflexivity].
Qed.

(** Look a key up in a dictionary display. *)
Ltac lookup_literal :=
  unfold dict_literal, dict_update; cbn [fold_left fst snd];
  repeat first
    [ rewrite lookup_insert_eq
    | rewrite lookup_insert_ne by discriminate
    | rewrite lookup_empty ].

(** ** normalize_provider_data *)

Section Normalize.

Variable provider_info : gmap string value.

Lemma normalize_dom :
  dom (normalize_provider_data provider_info)
  = list_to_set
      [ "full_name"; "NPI"; "address"; "city"; "state"; "zip_code"; "website";
        "specialty"; "phone"; "license_number"; "last_updated" ].
Proof.
  unfold normalize_provider_data, dict_literal, dict_update. simpl.
  rewrite !dom_insert_L, dom_empty_L. set_solver.
Qed.

Lemma normalize_plain (k : string) :
  k ∈ plain_fields ->
  normalize_provider_data provider_info !! k
  = Some (dict_get provider_info k (VStr "")).
Proof.
  unfold plain_fields. intros Hk.
  repeat (apply elem_of_cons in Hk as [-> | Hk]; [unfold normalize_provider_data; now lookup_literal |]).
  now apply elem_of_nil in Hk.
Qed.

Lemma normalize_variant (k alt : string) :
  (k, alt) ∈ variant_fields ->
  normalize_provider_data provider_info !! k
  = Some (py_or (dict_get provider_info k VNone) (dict_get provider_info alt (VStr ""))).
Proof.
  unfold variant_fields. intros Hk.
  repeat (apply elem_of_cons in Hk as [[= -> ->] | Hk];
          [unfold normalize_provider_data; now lookup_literal |]).
  now apply elem_of_nil in Hk.
Qed.

Lemma normalize_last_updated :
  normalize_provider_data provider_info !! "last_updated"
  = Some (py_or (dict_get provider_info "last_updated" VNone)
                (dict_get provider_info "lastUpdated" (VStr "2024-01-01"))).
Proof. unfold normalize_provider_data. now lookup_literal. Qed.

End Normalize.

(** C5 as the specification states it fails on the empty record: the
    canonical field [last_updated] is absent under both of its names and is
    set to ["2024-01-01"], not to the empty string. *)
Lemma normalize_last_updated_not_empty :
  (∅ : gmap string value) !! "last_updated" = None
  /\ (∅ : gmap string value) !! "lastUpdated" = None
  /\ normalize_provider_data ∅ !! "last_updated" = Some (VStr "2024-01-01")
  /\ normalize_provider_data ∅ !! "last_updated" <> Some (VStr "").
Proof.
  repeat split; try reflexivity.
  rewrite normalize_last_updated. cbn. discriminate.
Qed.

(** C5, amended: [normalize_provider_data] maps every input dictionary to a
    dictionary with exactly the eleven canonical fields; a field read under
    one name holds the input's value, a field read under two names holds the
    canonical name's value when that is truthy and the variant's otherwise,
    [last_updated] with its variant [lastUpdated] like the other four; a
    field absent from the input under every one of its names is set to the
    empty string, except [last_updated], which is set to ["2024-01-01"]. *)
Theorem normalize_provider_data_defaults (provider_info : gmap string value) :
  dom (normalize_provider_data provider_info)
  = list_to_set
      [ "full_name"; "NPI"; "address"; "city"; "state"; "zip_code"; "website";
        "specialty"; "phone"; "license_number"; "last_updated" ]
  /\ (forall k, k ∈ plain_fields ->
        normalize_provider_data provider_info !! k
        = Some (dict_get provider_info k (VStr ""))
        /\ (provider_info !! k = None ->
            normalize_provider_data provider_info !! k = Some (VStr "")))
  /\ (forall k alt, (k, alt) ∈ variant_fields ->
        normalize_provider_data provider_info !! k
        = Some (py_or (dict_get provider_info k VNone)
                      (dict_get provider_info alt (VStr "")))
        /\ (provider_info !! k = None -> provider_info !! alt = None ->
            normalize_provider_data provider_info !! k = Some (VStr "")))
  /\ normalize_provider_data provider_info !! "last_updated"
     = Some (py_or (dict_get provider_info "last_updated" VNone)
                   (dict_get provider_info "lastUpdated" (VStr "2024-01-01")))
  /\ (provider_info !! "last_updated" = None ->
      provider_info !! "lastUpdated" = None ->
      normalize_provider_data provider_info !! "last_updated"
      = Some (VStr "2024-01-01")).
Proof.
  split; [apply normalize_dom |]. split; [| split; [| split]].
  - intros k Hk. rewrite (normalize_plain _ _ Hk). split; [reflexivity |].
    intros Hnone. now rewrite (dict_get_None _ _ _ Hnone).
  - intros k alt Hk. rewrite (normalize_variant _ _ _ Hk). split; [reflexivity |].
    intros Hk1 Hk2. now rewrite (dict_get_None _ _ _ Hk1), (dict_get_None _ _ _ Hk2).
  - apply normalize_last_updated.
  - intros H1 H2. rewrite normalize_last_updated.
    now rewrite (dict_get_None _ _ _ H1), (dict_get_None _ _ _ H2).
Qed.

(** C10: an empty string under the canonical name counts as absent: when
    the canonical name holds [""] and the variant name holds a non-empty
    string, the output takes the variant's value. This holds for the four
    fields with a variant name and for [last_updated]. *)
Theorem normalize_empty_canonical_falls_back
    (provider_info : gmap string value) (k alt s : string) :
  (k, alt) ∈ variant_fields ++ [("last_updated", "lastUpdated")] ->
  provider_info !! k = Some (VStr "") ->
  provider_info !! alt = Some (VStr s) ->
  s <> "" ->
  normalize_provider_data provider_info !! k = Some (VStr s).
Proof.
  intros Hk Hempty Halt Hs.
  apply elem_of_app in Hk as [Hk | Hk].
  - rewrite (normalize_variant _ _ _ Hk).
    now rewrite (dict_get_Some _ _ _ _ Hempty), (dict_get_Some _ _ _ _ Halt).
  - apply list_elem_of_singleton in Hk as [= -> ->].
    rewrite normalize_last_updated.
    now rewrite (dict_get_Some _ _ _ _ Hempty), (dict_get_Some _ _ _ _ Halt).
Qed.

Lemma normalize_empty_canonical_falls_back_witness :
  normalize_provider_data
    (dict_literal [ ("full_name", VStr ""); ("fullName", VStr "Jane Doe") ])
  !! "full_name" = Some (VStr "Jane Doe").
Proof.
  apply (normalize_empty_canonical_falls_back _ "full_name" "fullName" "Jane Doe").
  - vm_compute. left.
  - reflexivity.
  - reflexivity.
  - discriminate.
Defined.

(** ** The error monad *)

Lemma bind_Ok {A B : Type} (m : result A) (k : A -> result B) (b : B) :
  Py.bind m k = Ok b <-> exists a, m = Ok a /\ k a = Ok b.
Proof.
  split.
  - destruct m as [a | e]; simpl; [eauto | discriminate].
  - intros (a & -> & Hk). exact Hk.
Qed.

Lemma has_get_Ok (v : value) (d : gmap string value) :
  has_get v = Ok d <-> v = VDict d.
Proof.
  split.
  - destruct v; simpl; intros Hv; try discriminate. now injection Hv as ->.
  - now intros ->.
Qed.

(** ** format_result_for_frontend *)

Section Format.

Context `{Host}.

(** When the formatter returns and what it returns then. *)
Lemma format_result_Ok (final_result : value) (provider_info : gmap string value)
    (r : value) :
  format_result_for_frontend final_result provider_info = Ok r <->
  exists fr qm dp emoji npi oig board addr,
    final_result = VDict fr
    /\ dict_get fr "quality_metrics" (VDict ∅) = VDict qm
    /\ chosen_percentages qm = Ok dp
    /\ literal_get tier_emoji_table (dict_get qm "confidence_tier" (VStr "UNKNOWN"))
         (VStr GLYPH_CHART) = Ok emoji
    /\ dict_get fr "npi_result" (VDict ∅) = VDict npi
    /\ dict_get fr "oig_leie_result" (VDict ∅) = VDict oig
    /\ dict_get fr "state_board_result" (VDict ∅) = VDict board
    /\ dict_get fr "address_result" (VDict ∅) = VDict addr
    /\ r = frontend_result fr qm provider_info (chosen_breakdown qm) dp
             (dict_get qm "confidence_tier" (VStr "UNKNOWN")) emoji npi oig board addr.
Proof.
  unfold format_result_for_frontend. split.
  - intros Hf.
    apply bind_Ok in Hf as (fr & Hfr & Hf). apply has_get_Ok in Hfr.
    cbv zeta in Hf.
    apply bind_Ok in Hf as (qm & Hqm & Hf). apply has_get_Ok in Hqm.
    apply bind_Ok in Hf as (dp & Hdp & Hf).
    apply bind_Ok in Hf as (emoji & Hemoji & Hf).
    apply bind_Ok in Hf as (npi & Hnpi & Hf). apply has_get_Ok in Hnpi.
    apply bind_Ok in Hf as (oig & Hoig & Hf). apply has_get_Ok in Hoig.
    apply bind_Ok in Hf as (board & Hboard & Hf). apply has_get_Ok in Hboard.
    apply bind_Ok in Hf as (addr & Haddr & Hf). apply has_get_Ok in Haddr.
    injection Hf as <-.
    exists fr, qm, dp, emoji, npi, oig, board, addr. repeat split; assumption || reflexivity.
  - intros (fr & qm & dp & emoji & npi & oig & board & addr
            & -> & Hqm & Hdp & Hemoji & Hnpi & Hoig & Hboard & Haddr & ->).
    cbn [has_get Py.bind]. cbv zeta. rewrite Hqm. cbn [has_get Py.bind].
    unfold chosen_percentages, chosen_breakdown in Hdp. rewrite Hdp. cbn [Py.bind].
    rewrite Hemoji. cbn [Py.bind].
    rewrite Hnpi, Hoig, Hboard, Haddr. reflexivity.
Qed.

Lemma verification_status_lookup
    (fr npi oig board addr : gmap string value) :
  exists vs,
    verification_status fr npi oig board addr = VDict vs
    /\ dom vs = list_to_set [ "nppes_verified"; "oig_clear"; "license_active";
                              "address_validated"; "digital_footprint_score" ]
    /\ vs !! "nppes_verified"
       = Some (VBool (truthy (dict_get npi "result_count" (VInt 0))))
    /\ vs !! "oig_clear"
       = Some (VBool (negb (truthy (dict_get oig "is_excluded" (VBool false)))))
    /\ vs !! "license_active"
       = Some (VBool (eq_str (dict_get board "status" VNone) "Active"))
    /\ vs !! "address_validated"
       = Some (dict_get addr "is_medical_facility" (VBool false))
    /\ vs !! "digital_footprint_score"
       = Some (dict_get fr "digital_footprint_score" (VInt 0)).
Proof.
  eexists. split; [reflexivity |]. split.
  - unfold dict_literal, dict_update. cbn [fold_left fst snd].
    rewrite !dom_insert_L, dom_empty_L. set_solver.
  - repeat split; now lookup_literal.
Qed.

Lemma eq_str_true (v : value) (s : string) : eq_str v s = true <-> v = VStr s.
Proof.
  split.
  - destruct v; simpl; try discriminate. intros Hs. apply String.eqb_eq in Hs. now subst.
  - intros ->. simpl. apply String.eqb_refl.
Qed.

(** C9: whenever the formatter returns, the [verification_status] block of
    its result is determined by the evidence entries of the agent result
    (each one the dictionary stored under its key, or the empty dictionary
    when the key is absent): [nppes_verified] is [bool(result_count)], true
    iff [result_count] is present with a non-zero (truthy) value;
    [oig_clear] is true iff [is_excluded] is absent or not true (falsy);
    [license_active] is true iff [status] is the string ["Active"];
    [address_validated] is the stored [is_medical_facility] (false when
    absent), so it is [True] iff that is [True]; [digital_footprint_score]
    is the agent's, 0 when absent. *)
Theorem verification_status_determined
    (final_result : value) (provider_info : gmap string value) (r : value) :
  format_result_for_frontend final_result provider_info = Ok r ->
  verification_status_spec final_result r.
Proof.
  intros Hf. unfold verification_status_spec.
  apply format_result_Ok in Hf
    as (fr & qm & dp & emoji & npi & oig & board & addr
        & -> & Hqm & Hdp & Hemoji & Hnpi & Hoig & Hboard & Haddr & ->).
  destruct (verification_status_lookup fr npi oig board addr)
    as (vs & Hvs & Hdom & Hn & Ho & Hl & Ha & Hd).
  exists fr, npi, oig, board, addr. eexists. exists vs.
  split; [reflexivity |]. do 4 (split; [assumption |]).
  split; [reflexivity |].
  split; [rewrite <- Hvs; now lookup_literal |].
  split; [assumption |].
  split; [| split; [| split; [| split; [| split]]]].
  - eexists. split; [exact Hn |]. unfold dict_get. split.
    + destruct (npi !! "result_count") as [v |] eqn:Hv.
      * split; [eauto | now intros (v' & [= <-] & Ht)].
      * split; [discriminate | now intros (v' & [=] & _)].
    + intros n ->. simpl. destruct (Z.eqb_spec n 0); simpl; split; intros; congruence.
  - eexists. split; [exact Ho |]. unfold dict_get. split.
    + destruct (oig !! "is_excluded") as [v |] eqn:Hv.
      * split.
        -- intros Hb. right. exists v. split; [reflexivity |].
           now apply negb_true_iff in Hb.
        -- intros [[=] | (v' & [= <-] & Ht)]. now rewrite Ht.
      * split; [now left | reflexivity].
    + intros x ->. simpl. destruct x; simpl; split; intros; congruence.
  - eexists. split; [exact Hl |]. rewrite eq_str_true. unfold dict_get.
    destruct (board !! "status") as [v |]; split; congruence.
  - assumption.
  - rewrite Ha. unfold dict_get.
    destruct (addr !! "is_medical_facility") as [v |]; split; congruence.
  - assumption.
Qed.

(** *** When the formatter returns *)

Lemma mapM_Ok {A B : Type} (f : A -> result B) (l : list A) :
  Forall (fun a => exists b, f a = Ok b) l -> exists bs, mapM f l = Ok bs.
Proof.
  induction 1 as [| a l (b & Hb) _ (bs & Hbs)]; simpl; [eauto |].
  rewrite Hb. simpl. rewrite Hbs. simpl. eauto.
Qed.

Lemma mapM_Ok_length {A B : Type} (f : A -> result B) (l : list A) (bs : list B) :
  mapM f l = Ok bs -> length bs = length l.
Proof.
  revert bs. induction l as [| a l IH]; simpl; intros bs Hm.
  - now injection Hm as <-.
  - apply bind_Ok in Hm as (b & _ & Hm). apply bind_Ok in Hm as (bs' & Hbs & Hm).
    injection Hm as <-. simpl. now rewrite (IH _ Hbs).
Qed.

Lemma float_to_int_finite (f : float) :
  finite f = true -> exists n, float_to_int f = Ok n.
Proof.
  unfold finite, float_to_int. destruct (Prim2SF f); try discriminate; eauto.
Qed.

Lemma percentage_float (f : float) :
  finite (f * 100) = true -> exists p, percentage (VFloat f) = Ok p.
Proof.
  intros Hf. unfold percentage. cbn [mul_100 Py.bind py_int].
  destruct (float_to_int_finite _ Hf) as (n & ->). simpl. eauto.
Qed.

Lemma percentages_of_returns (d : gmap string value) :
  (forall k v, d !! k = Some v -> exists p, percentage v = Ok p) ->
  exists dp, percentages_of (VDict d) = Ok dp.
Proof.
  intros Hd. unfold percentages_of. cbn [has_items Py.bind].
  destruct (mapM_Ok (fun kv => let! p := percentage kv.2 in Ok (kv.1, p))
              (map_to_list d)) as (entries & ->).
  - apply Forall_forall. intros [k v] Hkv. apply elem_of_map_to_list in Hkv.
    destruct (Hd k v Hkv) as (p & Hp). cbn [fst snd]. rewrite Hp. simpl. eauto.
  - simpl. eauto.
Qed.

Lemma zero_score_breakdown_lookup (k : string) (v : value) :
  zero_score_breakdown !! k = Some v -> v = VFloat 0.
Proof.
  unfold zero_score_breakdown, dict_literal, dict_update. cbn [fold_left fst snd].
  rewrite !lookup_insert_Some, lookup_empty. intuition congruence.
Qed.

Lemma zero_score_breakdown_dom :
  dom zero_score_breakdown
  = list_to_set [ "identity"; "address"; "completeness"; "freshness";
                  "enrichment"; "risk" ].
Proof.
  unfold zero_score_breakdown, dict_literal, dict_update. cbn [fold_left fst snd].
  rewrite !dom_insert_L, dom_empty_L. set_solver.
Qed.

Lemma percentages_of_zero :
  exists dp, percentages_of (VDict zero_score_breakdown) = Ok dp.
Proof.
  apply percentages_of_returns. intros k v Hv.
  apply zero_score_breakdown_lookup in Hv as ->.
  apply percentage_float. reflexivity.
Qed.

(** A sufficient shape for the formatter to return: the agent result and
    its [quality_metrics] and evidence entries are dictionaries (or absent),
    the tier is a string, and the percentages are given, or can be computed
    from the breakdown, or there is no breakdown. *)
Lemma format_result_returns
    (fr qm npi oig board addr provider_info : gmap string value) (tier : string) :
  dict_get fr "quality_metrics" (VDict ∅) = VDict qm ->
  truthy (dict_get qm "dimension_percentages" (VDict ∅)) = true
  \/ truthy (dict_get qm "score_breakdown" (VDict ∅)) = false
  \/ (exists dp, percentages_of (dict_get qm "score_breakdown" (VDict ∅)) = Ok dp) ->
  dict_get qm "confidence_tier" (VStr "UNKNOWN") = VStr tier ->
  dict_get fr "npi_result" (VDict ∅) = VDict npi ->
  dict_get fr "oig_leie_result" (VDict ∅) = VDict oig ->
  dict_get fr "state_board_result" (VDict ∅) = VDict board ->
  dict_get fr "address_result" (VDict ∅) = VDict addr ->
  exists dp emoji,
    format_result_for_frontend (VDict fr) provider_info
    = Ok (frontend_result fr qm provider_info (chosen_breakdown qm) dp
            (VStr tier) emoji npi oig board addr).
Proof.
  intros Hqm Hdp Htier Hnpi Hoig Hboard Haddr.
  assert (exists dp, chosen_percentages qm = Ok dp) as (dp & Hdp').
  { unfold chosen_percentages, chosen_breakdown.
    destruct (truthy (dict_get qm "dimension_percentages" (VDict ∅))) eqn:Hp;
      cbn [negb]; [eauto |].
    destruct (truthy (dict_get qm "score_breakdown" (VDict ∅))) eqn:Hs;
      cbn [negb]; [| apply percentages_of_zero].
    destruct Hdp as [Hdp | [Hdp | Hdp]]; [discriminate | discriminate | exact Hdp]. }
  exists dp. eexists. apply format_result_Ok.
  exists fr, qm, dp. eexists. exists npi, oig, board, addr.
  rewrite Htier. repeat split; try assumption; reflexivity.
Qed.

(** *** The keys of the result *)

Lemma frontend_result_lookup
    (fr qm provider_info : gmap string value) (sb dp tier emoji : value)
    (npi oig board addr : gmap string value) :
  exists d qmo,
    frontend_result fr qm provider_info sb dp tier emoji npi oig board addr = VDict d
    /\ dom d = list_to_set frontend_keys
    /\ d !! "original_data" = Some (VDict provider_info)
    /\ d !! "confidence_score" = Some (dict_get fr "confidence_score" (VInt 0))
    /\ d !! "requires_human_review"
       = Some (dict_get fr "requires_human_review" (VBool false))
    /\ d !! "review_reason" = Some (dict_get fr "review_reason" (VStr ""))
    /\ d !! "path" = Some (dict_get qm "path" (VStr "UNKNOWN"))
    /\ d !! "quality_metrics" = Some (VDict qmo)
    /\ qmo !! "score_breakdown" = Some sb
    /\ qmo !! "dimension_percentages" = Some dp
    /\ qmo !! "confidence_tier" = Some tier.
Proof.
  do 2 eexists. split; [reflexivity |]. split.
  - unfold frontend_keys, dict_literal, dict_update. cbn [fold_left fst snd].
    rewrite !dom_insert_L, dom_empty_L. set_solver.
  - repeat split; now lookup_literal.
Qed.

Lemma worker_error_result_lookup (provider_info : value) (e : exn) :
  exists d,
    worker_error_result provider_info e = VDict d
    /\ dom d = list_to_set ("error" :: error_keys)
    /\ d !! "original_data" = Some provider_info
    /\ d !! "error" = Some (VStr (exn_msg e))
    /\ d !! "confidence_score" = Some (VInt 0)
    /\ d !! "path" = Some (VStr "ERROR")
    /\ d !! "requires_human_review" = Some (VBool true)
    /\ d !! "review_reason" = Some (VStr ("Processing error: " +:+ exn_msg e)).
Proof.
  eexists. split; [reflexivity |]. split.
  - unfold error_keys, dict_literal, dict_update. cbn [fold_left fst snd].
    rewrite !dom_insert_L, dom_empty_L. set_solver.
  - repeat split; now lookup_literal.
Qed.

Lemma single_error_data_lookup (provider_data : gmap string value) (e : exn) :
  exists d,
    single_error_data provider_data e = VDict d
    /\ dom d = list_to_set error_keys
    /\ d !! "original_data" = Some (VDict provider_data)
    /\ d !! "confidence_score" = Some (VInt 0)
    /\ d !! "path" = Some (VStr "ERROR")
    /\ d !! "requires_human_review" = Some (VBool true)
    /\ d !! "review_reason" = Some (VStr ("Processing error: " +:+ exn_msg e)).
Proof.
  eexists. split; [reflexivity |]. split.
  - unfold error_keys, dict_literal, dict_update. cbn [fold_left fst snd].
    rewrite !dom_insert_L, dom_empty_L. set_solver.
  - repeat split; now lookup_literal.
Qed.

(** C6, amended: whenever [format_result_for_frontend] returns, its result
    is a dictionary with exactly the twelve fixed top-level keys; its
    [quality_metrics] holds a [score_breakdown] (the agent's, or the six
    dimensions at 0.0 when the agent gave none or an empty one), the
    [dimension_percentages] and a [confidence_tier] (the agent's, or
    ["UNKNOWN"]); [confidence_score] and [path] are the agent's values
    unchanged, 0 and ["UNKNOWN"] when absent. The error-path result is a
    different, smaller dictionary: exactly [original_data],
    [confidence_score], [path], [requires_human_review] and [review_reason]
    (and [error] in the batch worker), with [confidence_score] 0 and [path]
    ["ERROR"]. The formatter returns whenever the agent result, its
    [quality_metrics] and its evidence entries are dictionaries, the tier is
    a string and the percentages are given or computable. *)
Theorem frontend_result_shape
    (final_result : value) (provider_info : gmap string value) :
  (forall r, format_result_for_frontend final_result provider_info = Ok r ->
     exists fr qm d qmo,
       final_result = VDict fr
       /\ dict_get fr "quality_metrics" (VDict ∅) = VDict qm
       /\ r = VDict d
       /\ dom d = list_to_set frontend_keys
       /\ d !! "quality_metrics" = Some (VDict qmo)
       /\ qmo !! "score_breakdown" = Some (chosen_breakdown qm)
       /\ (truthy (dict_get qm "score_breakdown" (VDict ∅)) = false ->
           chosen_breakdown qm = VDict zero_score_breakdown)
       /\ (truthy (dict_get qm "score_breakdown" (VDict ∅)) = true ->
           chosen_breakdown qm = dict_get qm "score_breakdown" (VDict ∅))
       /\ is_Some (qmo !! "dimension_percentages")
       /\ qmo !! "confidence_tier"
          = Some (dict_get qm "confidence_tier" (VStr "UNKNOWN"))
       /\ d !! "confidence_score" = Some (dict_get fr "confidence_score" (VInt 0))
       /\ d !! "path" = Some (dict_get qm "path" (VStr "UNKNOWN")))
  /\ (dom zero_score_breakdown
      = list_to_set [ "identity"; "address"; "completeness"; "freshness";
                      "enrichment"; "risk" ]
      /\ forall k v, zero_score_breakdown !! k = Some v -> v = VFloat 0)
  /\ (forall (record : value) (e : exn),
        exists d,
          worker_error_result record e = VDict d
          /\ dom d = list_to_set ("error" :: error_keys)
          /\ d !! "confidence_score" = Some (VInt 0)
          /\ d !! "path" = Some (VStr "ERROR"))
  /\ (forall (e : exn),
        exists d,
          single_error_data provider_info e = VDict d
          /\ dom d = list_to_set error_keys
          /\ d !! "confidence_score" = Some (VInt 0)
          /\ d !! "path" = Some (VStr "ERROR"))
  /\ (forall fr qm npi oig board addr tier,
        final_result = VDict fr ->
        dict_get fr "quality_metrics" (VDict ∅) = VDict qm ->
        truthy (dict_get qm "dimension_percentages" (VDict ∅)) = true
        \/ truthy (dict_get qm "score_breakdown" (VDict ∅)) = false
        \/ (exists dp, percentages_of (dict_get qm "score_breakdown" (VDict ∅)) = Ok dp) ->
        dict_get qm "confidence_tier" (VStr "UNKNOWN") = VStr tier ->
        dict_get fr "npi_result" (VDict ∅) = VDict npi ->
        dict_get fr "oig_leie_result" (VDict ∅) = VDict oig ->
        dict_get fr "state_board_result" (VDict ∅) = VDict board ->
        dict_get fr "address_result" (VDict ∅) = VDict addr ->
        exists r, format_result_for_frontend final_result provider_info = Ok r).
Proof.
  split; [| split; [| split; [| split]]].
  - intros r Hf.
    apply format_result_Ok in Hf
      as (fr & qm & dp & emoji & npi & oig & board & addr
          & -> & Hqm & Hdp & Hemoji & Hnpi & Hoig & Hboard & Haddr & ->).
    destruct (frontend_result_lookup fr qm provider_info (chosen_breakdown qm) dp
                (dict_get qm "confidence_tier" (VStr "UNKNOWN")) emoji npi oig board addr)
      as (d & qmo & Hd & Hdom & _ & Hscore & _ & _ & Hpath & Hq & Hsb & Hdpq & Htier).
    exists fr, qm, d, qmo. repeat split; try assumption; try reflexivity.
    + unfold chosen_breakdown. now intros ->.
    + unfold chosen_breakdown. now intros ->.
    + rewrite Hdpq. eauto.
  - split; [apply zero_score_breakdown_dom | apply zero_score_breakdown_lookup].
  - intros record e.
    destruct (worker_error_result_lookup record e)
      as (d & Hd & Hdom & _ & _ & Hscore & Hpath & _).
    exists d. repeat split; assumption.
  - intros e.
    destruct (single_error_data_lookup provider_info e)
      as (d & Hd & Hdom & _ & Hscore & Hpath & _).
    exists d. repeat split; assumption.
  - intros fr qm npi oig board addr tier -> Hqm Hdp Htier Hnpi Hoig Hboard Haddr.
    destruct (format_result_returns fr qm npi oig board addr provider_info tier
                Hqm Hdp Htier Hnpi Hoig Hboard Haddr) as (dp & emoji & Hf).
    eauto.
Qed.

End Format.

(** C6 as the specification states it fails on the error path: with the
    agent down, the result the batch worker puts for a record has none of
    [final_profile], [qa_flags], [fraud_indicators], [qa_corrections],
    [quality_metrics], [execution_metadata] and [verification_status], and
    its [path] is ["ERROR"], outside GREEN, YELLOW and RED. *)
Lemma error_result_lacks_frontend_keys :
  exists d,
    results_put (worker_events (H := failing_host) (VDict jane_doe) 0 1) = [VDict d]
    /\ d !! "final_profile" = None
    /\ d !! "qa_flags" = None
    /\ d !! "fraud_indicators" = None
    /\ d !! "qa_corrections" = None
    /\ d !! "quality_metrics" = None
    /\ d !! "execution_metadata" = None
    /\ d !! "verification_status" = None
    /\ dom d <> list_to_set frontend_keys
    /\ d !! "path" = Some (VStr "ERROR")
    /\ VStr "ERROR" ∉ [VStr "GREEN"; VStr "YELLOW"; VStr "RED"].
Proof.
  eexists. split; [reflexivity |].
  repeat split; try reflexivity.
  - intros Hdom.
    assert ("quality_metrics" ∈ (list_to_set frontend_keys : gset string)) as Hin
      by (unfold frontend_keys; set_solver).
    rewrite <- Hdom in Hin. apply elem_of_dom in Hin as [v Hv]. discriminate Hv.
  - intros Hin. repeat (apply elem_of_cons in Hin as [[=] | Hin]).
    now apply elem_of_nil in Hin.
Qed.

(** ** The exclusion-list override *)

Section Override.

Context `{Host}.

Lemma route_excluded (ev : Routing.evidence) :
  Routing.is_excluded ev = true -> Routing.route ev = Routing.RED.
Proof. intros Hex. unfold Routing.route. now rewrite Hex. Qed.

Lemma review_excluded (conflict_threshold : nat) (ev : Routing.evidence) :
  Routing.is_excluded ev = true ->
  Routing.requires_human_review conflict_threshold ev = true.
Proof.
  intros Hex. unfold Routing.requires_human_review. now rewrite (route_excluded _ Hex).
Qed.

Lemma score_breakdown_lookup (ev : Routing.evidence) (k : string) (v : value) :
  Routing.score_breakdown ev !! k = Some v ->
  exists f, v = VFloat f /\ f ∈ dimension_values ev.
Proof.
  unfold Routing.score_breakdown, dict_literal, dict_update, dimension_values.
  cbn [fold_left fst snd].
  rewrite !lookup_insert_Some, lookup_empty.
  intros Hv.
  repeat match goal with
         | Hv : _ \/ _ |- _ => destruct Hv as [Hv | Hv]
         | Hv : _ /\ _ |- _ => destruct Hv as [_ Hv]
         end;
    try discriminate; subst v; eexists; (split; [reflexivity |]);
    set_solver.
Qed.

(** The agent state of the specification passes the formatter. *)
Lemma final_state_formats
    (conflict_threshold : nat) (ev : Routing.evidence)
    (provider_info : gmap string value) :
  Forall (fun f => finite (f * 100) = true) (dimension_values ev) ->
  exists d vs,
    format_result_for_frontend (Routing.final_state conflict_threshold ev) provider_info
    = Ok (VDict d)
    /\ d !! "path" = Some (VStr (Routing.path_name (Routing.route ev)))
    /\ d !! "requires_human_review"
       = Some (VBool (Routing.requires_human_review conflict_threshold ev))
    /\ d !! "verification_status" = Some (VDict vs)
    /\ vs !! "oig_clear" = Some (VBool (negb (Routing.is_excluded ev))).
Proof.
  intros Hfinite. unfold Routing.final_state.
  set (qm := dict_literal
               [ ("confidence_tier", VStr (Routing.tier_name (Routing.confidence_tier ev)));
                 ("path", VStr (Routing.path_name (Routing.route ev)));
                 ("score_breakdown", VDict (Routing.score_breakdown ev)) ]).
  set (oig := dict_literal [ ("is_excluded", VBool (Routing.is_excluded ev)) ]).
  set (fr := dict_literal _).
  assert (Hsb : dict_get qm "score_breakdown" (VDict ∅)
                = VDict (Routing.score_breakdown ev)).
  { unfold dict_get, qm. now lookup_literal. }
  destruct (format_result_returns fr qm ∅ oig ∅ ∅ provider_info
              (Routing.tier_name (Routing.confidence_tier ev)))
    as (dp & emoji & Hf).
  - unfold dict_get, fr. now lookup_literal.
  - right. right. rewrite Hsb. apply percentages_of_returns.
    intros k v Hv. apply score_breakdown_lookup in Hv as (f & -> & Hin).
    apply percentage_float.
    eapply Forall_forall in Hfinite; [exact Hfinite | exact Hin].
  - unfold dict_get, qm. now lookup_literal.
  - unfold dict_get, fr. now lookup_literal.
  - unfold dict_get, fr. now lookup_literal.
  - unfold dict_get, fr. now lookup_literal.
  - unfold dict_get, fr. now lookup_literal.
  - rewrite Hf.
    destruct (frontend_result_lookup fr qm provider_info (chosen_breakdown qm) dp
                (VStr (Routing.tier_name (Routing.confidence_tier ev))) emoji
                ∅ oig ∅ ∅)
      as (d & qmo & Hd & _ & _ & _ & Hreview & _ & Hpath & _).
    destruct (verification_status_lookup fr ∅ oig ∅ ∅)
      as (vs & Hvs & _ & _ & Hclear & _).
    exists d, vs. split; [now rewrite Hd |].
    split; [rewrite Hpath; unfold dict_get, qm; now lookup_literal |].
    split; [rewrite Hreview; unfold dict_get, fr; now lookup_literal |].
    split.
    + rewrite <- Hvs.
      assert (frontend_result fr qm provider_info (chosen_breakdown qm) dp
                (VStr (Routing.tier_name (Routing.confidence_tier ev))) emoji
                ∅ oig ∅ ∅ = VDict d) as Hd' by exact Hd.
      unfold frontend_result in Hd'. injection Hd' as <-. now lookup_literal.
    + rewrite Hclear. unfold dict_get, oig. lookup_literal.
      simpl. reflexivity.
Qed.

(** C4: an exclusion-list hit overrides the score. For every record whose
    exclusion-list evidence reports [is_excluded] true, whatever the six
    dimension values (any finite floats, the five positive ones at 1.0
    included), the conflict threshold and the agent's other counts, the
    formatted result has [path] ["RED"] and [requires_human_review] true.
    The routing is the agent's (sections 4.5 and 4.6 of the specification);
    main.py hands [path] and [requires_human_review] on unchanged. *)
Theorem exclusion_hit_forces_red
    (conflict_threshold : nat) (ev : Routing.evidence)
    (provider_info : gmap string value) :
  Routing.is_excluded ev = true ->
  Forall (fun f => finite (f * 100) = true) (dimension_values ev) ->
  exists d,
    format_result_for_frontend (Routing.final_state conflict_threshold ev) provider_info
    = Ok (VDict d)
    /\ d !! "path" = Some (VStr "RED")
    /\ d !! "requires_human_review" = Some (VBool true).
Proof.
  intros Hex Hfinite.
  destruct (final_state_formats conflict_threshold ev provider_info Hfinite)
    as (d & vs & Hf & Hpath & Hreview & _).
  exists d. split; [exact Hf |].
  rewrite Hpath, Hreview, (route_excluded _ Hex), (review_excluded _ _ Hex).
  split; reflexivity.
Qed.

End Override.

Lemma exclusion_hit_forces_red_witness :
  (Routing.PLATINUM_THRESHOLD <=? Routing.confidence_score excluded_perfect)%float = true
  /\ exists d,
       format_result_for_frontend (H := echo_host)
         (Routing.final_state 3 excluded_perfect) jane_doe = Ok (VDict d)
       /\ d !! "path" = Some (VStr "RED")
       /\ d !! "requires_human_review" = Some (VBool true).
Proof.
  split; [vm_compute; reflexivity |].
  apply (exclusion_hit_forces_red (H := echo_host) 3 excluded_perfect jane_doe).
  - reflexivity.
  - repeat constructor.
Defined.

(** ** The worker and /validate-single *)

Section Worker.

Context `{Host}.

(** The [try] block either puts two log lines and the formatted result, or
    raises after at most one log line. *)
Lemma worker_body_cases (record : value) (index total_records : nat) (q : list event) :
  (exists info final payload l1 l2,
     record = VDict info
     /\ invoke (initial_state (normalize_provider_data info)) = Ok final
     /\ format_result_for_frontend final info = Ok payload
     /\ worker_body record index total_records q
        = (Ok tt, q ++ [Log l1; Log l2; Result payload]))
  \/ (exists e logs,
       worker_body record index total_records q = (Raise e, q ++ map Log logs)).
Proof.
  unfold worker_body, task_bind, lift, put.
  destruct (has_get record) as [info | e] eqn:Hinfo.
  2:{ right. exists e, []. simpl. now rewrite app_nil_r. }
  apply has_get_Ok in Hinfo as ->.
  destruct (invoke (initial_state (normalize_provider_data info))) as [final | e] eqn:Hinv.
  2:{ right. exists e. eexists [_]. reflexivity. }
  destruct (format_result_for_frontend final info) as [payload | e] eqn:Hfmt.
  2:{ right. exists e. eexists [_]. reflexivity. }
  destruct (has_get payload) as [pd | e] eqn:Hpd.
  2:{ right. exists e. eexists [_]. reflexivity. }
  destruct (format_percent1 (dict_get pd "confidence_score" (VInt 0))) as [shown | e] eqn:Hshown.
  2:{ right. exists e. eexists [_]. reflexivity. }
  left. exists info, final, payload. do 2 eexists.
  repeat split; try assumption; try reflexivity.
  cbv beta iota zeta. rewrite <- !app_assoc. reflexivity.
Qed.

Lemma worker_of_raise (record : value) (index total_records : nat)
    (q q' : list event) (e : exn) :
  worker_body record index total_records q = (Raise e, q') ->
  worker record index total_records q
  = (Ok tt,
     q' ++ [ Log (GLYPH_CROSS +:+ " Error processing record "
                  +:+ str_int (Z.of_nat index + 1) +:+ ": " +:+ exn_msg e);
             Result (worker_error_result record e) ]).
Proof.
  intros Hbody. unfold worker, task_try. rewrite Hbody.
  unfold task_bind, put. now rewrite <- app_assoc.
Qed.

Lemma worker_of_return (record : value) (index total_records : nat)
    (q q' : list event) :
  worker_body record index total_records q = (Ok tt, q') ->
  worker record index total_records q = (Ok tt, q').
Proof. intros Hbody. unfold worker, task_try. now rewrite Hbody. Qed.

(** Every worker returns, having put some log lines and then exactly one
    result. *)
Lemma worker_puts_one_result (record : value) (index total_records : nat)
    (q : list event) :
  exists logs r,
    worker record index total_records q = (Ok tt, q ++ map Log logs ++ [Result r])
    /\ ((exists info final,
           record = VDict info
           /\ invoke (initial_state (normalize_provider_data info)) = Ok final
           /\ format_result_for_frontend final info = Ok r)
        \/ (exists e q',
             worker_body record index total_records q = (Raise e, q')
             /\ r = worker_error_result record e)).
Proof.
  destruct (worker_body_cases record index total_records q)
    as [(info & final & payload & l1 & l2 & Hrec & Hinv & Hfmt & Hbody)
       | (e & logs & Hbody)].
  - exists [l1; l2], payload. split.
    + now rewrite (worker_of_return _ _ _ _ _ Hbody).
    + left. eauto.
  - eexists (logs ++ [_]), _. split.
    + rewrite (worker_of_raise _ _ _ _ _ _ Hbody).
      rewrite map_app, <- !app_assoc. reflexivity.
    + right. eauto.
Qed.

Lemma error_keys_in_frontend_keys :
  (list_to_set error_keys : gset string) ⊆ list_to_set frontend_keys.
Proof. unfold error_keys, frontend_keys. set_solver. Qed.

Lemma format_result_has_error_keys
    (final : value) (info : gmap string value) (r : value) :
  format_result_for_frontend final info = Ok r ->
  exists d, r = VDict d /\ (list_to_set error_keys : gset string) ⊆ dom d.
Proof.
  intros Hf.
  apply format_result_Ok in Hf
    as (fr & qm & dp & emoji & npi & oig & board & addr & _ & _ & _ & _ & _ & _ & _ & _ & ->).
  destruct (frontend_result_lookup fr qm info (chosen_breakdown qm) dp
              (dict_get qm "confidence_tier" (VStr "UNKNOWN")) emoji npi oig board addr)
    as (d & qmo & Hd & Hdom & _).
  exists d. split; [exact Hd |]. rewrite Hdom. apply error_keys_in_frontend_keys.
Qed.

(** The worker returns, whatever the record and the agent, after putting
    log lines and one result dictionary with the keys of an error result. *)
Lemma worker_puts_result_dict (record : value) (index total_records : nat)
    (q : list event) :
  exists logs d,
    worker record index total_records q
    = (Ok tt, q ++ map Log logs ++ [Result (VDict d)])
    /\ (list_to_set error_keys : gset string) ⊆ dom d.
Proof.
  destruct (worker_puts_one_result record index total_records q)
    as (logs & r & Hw & [(info & final & _ & _ & Hfmt) | (e & q' & _ & ->)]).
  - destruct (format_result_has_error_keys _ _ _ Hfmt) as (d & -> & Hsub).
    exists logs, d. split; assumption.
  - destruct (worker_error_result_lookup record e) as (d & Hd & Hdom & _).
    exists logs, d. rewrite <- Hd. split; [exact Hw |].
    rewrite Hdom. unfold error_keys. set_solver.
Qed.

(** C1: the caller always receives a structured result and never an
    exception. For every record (a dictionary or not), every agent and every
    queue, the batch worker returns normally, having put some log lines
    followed by one result dictionary; /validate-single returns a response
    whose ["data"] is a result dictionary. In both, the result has at least
    [original_data], [confidence_score], [path], [requires_human_review] and
    [review_reason]. *)
Theorem caller_always_gets_result :
  (forall (record : value) (index total_records : nat) (q : list event),
     exists logs d,
       worker record index total_records q
       = (Ok tt, q ++ map Log logs ++ [Result (VDict d)])
       /\ (list_to_set error_keys : gset string) ⊆ dom d)
  /\ (forall provider_data : gmap string value,
       exists resp d,
         validate_single_provider provider_data = Ok (VDict resp)
         /\ is_Some (resp !! "status")
         /\ resp !! "data" = Some (VDict d)
         /\ (list_to_set error_keys : gset string) ⊆ dom d).
Proof.
  split.
  - apply worker_puts_result_dict.
  - intros provider_data. unfold validate_single_provider, validate_single_body.
    destruct (invoke (initial_state (normalize_provider_data provider_data)))
      as [final | e] eqn:Hinv; cbn [Py.bind try_except].
    + destruct (format_result_for_frontend final provider_data) as [r | e] eqn:Hfmt;
        cbn [Py.bind try_except].
      * destruct (format_result_has_error_keys _ _ _ Hfmt) as (d & -> & Hsub).
        eexists. exists d. split; [reflexivity |].
        split; [eexists; now lookup_literal |].
        split; [now lookup_literal | exact Hsub].
      * destruct (single_error_data_lookup provider_data e) as (d & Hd & Hdom & _).
        eexists. exists d. split; [reflexivity |].
        split; [eexists; now lookup_literal |].
        split; [rewrite <- Hd; now lookup_literal | now rewrite Hdom].
    + destruct (single_error_data_lookup provider_data e) as (d & Hd & Hdom & _).
      eexists. exists d. split; [reflexivity |].
      split; [eexists; now lookup_literal |].
      split; [rewrite <- Hd; now lookup_literal | now rewrite Hdom].
Qed.

(** C2: a record whose processing raises [e] gets the error result: its
    [path] is ["ERROR"], [requires_human_review] is true and [review_reason]
    is ["Processing error: "] followed by [str(e)], hence not empty. In the
    batch worker the result is put after what the [try] block had put; in
    /validate-single it is the ["data"] of a response of status ["error"]. *)
Theorem raised_record_gets_error_result :
  (forall (record : value) (index total_records : nat) (q q' : list event) (e : exn),
     worker_body record index total_records q = (Raise e, q') ->
     exists log d,
       worker record index total_records q = (Ok tt, q' ++ [Log log; Result (VDict d)])
       /\ d !! "path" = Some (VStr "ERROR")
       /\ d !! "requires_human_review" = Some (VBool true)
       /\ d !! "review_reason" = Some (VStr ("Processing error: " +:+ exn_msg e))
       /\ "Processing error: " +:+ exn_msg e <> "")
  /\ (forall (provider_data : gmap string value) (e : exn),
       validate_single_body provider_data = Raise e ->
       exists resp d,
         validate_single_provider provider_data = Ok (VDict resp)
         /\ resp !! "status" = Some (VStr "error")
         /\ resp !! "error" = Some (VStr (exn_msg e))
         /\ resp !! "data" = Some (VDict d)
         /\ d !! "path" = Some (VStr "ERROR")
         /\ d !! "requires_human_review" = Some (VBool true)
         /\ d !! "review_reason" = Some (VStr ("Processing error: " +:+ exn_msg e))
         /\ "Processing error: " +:+ exn_msg e <> "").
Proof.
  split.
  - intros record index total_records q q' e Hbody.
    destruct (worker_error_result_lookup record e)
      as (d & Hd & _ & _ & _ & _ & Hpath & Hreview & Hreason).
    eexists. exists d. rewrite <- Hd.
    split; [apply (worker_of_raise _ _ _ _ _ _ Hbody) |].
    repeat split; try assumption. discriminate.
  - intros provider_data e Hbody. unfold validate_single_provider. rewrite Hbody.
    cbn [try_except].
    destruct (single_error_data_lookup provider_data e)
      as (d & Hd & _ & _ & _ & Hpath & Hreview & Hreason).
    eexists. exists d. split; [reflexivity |].
    split; [now lookup_literal |]. split; [now lookup_literal |].
    split; [rewrite <- Hd; now lookup_literal |].
    repeat split; try assumption. discriminate.
Qed.

End Worker.

Lemma raised_record_gets_error_result_witness :
  worker_body (H := failing_host) (VDict jane_doe) 0 1 [] 
  = (Raise (Exn "RuntimeError" "agent unavailable"),
     [ Log (GLYPH_PROCESSING +:+ " [1/1] Processing: Jane Doe") ])
  /\ exists log d,
       worker (H := failing_host) (VDict jane_doe) 0 1 []
       = (Ok tt,
          [ Log (GLYPH_PROCESSING +:+ " [1/1] Processing: Jane Doe") ]
          ++ [Log log; Result (VDict d)])
       /\ d !! "path" = Some (VStr "ERROR")
       /\ d !! "requires_human_review" = Some (VBool true)
       /\ d !! "review_reason"
          = Some (VStr ("Processing error: "
                        +:+ exn_msg (Exn "RuntimeError" "agent unavailable")))
       /\ "Processing error: " +:+ exn_msg (Exn "RuntimeError" "agent unavailable") <> "".
Proof.
  split; [vm_compute; reflexivity |].
  apply (proj1 (raised_record_gets_error_result (H := failing_host))
           (VDict jane_doe) 0%nat 1%nat []).
  vm_compute. reflexivity.
Defined.

(** ** The weights of the six dimensions *)

Section Weights.

Context `{Host}.

Lemma mapM_Forall2 {A B : Type} (f : A -> result B) (l : list A) (bs : list B) :
  mapM f l = Ok bs -> Forall2 (fun a b => f a = Ok b) l bs.
Proof.
  revert bs. induction l as [| a l IH]; simpl; intros bs Hm.
  - injection Hm as <-. constructor.
  - apply bind_Ok in Hm as (b & Hb & Hm). apply bind_Ok in Hm as (bs' & Hbs & Hm).
    injection Hm as <-. constructor; [exact Hb | now apply IH].
Qed.

Lemma dimension_entry_weight (sb : gmap string value) (row : string * string * Z)
    (entry : value) :
  dimension_entry sb row = Ok entry -> weight_of entry = row.2.
Proof.
  destruct row as [[label key] weight]. unfold dimension_entry.
  intros Hentry. apply bind_Ok in Hentry as (score & _ & Hentry).
  injection Hentry as <-. unfold weight_of. now lookup_literal.
Qed.

Lemma entries_weights (sb : gmap string value) (rows : list (string * string * Z))
    (table : list value) :
  mapM (dimension_entry sb) rows = Ok table ->
  map weight_of table = map snd rows.
Proof.
  intros Hd. apply mapM_Forall2 in Hd.
  induction Hd as [| row entry rows entries Hrow _ IH]; [reflexivity |].
  simpl. rewrite IH. f_equal. exact (dimension_entry_weight _ _ _ Hrow).
Qed.

Lemma dimensions_weights (score_breakdown : value) (table : list value) :
  dimensions score_breakdown = Ok table ->
  map weight_of table = map snd dimension_table.
Proof.
  unfold dimensions. intros Hd. apply bind_Ok in Hd as (sb & _ & Hd).
  exact (entries_weights _ _ _ Hd).
Qed.

(** C7: the weights declared in the dimension table are 35, 20, 15, 15, 10
    and 5 percent for identity, address, enrichment, completeness, freshness
    and risk; they are the specification's weights 0.35, 0.20, 0.15, 0.15,
    0.10 and 0.05 in percent; they sum to exactly 100, the fractions to 1;
    and every table [dimensions] builds carries these weights, so its
    weights sum to 100. The table is built for every breakdown without
    entries, and for every breakdown whose six scores convert to integers. *)
Theorem dimension_weights_sum_to_100 :
  map (fun row => (row.1.2, row.2)) dimension_table
  = [ ("identity", 35%Z); ("address", 20%Z); ("enrichment", 15%Z);
      ("completeness", 15%Z); ("freshness", 10%Z); ("risk", 5%Z) ]
  /\ fold_right Z.add 0%Z (map snd dimension_table) = 100%Z
  /\ Forall2 (fun row kw => row.1.2 = kw.1 /\ (inject_Z row.2 / 100 == kw.2)%Q)
       dimension_table importance_weights
  /\ (fold_right Qplus 0 (map snd importance_weights) == 1)%Q
  /\ (forall score_breakdown table,
        dimensions score_breakdown = Ok table ->
        map weight_of table = [35; 20; 15; 15; 10; 5]%Z
        /\ total_weight table = 100%Z)
  /\ (exists table, dimensions (VDict ∅) = Ok table)
  /\ (forall sb : gmap string value,
        Forall (fun row => exists n, percent_score sb row.1.2 = Ok n) dimension_table ->
        exists table, dimensions (VDict sb) = Ok table).
Proof.
  split; [reflexivity |]. split; [reflexivity |].
  split; [repeat constructor |]. split; [reflexivity |].
  split; [| split].
  - intros score_breakdown table Hd. unfold total_weight.
    rewrite (dimensions_weights _ _ Hd). split; reflexivity.
  - eexists. reflexivity.
  - intros sb Hscores. unfold dimensions. cbn [has_get Py.bind].
    apply mapM_Ok. eapply Forall_impl; [exact Hscores |].
    intros [[label key] weight] (n & Hn). unfold dimension_entry.
    cbn [fst snd] in Hn. rewrite Hn. cbn [Py.bind]. eauto.
Qed.

End Weights.

(** ** The stream of /validate-file *)

Section Stream.

Context `{Host}.

Variable provider_list : list value.

(** A property kept by every action holds along every schedule. *)
Lemma run_invariant (P : stream -> Prop) :
  (forall a s s', P s -> fire provider_list a s = Some s' -> P s') ->
  forall schedule s s', P s -> run provider_list schedule s = Some s' -> P s'.
Proof.
  intros Hstep schedule.
  induction schedule as [| a schedule IH]; simpl; intros s s' HP Hrun.
  - now injection Hrun as <-.
  - destruct (fire provider_list a s) as [s1 |] eqn:Hfire; [| discriminate].
    eapply IH; [| exact Hrun]. eapply Hstep; eassumption.
Qed.

Lemma reachable_invariant (P : stream -> Prop) :
  P (stream_start provider_list) ->
  (forall a s s', P s -> fire provider_list a s = Some s' -> P s') ->
  forall s, reachable provider_list s -> P s.
Proof.
  intros Hstart Hstep s (schedule & Hrun).
  eapply run_invariant; eassumption.
Qed.

Lemma count_running_insert (ts : list task) (i : nat) (t t' : task) :
  ts !! i = Some t ->
  (count_running (<[i := t']> ts) + (if running t then 1 else 0)
   = count_running ts + (if running t' then 1 else 0))%nat.
Proof.
  unfold count_running.
  revert i. induction ts as [| t0 ts IH]; intros [| i] Hi; try discriminate.
  - injection Hi as ->. change (<[0%nat := t']> (t :: ts)) with (t' :: ts).
    cbn [List.filter].
    destruct (running t'), (running t); cbn [length]; lia.
  - specialize (IH i Hi).
    change (<[S i := t']> (t0 :: ts)) with (t0 :: <[i := t']> ts). cbn [List.filter].
    destruct (running t0); cbn [length]; lia.
Qed.

Lemma semaphore_invariant_start : semaphore_invariant (stream_start provider_list).
Proof.
  unfold semaphore_invariant, stream_start, running_workers.
  destruct (length provider_list =? 0)%nat; simpl; [reflexivity |].
  induction (length provider_list) as [| n IH]; [reflexivity |].
  simpl. exact IH.
Qed.

Lemma semaphore_invariant_step (a : action) (s s' : stream) :
  semaphore_invariant s -> fire provider_list a s = Some s' -> semaphore_invariant s'.
Proof.
  unfold semaphore_invariant, running_workers. fold count_running.
  intros Hinv Hfire. destruct a; simpl in Hfire.
  - destruct (tasks s !! i) as [[| todo |] |] eqn:Hi; try discriminate.
    destruct (provider_list !! i); try discriminate.
    destruct (semaphore s) as [| n] eqn:Hsem; try discriminate.
    injection Hfire as <-. simpl. fold (count_running (tasks s)) in Hinv.
    pose proof (count_running_insert _ _ _
                  (Running (worker_events v i (length provider_list))) Hi) as Hc.
    simpl in Hc. unfold count_running in *. lia.
  - destruct (tasks s !! i) as [[| [| e todo] |] |] eqn:Hi; try discriminate.
    injection Hfire as <-. simpl.
    pose proof (count_running_insert _ _ _ (Running todo) Hi) as Hc.
    simpl in Hc. unfold count_running in *. lia.
  - destruct (tasks s !! i) as [[| [| e todo] |] |] eqn:Hi; try discriminate.
    injection Hfire as <-. simpl.
    pose proof (count_running_insert _ _ _ Finished Hi) as Hc.
    simpl in Hc. unfold count_running in *. lia.
  - destruct (at_phase s); try discriminate.
    destruct (result_queue s); try discriminate.
    destruct (completed s <? length provider_list)%nat; try discriminate.
    injection Hfire as <-. exact Hinv.
  - destruct (at_phase s); try discriminate.
    destruct (result_queue s); try discriminate.
    destruct ((completed s <? length provider_list)%nat && forallb done (tasks s));
      try discriminate.
    injection Hfire as <-. exact Hinv.
  - destruct (at_phase s); try discriminate.
    destruct (completed s <? length provider_list)%nat; try discriminate.
    injection Hfire as <-. exact Hinv.
  - destruct (at_phase s); try discriminate.
    destruct (forallb done (tasks s)); try discriminate.
    injection Hfire as <-. exact Hinv.
  - destruct (at_phase s); try discriminate.
    destruct (result_queue s); try discriminate.
    injection Hfire as <-. exact Hinv.
  - destruct (at_phase s); try discriminate.
    destruct (result_queue s); try discriminate.
    injection Hfire as <-. exact Hinv.
Qed.

(** C8: in every state a /validate-file request can reach, under every
    schedule of its tasks, the number of workers between the acquire and the
    release of the semaphore is at most [MAX_CONCURRENT_WORKERS] = 5; the
    semaphore, initialised to 5, holds the number of free slots, and a
    worker starts only by taking one. *)
Theorem workers_bounded_by_semaphore (s : stream) :
  reachable provider_list s ->
  (running_workers s <= MAX_CONCURRENT_WORKERS)%nat
  /\ (semaphore s + running_workers s = MAX_CONCURRENT_WORKERS)%nat
  /\ MAX_CONCURRENT_WORKERS = 5%nat.
Proof.
  intros Hreach.
  assert (semaphore_invariant s) as Hinv.
  { revert s Hreach. apply reachable_invariant.
    - apply semaphore_invariant_start.
    - apply semaphore_invariant_step. }
  unfold semaphore_invariant in Hinv. split; [lia |]. split; [exact Hinv | reflexivity].
Qed.

(** *** The actions as a relation *)

Lemma fire_step (a : action) (s s' : stream) :
  fire provider_list a s = Some s' <-> step provider_list a s s'.
Proof.
  split.
  - intros Hfire. destruct a; simpl in Hfire.
    + destruct (tasks s !! i) as [[| todo |] |] eqn:Hi; try discriminate.
      destruct (provider_list !! i) eqn:Hp; try discriminate.
      destruct (semaphore s) as [| n] eqn:Hsem; try discriminate.
      injection Hfire as <-. now constructor.
    + destruct (tasks s !! i) as [[| [| e todo] |] |] eqn:Hi; try discriminate.
      injection Hfire as <-. now constructor.
    + destruct (tasks s !! i) as [[| [| e todo] |] |] eqn:Hi; try discriminate.
      injection Hfire as <-. now constructor.
    + destruct (at_phase s) eqn:Hphase; try discriminate.
      destruct (result_queue s) eqn:Hq; try discriminate.
      destruct (Nat.ltb_spec (completed s) (length provider_list)); try discriminate.
      injection Hfire as <-. now constructor.
    + destruct (at_phase s) eqn:Hphase; try discriminate.
      destruct (result_queue s) eqn:Hq; try discriminate.
      destruct (Nat.ltb_spec (completed s) (length provider_list)); try discriminate.
      destruct (forallb done (tasks s)) eqn:Hdone; try discriminate.
      injection Hfire as <-. now constructor.
    + destruct (at_phase s) eqn:Hphase; try discriminate.
      destruct (Nat.ltb_spec (completed s) (length provider_list)); try discriminate.
      injection Hfire as <-. constructor; [assumption | lia].
    + destruct (at_phase s) eqn:Hphase; try discriminate.
      destruct (forallb done (tasks s)) eqn:Hdone; try discriminate.
      injection Hfire as <-. now constructor.
    + destruct (at_phase s) eqn:Hphase; try discriminate.
      destruct (result_queue s) eqn:Hq; try discriminate.
      injection Hfire as <-. now constructor.
    + destruct (at_phase s) eqn:Hphase; try discriminate.
      destruct (result_queue s) eqn:Hq; try discriminate.
      injection Hfire as <-. now constructor.
  - intros Hstep. destruct Hstep; simpl;
      repeat match goal with
             | Heq : _ = _ |- _ => rewrite Heq
             end; try reflexivity.
    + destruct (Nat.ltb_spec (completed s) (length provider_list)); [reflexivity | lia].
    + destruct (Nat.ltb_spec (completed s) (length provider_list)); [reflexivity | lia].
    + destruct (Nat.ltb_spec (completed s) (length provider_list)); [lia | reflexivity].
Qed.

(** *** What the tasks still owe *)

Lemma gather_insert {A : Type} (f : nat -> value -> task -> list A)
    (providers : list value) (ts : list task) (i k : nat) (provider : value) (t : task) :
  providers !! k = Some provider ->
  ts !! k = Some t ->
  exists rest,
    gather f i providers ts ≡ₚ f (i + k)%nat provider t ++ rest
    /\ forall t', gather f i providers (<[k := t']> ts)
                  ≡ₚ f (i + k)%nat provider t' ++ rest.
Proof.
  revert ts i k.
  induction providers as [| p0 providers IH]; intros [| t0 ts] i [| k] Hp Ht;
    try discriminate.
  - injection Hp as ->. injection Ht as ->.
    exists (gather f (S i) providers ts). rewrite Nat.add_0_r.
    split; [reflexivity | intros t'; reflexivity].
  - destruct (IH ts (S i) k Hp Ht) as (rest & Hrest & Hrest').
    exists (f i p0 t0 ++ rest).
    replace (i + S k)%nat with (S i + k)%nat by lia. split.
    + cbn [gather]. rewrite Hrest. apply Permutation_app_swap_app.
    + intros t'. change (<[S k := t']> (t0 :: ts)) with (t0 :: <[k := t']> ts).
      cbn [gather]. rewrite (Hrest' t'). apply Permutation_app_swap_app.
Qed.

Lemma forallb_done_lookup (ts : list task) (i : nat) (t : task) :
  forallb done ts = true -> ts !! i = Some t -> t = Finished.
Proof.
  revert i. induction ts as [| t0 ts IH]; intros [| i] Hdone Hi; try discriminate;
    simpl in Hdone; apply andb_true_iff in Hdone as [Ht0 Hts].
  - injection Hi as <-. now destruct t0.
  - now apply (IH i).
Qed.

Lemma forallb_done_insert (ts : list task) (i : nat) :
  forallb done ts = true -> forallb done (<[i := Finished]> ts) = true.
Proof.
  revert i. induction ts as [| t0 ts IH]; intros [| i] Hdone; try assumption;
    simpl in Hdone; apply andb_true_iff in Hdone as [Ht0 Hts].
  - change (<[0%nat := Finished]> (t0 :: ts)) with (Finished :: ts). simpl. exact Hts.
  - change (<[S i := Finished]> (t0 :: ts)) with (t0 :: <[i := Finished]> ts).
    simpl. rewrite Ht0. now apply IH.
Qed.

Lemma gather_done {A : Type} (f : nat -> value -> task -> list A)
    (providers : list value) (ts : list task) (i : nat) :
  (forall j provider, f j provider Finished = []) ->
  forallb done ts = true ->
  gather f i providers ts = [].
Proof.
  intros Hf. revert ts i.
  induction providers as [| p0 providers IH]; intros [| t0 ts] i Hdone; try reflexivity.
  simpl in Hdone. apply andb_true_iff in Hdone as [Ht0 Hts].
  destruct t0; try discriminate. cbn [gather]. rewrite Hf. now apply IH.
Qed.

Lemma gather_owed_start (providers : list value) (i : nat) :
  gather (owed provider_list) i providers (replicate (length providers) Waiting)
  = results_from (length provider_list) i providers.
Proof.
  revert i. induction providers as [| p0 providers IH]; intros i; [reflexivity |].
  simpl. now rewrite IH.
Qed.

Lemma results_put_app (q1 q2 : list event) :
  results_put (q1 ++ q2) = results_put q1 ++ results_put q2.
Proof. unfold results_put. apply omap_app. Qed.

Lemma results_yielded_snoc (ys : list sse) (e : event) :
  omap (fun m => match m with SseResult data => Some data | _ => None end)
       (ys ++ [sse_of e])
  = omap (fun m => match m with SseResult data => Some data | _ => None end) ys
    ++ results_put [e].
Proof. rewrite omap_app. f_equal. now destruct e. Qed.

Lemma results_invariant_start : results_invariant provider_list (stream_start provider_list).
Proof.
  unfold results_invariant, stream_start, expected_results, results_yielded.
  destruct provider_list as [| p0 providers] eqn:Hlist.
  - simpl. repeat split; try reflexivity.
  - cbn [length Nat.eqb]. cbn [tasks result_queue yielded at_phase].
    split; [now rewrite length_replicate |].
    split; [| split; [intros [|]; discriminate | discriminate]].
    cbn [omap list_omap results_put app]. rewrite <- Hlist.
    replace (S (length providers)) with (length provider_list) by now rewrite Hlist.
    now rewrite gather_owed_start.
Qed.

Lemma lookup_provider (s : stream) (i : nat) (t : task) :
  length (tasks s) = length provider_list ->
  tasks s !! i = Some t ->
  exists provider, provider_list !! i = Some provider.
Proof.
  intros Hlen Hi. apply lookup_lt_Some in Hi. rewrite Hlen in Hi.
  now apply lookup_lt_is_Some_2.
Qed.

Lemma results_invariant_step (a : action) (s s' : stream) :
  results_invariant provider_list s -> step provider_list a s s' -> results_invariant provider_list s'.
Proof.
  unfold results_invariant, results_yielded.
  intros (Hlen & Hperm & Hdone & Hclosed) Hstep.
  destruct Hstep as
    [ i provider n s Hi Hp Hsem | i e todo s Hi | i s Hi | e q s Hphase Hq Hlt
    | s Hphase Hq Hlt Hall | s Hphase Hge | s Hphase Hall | e q s Hphase Hq
    | s Hphase Hq ];
    cbn [tasks result_queue yielded at_phase] in *.
  - destruct (gather_insert (owed provider_list) provider_list (tasks s) 0 i provider Waiting Hp Hi)
      as (rest & Hrest & Hrest').
    split; [now rewrite length_insert |]. split; [| split; [| assumption]].
    + rewrite Hrest'. rewrite Hrest in Hperm. exact Hperm.
    + intros Hph. specialize (Hdone Hph).
      pose proof (forallb_done_lookup _ _ _ Hdone Hi). discriminate.
  - destruct (lookup_provider s i _ Hlen Hi) as (provider & Hp).
    destruct (gather_insert (owed provider_list) provider_list (tasks s) 0 i provider _ Hp Hi)
      as (rest & Hrest & Hrest').
    split; [now rewrite length_insert |]. split; [| split].
    + rewrite Hrest'. rewrite Hrest in Hperm. rewrite <- Hperm.
      cbn [owed]. rewrite results_put_app.
      change (e :: todo) with ([e] ++ todo). rewrite (results_put_app [e] todo).
      rewrite <- !app_assoc. reflexivity.
    + intros Hph. specialize (Hdone Hph).
      pose proof (forallb_done_lookup _ _ _ Hdone Hi). discriminate.
    + intros Hph. specialize (Hdone (or_intror Hph)).
      pose proof (forallb_done_lookup _ _ _ Hdone Hi). discriminate.
  - destruct (lookup_provider s i _ Hlen Hi) as (provider & Hp).
    destruct (gather_insert (owed provider_list) provider_list (tasks s) 0 i provider _ Hp Hi)
      as (rest & Hrest & Hrest').
    split; [now rewrite length_insert |]. split; [| split; [| assumption]].
    + rewrite Hrest'. rewrite Hrest in Hperm. exact Hperm.
    + intros Hph. apply forallb_done_insert. now apply Hdone.
  - split; [assumption |]. split; [| split; [intros [|]; discriminate | discriminate]].
    rewrite results_yielded_snoc. rewrite Hq in Hperm.
    change (e :: q) with ([e] ++ q) in Hperm. rewrite results_put_app in Hperm.
    rewrite <- Hperm. rewrite <- !app_assoc. reflexivity.
  - split; [assumption |]. split; [| split; [intros [|]; discriminate | discriminate]].
    now rewrite Hq in Hperm.
  - split; [assumption |]. split; [assumption |].
    split; [intros [|]; discriminate | discriminate].
  - split; [assumption |]. split; [assumption |].
    split; [intros _; assumption | discriminate].
  - split; [assumption |]. split; [| split; [intros _; apply Hdone; now left | discriminate]].
    rewrite results_yielded_snoc. rewrite Hq in Hperm.
    change (e :: q) with ([e] ++ q) in Hperm. rewrite results_put_app in Hperm.
    rewrite <- Hperm. rewrite <- !app_assoc. reflexivity.
  - split; [assumption |].
    split; [| split; [intros _; apply Hdone; now left | reflexivity]].
    rewrite omap_app. cbn [omap list_omap]. rewrite app_nil_r.
    now rewrite Hq in Hperm.
Qed.

Lemma reachable_results_invariant (s : stream) :
  reachable provider_list s -> results_invariant provider_list s.
Proof.
  revert s. apply reachable_invariant.
  - apply results_invariant_start.
  - intros a s s' Hinv Hfire. apply fire_step in Hfire.
    eapply results_invariant_step; eassumption.
Qed.

(** *** Every worker puts one result *)

Lemma results_put_logs (logs : list string) : results_put (map Log logs) = [].
Proof. induction logs as [| l logs IH]; [reflexivity | exact IH]. Qed.

Lemma worker_events_one_result (record : value) (index total_records : nat) :
  exists logs r,
    worker_events record index total_records = map Log logs ++ [Result r]
    /\ results_put (worker_events record index total_records) = [r]
    /\ (forall e q', worker_body record index total_records [] = (Raise e, q') ->
        r = worker_error_result record e)
    /\ exists d, r = VDict d /\ (list_to_set error_keys : gset string) ⊆ dom d.
Proof.
  destruct (worker_puts_one_result record index total_records []) as (logs & r & Hw & Hr).
  destruct (worker_puts_result_dict record index total_records [])
    as (logs' & d & Hw' & Hkeys).
  exists logs, r. unfold worker_events. rewrite Hw. cbn [snd app].
  split; [reflexivity |]. split; [| split].
  - rewrite results_put_app, results_put_logs. reflexivity.
  - intros e q' Hbody. rewrite (worker_of_raise _ _ _ _ _ _ Hbody) in Hw.
    injection Hw as Hw. apply (f_equal (@rev event)) in Hw.
    rewrite !rev_app_distr in Hw. simpl in Hw. now injection Hw as <-.
  - exists d. split; [| exact Hkeys]. rewrite Hw in Hw'. injection Hw' as Hw'.
    apply (f_equal (@rev event)) in Hw'.
    rewrite !rev_app_distr in Hw'. simpl in Hw'. now injection Hw' as <-.
Qed.

Lemma results_from_length (total_records i : nat) (providers : list value) :
  length (results_from total_records i providers) = length providers.
Proof.
  revert i. induction providers as [| p0 providers IH]; intros i; [reflexivity |].
  cbn [results_from]. rewrite length_app, IH.
  destruct (worker_events_one_result p0 i total_records) as (_ & r & _ & -> & _).
  reflexivity.
Qed.

Lemma results_from_elem (total_records i k : nat) (providers : list value)
    (provider r : value) :
  providers !! k = Some provider ->
  r ∈ results_put (worker_events provider (i + k) total_records) ->
  r ∈ results_from total_records i providers.
Proof.
  revert i k. induction providers as [| p0 providers IH]; intros i [| k] Hp Hr;
    try discriminate; cbn [results_from]; apply elem_of_app.
  - injection Hp as ->. rewrite Nat.add_0_r in Hr. now left.
  - right. apply (IH (S i) k Hp). now replace (S i + k)%nat with (i + S k)%nat by lia.
Qed.

(** *** No schedule gets stuck, and every schedule ends *)

Lemma not_all_done (ts : list task) :
  forallb done ts = false -> exists i t, ts !! i = Some t /\ done t = false.
Proof.
  induction ts as [| t0 ts IH]; [discriminate |]. simpl.
  destruct (done t0) eqn:Ht0; simpl.
  - intros Hts. destruct (IH Hts) as (i & t & Hi & Ht). now exists (S i), t.
  - intros _. now exists 0%nat, t0.
Qed.

Lemma some_running (ts : list task) :
  (0 < count_running ts)%nat -> exists i todo, ts !! i = Some (Running todo).
Proof.
  unfold count_running. induction ts as [| t0 ts IH]; simpl; [lia |].
  destruct t0 as [| todo |]; simpl.
  - intros Hc. destruct (IH Hc) as (i & todo & Hi). now exists (S i), todo.
  - intros _. now exists 0%nat, todo.
  - intros Hc. destruct (IH Hc) as (i & todo & Hi). now exists (S i), todo.
Qed.

Lemma running_task_moves (s : stream) (i : nat) (todo : list event) :
  tasks s !! i = Some (Running todo) -> exists a s', step provider_list a s s'.
Proof.
  intros Hi. destruct todo as [| e todo].
  - eexists (Release i), _. econstructor; eassumption.
  - eexists (Put i), _. econstructor; eassumption.
Qed.

Lemma some_task_moves (s : stream) :
  semaphore_invariant s ->
  length (tasks s) = length provider_list ->
  forallb done (tasks s) = false ->
  exists a s', step provider_list a s s'.
Proof.
  intros Hsem Hlen Hdone.
  destruct (not_all_done _ Hdone) as (i & t & Hi & Ht).
  destruct t as [| todo |]; [| now apply (running_task_moves s i todo) | discriminate].
  destruct (semaphore s) as [| n] eqn:Hfree.
  - unfold semaphore_invariant, running_workers in Hsem. rewrite Hfree in Hsem.
    destruct (some_running (tasks s)) as (j & todo & Hj).
    { unfold count_running, MAX_CONCURRENT_WORKERS in *. lia. }
    now apply (running_task_moves s j todo).
  - destruct (lookup_provider s i _ Hlen Hi) as (provider & Hp).
    eexists (Acquire i), _. econstructor; eassumption.
Qed.

Lemma open_stream_moves (s : stream) :
  semaphore_invariant s ->
  length (tasks s) = length provider_list ->
  at_phase s <> Closed ->
  exists a s', step provider_list a s s'.
Proof.
  intros Hsem Hlen Hopen.
  destruct (at_phase s) eqn:Hphase; [| | | contradiction].
  - destruct (lt_dec (completed s) (length provider_list)) as [Hlt | Hge].
    + destruct (result_queue s) as [| e q] eqn:Hq.
      * destruct (forallb done (tasks s)) eqn:Hdone.
        -- eexists TimeoutBreak, _. econstructor; eassumption.
        -- now apply some_task_moves.
      * eexists Receive, _. econstructor; eassumption.
    + eexists LoopExit, _. econstructor; eassumption.
  - destruct (forallb done (tasks s)) eqn:Hdone.
    + eexists Gathered, _. econstructor; eassumption.
    + now apply some_task_moves.
  - destruct (result_queue s) as [| e q] eqn:Hq.
    + eexists Close, _. econstructor; eassumption.
    + eexists DrainItem, _. econstructor; eassumption.
Qed.

Lemma step_decreases (a : action) (s s' : stream) :
  length (tasks s) = length provider_list ->
  step provider_list a s s' -> (remaining provider_list s' < remaining provider_list s)%nat.
Proof.
  unfold remaining. intros Hlen Hstep.
  destruct Hstep as
    [ i provider n s Hi Hp Hsem | i e todo s Hi | i s Hi | e q s Hphase Hq Hlt
    | s Hphase Hq Hlt Hall | s Hphase Hge | s Hphase Hall | e q s Hphase Hq
    | s Hphase Hq ];
    cbn [tasks result_queue yielded at_phase] in *;
    try (rewrite Hphase; rewrite ?Hq; cbn [phase_rank length]; lia).
  - destruct (gather_insert (weight provider_list) provider_list (tasks s) 0 i provider _ Hp Hi)
      as (rest & Hrest & Hrest').
    rewrite (Permutation_length (Hrest' _)), (Permutation_length Hrest).
    cbn [weight Nat.add]. rewrite !length_app, !length_replicate. lia.
  - destruct (lookup_provider s i _ Hlen Hi) as (provider & Hp).
    destruct (gather_insert (weight provider_list) provider_list (tasks s) 0 i provider _ Hp Hi)
      as (rest & Hrest & Hrest').
    rewrite (Permutation_length (Hrest' _)), (Permutation_length Hrest).
    cbn [weight Nat.add]. rewrite !length_app, !length_replicate. cbn [length]. lia.
  - destruct (lookup_provider s i _ Hlen Hi) as (provider & Hp).
    destruct (gather_insert (weight provider_list) provider_list (tasks s) 0 i provider _ Hp Hi)
      as (rest & Hrest & Hrest').
    rewrite (Permutation_length (Hrest' _)), (Permutation_length Hrest).
    cbn [weight Nat.add]. rewrite !length_app, !length_replicate. cbn [length]. lia.
Qed.

Lemma run_bounded (schedule : list action) (s s' : stream) :
  results_invariant provider_list s ->
  run provider_list schedule s = Some s' ->
  (length schedule + remaining provider_list s' <= remaining provider_list s)%nat.
Proof.
  revert s. induction schedule as [| a schedule IH]; simpl; intros s Hinv Hrun.
  - injection Hrun as <-. lia.
  - destruct (fire provider_list a s) as [s1 |] eqn:Hfire; [| discriminate].
    apply fire_step in Hfire.
    pose proof (step_decreases _ _ _ (proj1 Hinv) Hfire).
    pose proof (IH s1 (results_invariant_step _ _ _ Hinv Hfire) Hrun). lia.
Qed.

Lemma run_completes (m : nat) (s : stream) :
  semaphore_invariant s ->
  results_invariant provider_list s ->
  (remaining provider_list s <= m)%nat ->
  exists schedule s', run provider_list schedule s = Some s' /\ at_phase s' = Closed.
Proof.
  revert s. induction m as [| m IH]; intros s Hsem Hinv Hm.
  - destruct (at_phase s) eqn:Hphase;
      try (unfold remaining in Hm; rewrite Hphase in Hm; simpl in Hm; lia).
    exists [], s. split; [reflexivity | assumption].
  - destruct (at_phase s) eqn:Hphase.
    4:{ exists [], s. split; [reflexivity | assumption]. }
    all: destruct (open_stream_moves s Hsem (proj1 Hinv)) as (a & s1 & Hstep);
      [rewrite Hphase; discriminate |];
      pose proof (step_decreases _ _ _ (proj1 Hinv) Hstep) as Hdec;
      pose proof (proj2 (fire_step a s s1) Hstep) as Hfire;
      destruct (IH s1) as (schedule & s' & Hrun & Hclosed);
      [ eapply semaphore_invariant_step; eassumption
      | eapply results_invariant_step; eassumption
      | lia
      | exists (a :: schedule), s'; simpl; rewrite Hfire; split; assumption ].
Qed.

(** C3: a failing record does not stop the batch. The worker of every
    record, raising or not, puts exactly one result (the error result when
    its [try] block raises); in every closed stream the batch can reach the
    yielded ['result'] events are, up to order, exactly the results of the
    workers, one per input record, so the result of every other record is
    among them; no schedule gets stuck before the stream is closed, every
    schedule can be continued to a closed stream, and no schedule is longer
    than the work left at its start. *)
Theorem failing_record_does_not_stop_batch :
  (forall i record,
     provider_list !! i = Some record ->
     exists logs r,
       worker_events record i (length provider_list) = map Log logs ++ [Result r]
       /\ results_put (worker_events record i (length provider_list)) = [r]
       /\ (forall e q',
             worker_body record i (length provider_list) [] = (Raise e, q') ->
             r = worker_error_result record e))
  /\ (forall s,
        reachable provider_list s -> at_phase s = Closed ->
        results_yielded s ≡ₚ expected_results provider_list
        /\ length (results_yielded s) = length provider_list
        /\ forall j record r,
             provider_list !! j = Some record ->
             results_put (worker_events record j (length provider_list)) = [r] ->
             r ∈ results_yielded s)
  /\ (forall s,
        reachable provider_list s -> at_phase s <> Closed ->
        exists a s', fire provider_list a s = Some s')
  /\ (forall s,
        reachable provider_list s ->
        exists schedule s',
          run provider_list schedule s = Some s' /\ at_phase s' = Closed)
  /\ (forall s schedule s',
        reachable provider_list s ->
        run provider_list schedule s = Some s' ->
        (length schedule <= remaining provider_list s)%nat).
Proof.
  assert (Hsem : forall s, reachable provider_list s -> semaphore_invariant s).
  { apply reachable_invariant;
      [apply semaphore_invariant_start | apply semaphore_invariant_step]. }
  split; [| split; [| split; [| split]]].
  - intros i record _.
    destruct (worker_events_one_result record i (length provider_list))
      as (logs & r & Hevents & Hresults & Herror & _).
    exists logs, r. repeat split; assumption.
  - intros s Hreach Hclosed.
    destruct (reachable_results_invariant s Hreach) as (Hlen & Hperm & Hdone & Hempty).
    rewrite (Hempty Hclosed) in Hperm.
    rewrite (gather_done (owed provider_list) provider_list (tasks s) 0) in Hperm;
      [| reflexivity | apply Hdone; now right].
    cbn [results_put omap list_omap app] in Hperm. rewrite app_nil_r in Hperm.
    split; [exact Hperm |]. split.
    + rewrite (Permutation_length Hperm). apply results_from_length.
    + intros j record r Hj Hr. rewrite Hperm. unfold expected_results.
      apply (results_from_elem _ 0 j _ record r Hj).
      cbn [Nat.add]. rewrite Hr. now apply list_elem_of_singleton.
  - intros s Hreach Hopen.
    destruct (open_stream_moves s (Hsem s Hreach)
                (proj1 (reachable_results_invariant s Hreach)) Hopen)
      as (a & s' & Hstep).
    exists a, s'. now apply fire_step.
  - intros s Hreach.
    apply (run_completes (remaining provider_list s) s (Hsem s Hreach)
             (reachable_results_invariant s Hreach)). lia.
  - intros s schedule s' Hreach Hrun.
    pose proof (run_bounded schedule s s' (reachable_results_invariant s Hreach) Hrun).
    lia.
Qed.

End Stream.

Lemma failing_record_does_not_stop_batch_witness :
  worker_body (H := echo_host) VNone 0 2 [] = (Raise (AttributeError VNone "get"), [])
  /\ exists schedule s,
       run (H := echo_host) mixed_batch schedule (stream_start mixed_batch) = Some s
       /\ at_phase s = Closed
       /\ results_yielded s ≡ₚ expected_results (H := echo_host) mixed_batch
       /\ length (results_yielded s) = length mixed_batch.
Proof.
  split; [reflexivity |].
  pose proof (failing_record_does_not_stop_batch (H := echo_host) mixed_batch)
    as (_ & Hclosed & _ & Hcompletes & _).
  destruct (Hcompletes (stream_start mixed_batch) (ex_intro _ [] eq_refl))
    as (schedule & s & Hrun & Hphase).
  exists schedule, s. split; [exact Hrun |]. split; [exact Hphase |].
  destruct (Hclosed s (ex_intro _ schedule Hrun) Hphase) as (Hperm & Hlen & _).
  split; assumption.
Defined.

Lemma workers_bounded_by_semaphore_witness :
  run (H := echo_host) six_records five_acquired (stream_start six_records)
  = Some (five_running (H := echo_host))
  /\ running_workers (five_running (H := echo_host)) = 5%nat
  /\ fire (H := echo_host) six_records (Acquire 5) (five_running (H := echo_host)) = None
  /\ (running_workers (five_running (H := echo_host)) <= MAX_CONCURRENT_WORKERS)%nat.
Proof.
  assert (run (H := echo_host) six_records five_acquired (stream_start six_records)
          = Some (five_running (H := echo_host))) as Hrun by reflexivity.
  split; [exact Hrun |]. split; [reflexivity |]. split; [reflexivity |].
  exact (proj1 (workers_bounded_by_semaphore (H := echo_host) six_records _
                  (ex_intro _ five_acquired Hrun))).
Defined.

Lemma verification_status_determined_witness :
  exists r,
    format_result_for_frontend (H := echo_host) verified_state jane_doe = Ok r
    /\ verification_status_spec verified_state r
    /\ exists d vs,
         r = VDict d
         /\ d !! "verification_status" = Some (VDict vs)
         /\ vs !! "nppes_verified" = Some (VBool true)
         /\ vs !! "oig_clear" = Some (VBool true)
         /\ vs !! "license_active" = Some (VBool true)
         /\ vs !! "address_validated" = Some (VBool true)
         /\ vs !! "digital_footprint_score" = Some (VFloat 0.6).
Proof.
  unfold verified_state.
  set (npi := dict_literal [ ("result_count", VInt 1) ]).
  set (oig := dict_literal [ ("is_excluded", VBool false) ]).
  set (board := dict_literal [ ("status", VStr "Active") ]).
  set (addr := dict_literal [ ("is_medical_facility", VBool true) ]).
  set (fr := dict_literal _).
  assert (Hqm : dict_get fr "quality_metrics" (VDict ∅) = VDict ∅)
    by (unfold dict_get, fr; now lookup_literal).
  assert (Hnpi : dict_get fr "npi_result" (VDict ∅) = VDict npi)
    by (unfold dict_get, fr; now lookup_literal).
  assert (Hoig : dict_get fr "oig_leie_result" (VDict ∅) = VDict oig)
    by (unfold dict_get, fr; now lookup_literal).
  assert (Hboard : dict_get fr "state_board_result" (VDict ∅) = VDict board)
    by (unfold dict_get, fr; now lookup_literal).
  assert (Haddr : dict_get fr "address_result" (VDict ∅) = VDict addr)
    by (unfold dict_get, fr; now lookup_literal).
  destruct (format_result_returns (H := echo_host) fr ∅ npi oig board addr jane_doe
              "UNKNOWN" Hqm (or_intror (or_introl eq_refl)) eq_refl
              Hnpi Hoig Hboard Haddr) as (dp & emoji & Hf).
  eexists. split; [exact Hf |].
  split; [exact (verification_status_determined (H := echo_host) _ _ _ Hf) |].
  unfold frontend_result, verification_status.
  do 2 eexists. split; [reflexivity |].
  split; [now lookup_literal |].
  repeat split; unfold dict_get, fr, npi, oig, board, addr; now lookup_literal.
Defined.

Lemma normalize_provider_data_defaults_witness :
  normalize_provider_data ∅ !! "address" = Some (VStr "")
  /\ normalize_provider_data ∅ !! "full_name" = Some (VStr "")
  /\ normalize_provider_data ∅ !! "last_updated" = Some (VStr "2024-01-01").
Proof.
  destruct (normalize_provider_data_defaults ∅) as (_ & Hplain & Hvariant & _ & Hlast).
  split; [| split].
  - apply (Hplain "address"); [unfold plain_fields; set_solver | reflexivity].
  - apply (Hvariant "full_name" "fullName");
      [unfold variant_fields; set_solver | reflexivity | reflexivity].
  - apply Hlast; reflexivity.
Defined.

Lemma frontend_result_shape_witness :
  exists r d,
    format_result_for_frontend (H := echo_host) (VDict ∅) jane_doe = Ok r
    /\ r = VDict d
    /\ dom d = list_to_set frontend_keys
    /\ d !! "path" = Some (VStr "UNKNOWN")
    /\ d !! "confidence_score" = Some (VInt 0).
Proof.
  destruct (frontend_result_shape (H := echo_host) (VDict ∅) jane_doe)
    as (Hshape & _ & _ & _ & Hreturns).
  destruct (Hreturns ∅ ∅ ∅ ∅ ∅ ∅ "UNKNOWN" eq_refl eq_refl
              (or_intror (or_introl eq_refl)) eq_refl eq_refl eq_refl eq_refl eq_refl)
    as (r & Hf).
  destruct (Hshape r Hf)
    as (fr & qm & d & qmo & Hfr & Hqm & Hr & Hdom & _ & _ & _ & _ & _ & _ & Hscore & Hpath).
  injection Hfr as <-. injection Hqm as <-.
  exists r, d. repeat split; assumption.
Defined.

Lemma dimension_weights_sum_to_100_witness :
  exists table,
    dimensions (H := echo_host) (VDict ∅) = Ok table
    /\ map weight_of table = [35; 20; 15; 15; 10; 5]%Z
    /\ total_weight table = 100%Z.
Proof.
  destruct (dimension_weights_sum_to_100 (H := echo_host))
    as (_ & _ & _ & _ & Hweights & (table & Htable) & _).
  exists table. split; [exact Htable |]. exact (Hweights _ _ Htable).
Defined.

(** ** What the response of /validate-file is made of *)

Section Delivery.

Context `{Host}.

Variable provider_list : list value.

Lemma results_put_events_from (total_records i : nat) (providers : list value) :
  length (results_put (events_from total_records i providers)) = length providers.
Proof.
  revert i. induction providers as [| p0 providers IH]; intros i; [reflexivity |].
  cbn [events_from]. rewrite results_put_app, length_app, IH.
  destruct (worker_events_one_result p0 i total_records) as (_ & r & _ & -> & _).
  reflexivity.
Qed.

Lemma gather_unsent_start (providers : list value) (i : nat) :
  gather (unsent provider_list) i providers (replicate (length providers) Waiting)
  = events_from (length provider_list) i providers.
Proof.
  revert i. induction providers as [| p0 providers IH]; intros i; [reflexivity |].
  simpl. now rewrite IH.
Qed.

#[local] Instance results_put_Permutation :
  Proper (Permutation ==> Permutation) results_put.
Proof. intros q1 q2 Hq. unfold results_put. now rewrite Hq. Qed.

(** The results are shared out between what was received, the queue and
    what is still to be put. *)
Lemma results_shared_out (received queue rest : list event) :
  received ++ queue ++ rest ≡ₚ expected_events provider_list ->
  (length (results_put received) + length (results_put queue)
   + length (results_put rest) = length provider_list)%nat.
Proof.
  intros Hperm. apply (omap_Permutation
    (fun e => match e with Result data => Some data | Log _ => None end)) in Hperm.
  apply Permutation_length in Hperm. fold (results_put (received ++ queue ++ rest)) in Hperm.
  fold (results_put (expected_events provider_list)) in Hperm.
  rewrite !results_put_app, !length_app in Hperm.
  unfold expected_events in Hperm. rewrite results_put_events_from in Hperm. lia.
Qed.

Lemma last_result_counts (q : list event) (r : value) :
  last q = Some (Result r) -> (0 < length (results_put q))%nat.
Proof.
  intros Hlast. apply last_Some in Hlast as (q' & ->).
  rewrite results_put_app, length_app. simpl. lia.
Qed.

Lemma ends_with_result_tail (e : event) (todo : list event) :
  ends_with_result (e :: todo) -> ends_with_result todo.
Proof.
  intros [[=] | (r & Hlast)]. destruct todo as [| e' todo]; [now left |].
  right. exists r. now rewrite last_cons_cons in Hlast.
Qed.

Lemma log_before_result (content : string) (todo : list event) :
  ends_with_result (Log content :: todo) -> (0 < length (results_put todo))%nat.
Proof.
  intros [[=] | (r & Hlast)]. destruct todo as [| e' todo]; [discriminate |].
  rewrite last_cons_cons in Hlast. now apply (last_result_counts _ r).
Qed.

Lemma worker_events_end_with_result (record : value) (index total_records : nat) :
  ends_with_result (worker_events record index total_records).
Proof.
  destruct (worker_events_one_result record index total_records)
    as (logs & r & -> & _).
  right. exists r. apply last_snoc.
Qed.

Lemma delivery_invariant_start :
  delivery_invariant provider_list (stream_start provider_list).
Proof.
  unfold delivery_invariant.
  destruct provider_list as [| p0 providers] eqn:Hlist; [left; now split |].
  right. split; [discriminate |]. rewrite <- Hlist.
  assert (stream_start provider_list
          = Stream MAX_CONCURRENT_WORKERS (replicate (length provider_list) Waiting) []
              [opening_line provider_list] 0 MainLoop) as ->
    by (rewrite Hlist; reflexivity).
  cbn [tasks result_queue yielded at_phase completed app].
  split; [apply length_replicate |]. exists []. cbn [app map results_put omap list_omap length].
  split; [now rewrite gather_unsent_start |].
  split; [reflexivity |]. split; [discriminate |]. split; [reflexivity |].
  split; [intros Hne; now contradiction Hne |]. split.
  - intros i todo Hi. apply lookup_replicate in Hi as [[=] _].
  - intros Hne. now contradiction Hne.
Qed.

Lemma running_insert_ends (ts : list task) (i j : nat) (t : task) (todo : list event) :
  (forall k todo', ts !! k = Some (Running todo') -> ends_with_result todo') ->
  (forall todo', t = Running todo' -> ends_with_result todo') ->
  <[i := t]> ts !! j = Some (Running todo) ->
  ends_with_result todo.
Proof.
  intros Hends Ht Hj. destruct (decide (i = j)) as [<- | Hij].
  - destruct (decide (i < length ts)%nat) as [Hlt | Hge].
    + rewrite list_lookup_insert_eq in Hj by assumption. injection Hj as ->. now apply Ht.
    + rewrite list_insert_ge in Hj by lia. now apply (Hends i).
  - rewrite list_lookup_insert_ne in Hj by assumption. now apply (Hends j).
Qed.

Lemma delivery_invariant_step (a : action) (s s' : stream) :
  delivery_invariant provider_list s ->
  step provider_list a s s' ->
  delivery_invariant provider_list s'.
Proof.
  intros [[Hnil ->]
         | (Hne & Hlen & received & Hperm & Hopen & Hclosed & Hcount & Hall & Hends & Htail)]
    Hstep.
  { rewrite Hnil in Hstep. inversion Hstep; subst;
      cbn [stream_start length Nat.eqb tasks at_phase] in *; discriminate. }
  right. split; [exact Hne |].
  pose proof (results_shared_out _ _ _ Hperm) as Hshare.
  destruct Hstep as
    [ i provider n s Hi Hp Hsem | i e todo s Hi | i s Hi | e q s Hphase Hq Hlt
    | s Hphase Hq Hlt Hdone | s Hphase Hge | s Hphase Hdone | e q s Hphase Hq
    | s Hphase Hq ];
    cbn [tasks result_queue yielded at_phase completed] in *.
  - (* acquire *)
    destruct (gather_insert (unsent provider_list) provider_list (tasks s) 0 i provider
                Waiting Hp Hi) as (rest & Hrest & Hrest').
    cbn [Nat.add unsent] in Hrest.
    specialize (Hrest' (Running (worker_events provider i (length provider_list)))).
    cbn [Nat.add unsent] in Hrest'.
    split; [now rewrite length_insert |].
    exists received. split; [now rewrite Hrest', <- Hrest |].
    do 4 (split; [assumption |]). split.
    + intros j todo. apply running_insert_ends; [exact Hends |].
      intros todo' [= <-]. apply worker_events_end_with_result.
    + intros Hq. destruct (Htail Hq) as [Hlast | Hpos]; [now left | right].
      now rewrite Hrest', <- Hrest.
  - (* put *)
    destruct (lookup_provider provider_list s i _ Hlen Hi) as (provider & Hp).
    destruct (gather_insert (unsent provider_list) provider_list (tasks s) 0 i provider
                _ Hp Hi) as (rest & Hrest & Hrest').
    cbn [Nat.add unsent] in Hrest. specialize (Hrest' (Running todo)).
    cbn [Nat.add unsent] in Hrest'.
    split; [now rewrite length_insert |].
    exists received. split.
    { rewrite Hrest'. rewrite Hrest in Hperm. rewrite <- Hperm.
      rewrite <- !app_assoc. reflexivity. }
    do 4 (split; [assumption |]). split.
    + intros j todo'. apply running_insert_ends; [exact Hends |].
      intros todo'' [= <-]. apply (ends_with_result_tail e). now apply (Hends i).
    + intros _. destruct e as [content | data].
      * right. rewrite Hrest', results_put_app, length_app.
        pose proof (log_before_result content todo (Hends i _ Hi)). lia.
      * left. exists data. apply last_snoc.
  - (* release *)
    destruct (lookup_provider provider_list s i _ Hlen Hi) as (provider & Hp).
    destruct (gather_insert (unsent provider_list) provider_list (tasks s) 0 i provider
                _ Hp Hi) as (rest & Hrest & Hrest').
    cbn [Nat.add unsent] in Hrest. specialize (Hrest' Finished).
    cbn [Nat.add unsent] in Hrest'.
    split; [now rewrite length_insert |].
    exists received. split; [now rewrite Hrest', <- Hrest |].
    do 4 (split; [assumption |]). split.
    + intros j todo. apply running_insert_ends; [exact Hends | discriminate].
    + intros Hq. destruct (Htail Hq) as [Hlast | Hpos]; [now left | right].
      now rewrite Hrest', <- Hrest.
  - (* receive *)
    split; [assumption |]. exists (received ++ [e]). split.
    { rewrite Hq in Hperm. rewrite <- Hperm. rewrite <- !app_assoc. reflexivity. }
    split.
    { intros _. rewrite Hopen by (rewrite Hphase; discriminate).
      now rewrite map_app. }
    split; [discriminate |]. split.
    { intros _. rewrite results_put_app, length_app, (Hcount Hphase).
      destruct e; simpl; lia. }
    split; [intros Hph; now contradiction Hph |]. split; [assumption |].
    intros Hq'. rewrite Hq in Htail.
    destruct (Htail ltac:(discriminate)) as [(r & Hlast) | Hpos]; [left | now right].
    exists r. destruct q; [now contradiction Hq' | now rewrite last_cons_cons in Hlast].
  - (* timeout break *)
    split; [assumption |]. exists received. rewrite Hq in Hperm, Hshare.
    split; [exact Hperm |].
    split; [intros _; apply Hopen; rewrite Hphase; discriminate |].
    split; [discriminate |]. split; [discriminate |]. split.
    { intros _. rewrite (gather_done (unsent provider_list)) in Hshare
        by (reflexivity || assumption).
      simpl in Hshare. lia. }
    split; [assumption |]. intros Hq'. now contradiction Hq'.
  - (* loop exit *)
    split; [assumption |]. exists received. split; [exact Hperm |].
    split; [intros _; apply Hopen; rewrite Hphase; discriminate |].
    split; [discriminate |]. split; [discriminate |]. split.
    { intros _. specialize (Hcount Hphase). lia. }
    split; assumption.
  - (* gathered *)
    split; [assumption |]. exists received. split; [exact Hperm |].
    split; [intros _; apply Hopen; rewrite Hphase; discriminate |].
    split; [discriminate |]. split; [discriminate |]. split.
    { intros _. apply Hall. rewrite Hphase. discriminate. }
    split; assumption.
  - (* drain item *)
    assert (length (results_put received) = length provider_list) as Hfull
      by (apply Hall; rewrite Hphase; discriminate).
    rewrite Hq in Hshare. change (e :: q) with ([e] ++ q) in Hshare.
    rewrite results_put_app, length_app in Hshare.
    split; [assumption |]. exists (received ++ [e]). split.
    { rewrite Hq in Hperm. rewrite <- Hperm. rewrite <- !app_assoc. reflexivity. }
    split.
    { intros _. rewrite Hopen by (rewrite Hphase; discriminate).
      now rewrite map_app. }
    split; [discriminate |]. split; [discriminate |]. split.
    { intros _. rewrite results_put_app, length_app. lia. }
    split; [assumption |].
    intros Hq'. rewrite Hq in Htail.
    destruct (Htail ltac:(discriminate)) as [(r & Hlast) | Hpos]; [left | now right].
    exists r. destruct q; [now contradiction Hq' | now rewrite last_cons_cons in Hlast].
  - (* close *)
    split; [assumption |]. exists received. rewrite Hq in Hperm.
    split; [exact Hperm |].
    split; [intros Hph; now contradiction Hph |]. split.
    { intros _. rewrite Hopen by (rewrite Hphase; discriminate).
      reflexivity. }
    split; [discriminate |]. split.
    { intros _. apply Hall. rewrite Hphase. discriminate. }
    split; [assumption |]. intros Hq'. now contradiction Hq'.
Qed.

Lemma reachable_delivery_invariant (s : stream) :
  reachable provider_list s -> delivery_invariant provider_list s.
Proof.
  revert s. apply reachable_invariant.
  - apply delivery_invariant_start.
  - intros a s s' Hinv Hfire. apply fire_step in Hfire.
    eapply delivery_invariant_step; eassumption.
Qed.

Lemma results_of_yielded (received : list event) :
  omap (fun m => match m with SseResult data => Some data | _ => None end)
       (map sse_of received)
  = results_put received.
Proof.
  induction received as [| e received IH]; [reflexivity |].
  destruct e as [content | data]; [exact IH | exact (f_equal (cons data) IH)].
Qed.

Lemma results_yielded_open (s : stream) (received : list event) :
  yielded s = opening_line provider_list :: map sse_of received ->
  results_yielded s = results_put received.
Proof.
  intros Hy. unfold results_yielded. rewrite Hy. exact (results_of_yielded received).
Qed.

Lemma results_yielded_closed (s : stream) (received : list event) :
  yielded s
  = opening_line provider_list :: map sse_of received ++ closing_lines provider_list ->
  results_yielded s = results_put received.
Proof.
  intros Hy. unfold results_yielded. rewrite Hy.
  transitivity
    (omap (fun m => match m with SseResult data => Some data | _ => None end)
          (map sse_of received ++ closing_lines provider_list)); [reflexivity |].
  rewrite omap_app, results_of_yielded. exact (app_nil_r _).
Qed.

(** What the delivery invariant says of the counter, the queue and the
    results yielded so far. *)
Lemma delivery_facts (s : stream) :
  delivery_invariant provider_list s ->
  (at_phase s = MainLoop ->
     completed s = length (results_yielded s)
     /\ (completed s <= length provider_list)%nat
     /\ (result_queue s = [] -> forallb done (tasks s) = true ->
         completed s = length provider_list))
  /\ (at_phase s <> MainLoop ->
      result_queue s = [] /\ length (results_yielded s) = length provider_list).
Proof.
  intros [[Hnil ->]
         | (Hne & Hlen & received & Hperm & Hopen & Hclosed & Hcount & Hall & Hends & Htail)].
  { rewrite Hnil. split; [discriminate |]. intros _. split; reflexivity. }
  pose proof (results_shared_out _ _ _ Hperm) as Hshare.
  split.
  - intros Hphase.
    rewrite (results_yielded_open s received) by (apply Hopen; rewrite Hphase; discriminate).
    rewrite (Hcount Hphase). split; [reflexivity |]. split; [lia |].
    intros Hq Hdone. rewrite Hq in Hshare.
    rewrite (gather_done (unsent provider_list)) in Hshare by (reflexivity || assumption).
    simpl in Hshare. lia.
  - intros Hphase. specialize (Hall Hphase).
    assert (results_yielded s = results_put received) as ->.
    { destruct (at_phase s) eqn:Hph;
        [now contradiction Hphase
        | apply results_yielded_open, Hopen; discriminate
        | apply results_yielded_open, Hopen; discriminate
        | now apply results_yielded_closed, Hclosed ]. }
    split; [| exact Hall].
    destruct (result_queue s) as [| e q] eqn:Hq; [reflexivity |].
    destruct (Htail ltac:(discriminate)) as [(r & Hlast) | Hpos].
    + apply last_result_counts in Hlast. lia.
    + lia.
Qed.

(** X1: the main loop of the generator is left only through its condition.
    In every state a request can reach, under every schedule, the counter
    [completed] equals the number of results yielded and never exceeds the
    number of records; the break taken on a timeout with every task done is
    never enabled; and once the loop is left, every result has been yielded
    and the queue is empty, so the loop that drains the queue afterwards
    yields nothing. *)
Theorem main_loop_ends_when_complete (s : stream) :
  reachable provider_list s ->
  fire provider_list TimeoutBreak s = None
  /\ fire provider_list DrainItem s = None
  /\ (at_phase s = MainLoop ->
      completed s = length (results_yielded s)
      /\ (completed s <= length provider_list)%nat)
  /\ (at_phase s <> MainLoop ->
      result_queue s = [] /\ length (results_yielded s) = length provider_list).
Proof.
  intros Hreach.
  destruct (delivery_facts s (reachable_delivery_invariant s Hreach)) as (Hmain & Hleft).
  split; [| split; [| split]].
  - cbn [fire]. destruct (at_phase s) eqn:Hphase; try reflexivity.
    destruct (result_queue s) eqn:Hq; try reflexivity.
    destruct (Nat.ltb_spec (completed s) (length provider_list)); try reflexivity.
    destruct (forallb done (tasks s)) eqn:Hdone; try reflexivity.
    destruct (Hmain eq_refl) as (_ & _ & Hfull). specialize (Hfull eq_refl eq_refl). lia.
  - cbn [fire]. destruct (at_phase s) eqn:Hphase; try reflexivity.
    destruct (Hleft ltac:(discriminate)) as (-> & _). reflexivity.
  - intros Hphase. destruct (Hmain Hphase) as (Hc & Hle & _). now split.
  - exact Hleft.
Qed.


End Delivery.

(** ** The two validation endpoints side by side *)

Section Endpoints_agree.

Context `{Host}.

(** When the [try] block of the worker returns, and what it has put then. *)
Lemma worker_body_Ok (info : gmap string value) (index total_records : nat)
    (q q' : list event) :
  worker_body (VDict info) index total_records q = (Ok tt, q') ->
  exists final payload pd shown l1 l2,
    invoke (initial_state (normalize_provider_data info)) = Ok final
    /\ format_result_for_frontend final info = Ok payload
    /\ payload = VDict pd
    /\ format_percent1 (dict_get pd "confidence_score" (VInt 0)) = Ok shown
    /\ q' = q ++ [Log l1; Log l2; Result payload].
Proof.
  unfold worker_body, task_bind, lift, put. cbn [has_get].
  destruct (invoke (initial_state (normalize_provider_data info)))
    as [final | e] eqn:Hinv; [| discriminate].
  destruct (format_result_for_frontend final info) as [payload | e] eqn:Hfmt;
    [| discriminate].
  destruct (has_get payload) as [pd | e] eqn:Hpd; [| discriminate].
  apply has_get_Ok in Hpd as ->.
  destruct (format_percent1 (dict_get pd "confidence_score" (VInt 0)))
    as [shown | e] eqn:Hshown; [| discriminate].
  intros [= <-]. exists final, (VDict pd), pd, shown. do 2 eexists.
  repeat split; try reflexivity; try assumption. now rewrite <- !app_assoc.
Qed.

(** The [try] block of the worker returns when the agent and the formatter
    return and the score has a percent format. *)
Lemma worker_body_returns (info : gmap string value) (index total_records : nat)
    (q : list event) (final : value) (pd : gmap string value) (shown : string) :
  invoke (initial_state (normalize_provider_data info)) = Ok final ->
  format_result_for_frontend final info = Ok (VDict pd) ->
  format_percent1 (dict_get pd "confidence_score" (VInt 0)) = Ok shown ->
  exists l1 l2,
    worker_body (VDict info) index total_records q
    = (Ok tt, q ++ [Log l1; Log l2; Result (VDict pd)]).
Proof.
  intros Hinv Hfmt Hshown. unfold worker_body, task_bind, lift, put. cbn [has_get].
  rewrite Hinv, Hfmt. cbn [has_get]. rewrite Hshown. do 2 eexists.
  now rewrite <- !app_assoc.
Qed.

(** When the [try] block of the worker raises after the formatter has
    returned: the score has no percent format. *)
Lemma worker_body_bad_score (info : gmap string value) (index total_records : nat)
    (q : list event) (final : value) (pd : gmap string value) (e : exn) :
  invoke (initial_state (normalize_provider_data info)) = Ok final ->
  format_result_for_frontend final info = Ok (VDict pd) ->
  format_percent1 (dict_get pd "confidence_score" (VInt 0)) = Raise e ->
  exists l1,
    worker_body (VDict info) index total_records q = (Raise e, q ++ [Log l1]).
Proof.
  intros Hinv Hfmt Hshown. unfold worker_body, task_bind, lift, put. cbn [has_get].
  rewrite Hinv, Hfmt. cbn [has_get]. rewrite Hshown. eexists. reflexivity.
Qed.

Lemma validate_single_body_Ok (info : gmap string value) (resp : value) :
  validate_single_body info = Ok resp <->
  exists final payload,
    invoke (initial_state (normalize_provider_data info)) = Ok final
    /\ format_result_for_frontend final info = Ok payload
    /\ resp = VDict (dict_literal [ ("status", VStr "success"); ("data", payload) ]).
Proof.
  unfold validate_single_body. cbv zeta. split.
  - intros Hb. apply bind_Ok in Hb as (final & Hinv & Hb).
    apply bind_Ok in Hb as (payload & Hfmt & Hb). injection Hb as <-. eauto.
  - intros (final & payload & -> & Hfmt & ->). cbn [Py.bind]. rewrite Hfmt. reflexivity.
Qed.

Lemma success_data (payload payload' : value) :
  VDict (dict_literal [ ("status", VStr "success"); ("data", payload) ])
  = VDict (dict_literal [ ("status", VStr "success"); ("data", payload') ]) ->
  payload = payload'.
Proof.
  intros Heq.
  apply (f_equal (fun v => match v with VDict d => d !! "data" | _ => None end)) in Heq.
  revert Heq. lookup_literal. now intros [= ->].
Qed.

(** X3: every result carries the record as it was sent, not its normalised
    form: in the result the batch worker puts, for a record that is
    processed or one whose processing raises, [original_data] is the record;
    in the response of /validate-single, the [original_data] of ["data"] is
    the request body. *)
Theorem result_echoes_record :
  (forall (record : value) (index total_records : nat) (q : list event),
     exists logs d,
       worker record index total_records q
       = (Ok tt, q ++ map Log logs ++ [Result (VDict d)])
       /\ d !! "original_data" = Some record)
  /\ (forall provider_data : gmap string value,
       exists resp d,
         validate_single_provider provider_data = Ok (VDict resp)
         /\ resp !! "data" = Some (VDict d)
         /\ d !! "original_data" = Some (VDict provider_data)).
Proof.
  assert (Hfmt : forall final info r,
             format_result_for_frontend final info = Ok r ->
             exists d, r = VDict d /\ d !! "original_data" = Some (VDict info)).
  { intros final info r Hf.
    apply format_result_Ok in Hf
      as (fr & qm & dp & emoji & npi & oig & board & addr
          & _ & _ & _ & _ & _ & _ & _ & _ & ->).
    destruct (frontend_result_lookup fr qm info (chosen_breakdown qm) dp
                (dict_get qm "confidence_tier" (VStr "UNKNOWN")) emoji npi oig board addr)
      as (d & qmo & Hd & _ & Horig & _).
    now exists d. }
  split.
  - intros record index total_records q.
    destruct (worker_puts_one_result record index total_records q)
      as (logs & r & Hw & [(info & final & -> & _ & Hf) | (e & q' & _ & ->)]).
    + destruct (Hfmt _ _ _ Hf) as (d & -> & Horig). now exists logs, d.
    + destruct (worker_error_result_lookup record e) as (d & Hd & _ & Horig & _).
      exists logs, d. now rewrite <- Hd.
  - intros provider_data. unfold validate_single_provider.
    destruct (validate_single_body provider_data) as [resp | e] eqn:Hbody;
      cbn [try_except].
    + apply validate_single_body_Ok in Hbody as (final & payload & _ & Hf & ->).
      destruct (Hfmt _ _ _ Hf) as (d & -> & Horig).
      eexists. exists d. split; [reflexivity |]. split; [now lookup_literal | exact Horig].
    + destruct (single_error_data_lookup provider_data e) as (d & Hd & _ & Horig & _).
      eexists. exists d. split; [reflexivity |].
      split; [rewrite <- Hd; now lookup_literal | exact Horig].
Qed.

(** X4: the two endpoints on the same record and agent. Whenever the batch
    worker puts a formatted result for a record, /validate-single answers
    with status ["success"] and the same result as ["data"]. Conversely, when
    /validate-single succeeds with a result, the batch worker puts the same
    result if its [confidence_score] has a percent format (it is a number),
    and otherwise puts the error result for the exception of the format: a
    record /validate-single accepts can come out of a batch as an error. *)
Theorem endpoints_agree
    (info : gmap string value) (index total_records : nat) (q : list event) :
  (forall q',
     worker_body (VDict info) index total_records q = (Ok tt, q') ->
     exists payload l1 l2,
       q' = q ++ [Log l1; Log l2; Result payload]
       /\ validate_single_provider info
          = Ok (VDict (dict_literal [ ("status", VStr "success"); ("data", payload) ])))
  /\ (forall payload,
       validate_single_body info
       = Ok (VDict (dict_literal [ ("status", VStr "success"); ("data", payload) ])) ->
       exists pd,
         payload = VDict pd
         /\ match format_percent1 (dict_get pd "confidence_score" (VInt 0)) with
            | Ok _ =>
                exists l1 l2,
                  worker (VDict info) index total_records q
                  = (Ok tt, q ++ [Log l1; Log l2; Result payload])
            | Raise e =>
                exists l1 l2,
                  worker (VDict info) index total_records q
                  = (Ok tt, q ++ [Log l1; Log l2;
                                  Result (worker_error_result (VDict info) e)])
            end).
Proof.
  split.
  - intros q' Hbody.
    apply worker_body_Ok in Hbody
      as (final & payload & pd & shown & l1 & l2 & Hinv & Hf & -> & _ & ->).
    exists (VDict pd), l1, l2. split; [reflexivity |].
    unfold validate_single_provider.
    rewrite (proj2 (validate_single_body_Ok info
                      (VDict (dict_literal [ ("status", VStr "success");
                                             ("data", VDict pd) ]))));
      [reflexivity | eauto].
  - intros payload Hbody.
    apply validate_single_body_Ok in Hbody as (final & payload' & Hinv & Hf & Heq).
    apply success_data in Heq as ->.
    destruct (format_result_has_error_keys _ _ _ Hf) as (pd & -> & _).
    exists pd. split; [reflexivity |].
    destruct (format_percent1 (dict_get pd "confidence_score" (VInt 0)))
      as [shown | e] eqn:Hshown.
    + destruct (worker_body_returns info index total_records q final pd shown
                  Hinv Hf Hshown) as (l1 & l2 & Hret).
      exists l1, l2. now apply worker_of_return.
    + destruct (worker_body_bad_score info index total_records q final pd e Hinv Hf Hshown)
        as (l1 & Hraise).
      do 2 eexists. rewrite (worker_of_raise _ _ _ _ _ _ Hraise).
      rewrite <- app_assoc. reflexivity.
Qed.

End Endpoints_agree.

(** ** What the formatter keeps of the agent's result *)

Section Formatter.

Context `{Host}.

(** A dictionary display over [base]: a key of the display holds the
    display's value, any other key holds the value of [base]. *)
Lemma dict_update_lookup (base : gmap string value) (items : list (string * value))
    (k : string) (v : value) :
  NoDup items.*1 ->
  dict_update base items !! k = Some v
  <-> ((k, v) ∈ items \/ ((k ∉ items.*1) /\ base !! k = Some v)).
Proof.
  revert base. induction items as [| [k' v'] items IH]; intros base Hnd.
  - unfold dict_update. cbn [fold_left fmap list_fmap]. split.
    + intros Hb. right. split; [apply not_elem_of_nil | exact Hb].
    + intros [Hin | [_ Hb]]; [now apply elem_of_nil in Hin | exact Hb].
  - cbn [fmap list_fmap fst] in Hnd. apply NoDup_cons in Hnd as [Hk' Hnd].
    change (dict_update base ((k', v') :: items))
      with (dict_update (<[k' := v']> base) items).
    rewrite (IH _ Hnd). cbn [fmap list_fmap fst].
    rewrite elem_of_cons, not_elem_of_cons, lookup_insert_Some. split.
    + intros [Hin | (Hnin & [[<- <-] | [Hne Hb]])]; auto.
    + intros [[[= -> ->] | Hin] | ((Hne & Hnin) & Hb)].
      * right. split; [exact Hk' | now left].
      * now left.
      * right. split; [exact Hnin |]. right. split; [congruence | exact Hb].
Qed.

Lemma dict_update_dom (base : gmap string value) (items : list (string * value)) :
  dom (dict_update base items) = dom base ∪ list_to_set items.*1.
Proof.
  revert base. induction items as [| [k' v'] items IH]; intros base.
  - unfold dict_update. cbn. set_solver.
  - change (dict_update base ((k', v') :: items))
      with (dict_update (<[k' := v']> base) items).
    rewrite IH, dom_insert_L. cbn [fmap list_fmap fst list_to_set]. set_solver.
Qed.

Lemma mapM_of_Forall2 {A B : Type} (f : A -> result B) (l : list A) (bs : list B) :
  Forall2 (fun a b => f a = Ok b) l bs -> mapM f l = Ok bs.
Proof.
  induction 1 as [| a b l bs Hb _ IH]; cbn [mapM]; [reflexivity |].
  rewrite Hb. cbn [Py.bind]. rewrite IH. reflexivity.
Qed.

Lemma percentage_shape (v p : value) :
  percentage v = Ok p -> exists n, p = VStr (str_int n +:+ "%").
Proof.
  unfold percentage. intros Hp.
  apply bind_Ok in Hp as (x & _ & Hp). apply bind_Ok in Hp as (n & _ & [= <-]).
  now exists n.
Qed.

(** The comprehension [{k: f"{int(v * 100)}%" for k, v in d.items()}]. *)
Lemma comprehension_lookup (sb : gmap string value)
    (entries : list (string * value)) :
  mapM (fun kv => let! p := percentage kv.2 in Ok (kv.1, p)) (map_to_list sb)
  = Ok entries ->
  forall k p,
    dict_literal entries !! k = Some p
    <-> exists v, sb !! k = Some v /\ percentage v = Ok p.
Proof.
  intros Hm. apply mapM_Forall2 in Hm.
  assert (Hrel : Forall2 (fun kv kp => kp.1 = kv.1 /\ percentage kv.2 = Ok kp.2)
                   (map_to_list sb) entries).
  { eapply Forall2_impl; [exact Hm |]. intros [k v] [k' p] Hkv. cbn [fst snd] in *.
    apply bind_Ok in Hkv as (p' & Hp & [= <- <-]). now split. }
  assert (Hkeys : entries.*1 = (map_to_list sb).*1).
  { clear Hm. induction Hrel as [| kv kp l l' [Hk _] _ IH]; [reflexivity |].
    cbn [fmap list_fmap]. now rewrite Hk, IH. }
  assert (Hnd : NoDup entries.*1).
  { rewrite Hkeys. apply NoDup_fst_map_to_list. }
  intros k p. unfold dict_literal. rewrite (dict_update_lookup _ _ _ _ Hnd).
  rewrite lookup_empty. split.
  - intros [Hin | [_ [=]]].
    apply list_elem_of_lookup in Hin as (i & Hi).
    destruct (Forall2_lookup_r _ _ _ _ _ Hrel Hi) as ([k' v] & Hv & Hk & Hp).
    cbn [fst snd] in *. subst k'. exists v. split; [| exact Hp].
    apply elem_of_map_to_list. eapply list_elem_of_lookup_2. exact Hv.
  - intros (v & Hv & Hp). left.
    apply elem_of_map_to_list, list_elem_of_lookup in Hv as (i & Hi).
    destruct (Forall2_lookup_l _ _ _ _ _ Hrel Hi) as ([k' p'] & Hp' & Hk & Hpp).
    cbn [fst snd] in *. subst k'. rewrite Hp in Hpp. injection Hpp as <-.
    eapply list_elem_of_lookup_2. exact Hp'.
Qed.

(** X5: the percentages the formatter computes when the agent gave none.
    Whenever the computation returns, the table holds one entry for each
    dimension of the score breakdown other than [risk], under the same name,
    and one entry [risk_penalty], which is the percentage of [risk] when the
    breakdown has one and ["0%"] otherwise; there is no entry [risk] (a
    dimension of the breakdown named [risk_penalty] is overwritten). Every
    entry is an integer followed by a percent sign. *)
Theorem percentage_table_of_breakdown (sb : gmap string value) (r : value) :
  percentages_of (VDict sb) = Ok r ->
  exists dp,
    r = VDict dp
    /\ dom dp = (dom sb ∖ {["risk"]}) ∪ {["risk_penalty"]}
    /\ (forall k p, k <> "risk" -> k <> "risk_penalty" ->
          (dp !! k = Some p <-> exists v, sb !! k = Some v /\ percentage v = Ok p))
    /\ (forall v, sb !! "risk" = Some v ->
          exists p, percentage v = Ok p /\ dp !! "risk_penalty" = Some p)
    /\ (sb !! "risk" = None -> dp !! "risk_penalty" = Some (VStr "0%"))
    /\ (forall k p, dp !! k = Some p -> exists n, p = VStr (str_int n +:+ "%")).
Proof.
  unfold percentages_of. cbn [has_items Py.bind]. intros Hp.
  apply bind_Ok in Hp as (entries & Hm & [= <-]).
  pose proof (comprehension_lookup sb entries Hm) as Hlook.
  set (dp0 := dict_literal entries) in *.
  assert (Hdom0 : dom dp0 = dom sb).
  { apply set_eq. intros k. rewrite !elem_of_dom. split.
    - intros (p & Hk). apply Hlook in Hk as (v & Hv & _). now exists v.
    - intros (v & Hv).
      assert (Hall : Forall2 (fun kv kp =>
                        (let! p := percentage kv.2 in Ok (kv.1, p)) = Ok kp)
                       (map_to_list sb) entries) by now apply mapM_Forall2.
      apply elem_of_map_to_list, list_elem_of_lookup in Hv as (i & Hi).
      destruct (Forall2_lookup_l _ _ _ _ _ Hall Hi) as ([k' p] & _ & Hkp).
      cbn [fst snd] in Hkp. apply bind_Ok in Hkp as (p' & Hp' & [= <- <-]).
      exists p'. apply Hlook. exists v. split; [| exact Hp'].
      apply elem_of_map_to_list. eapply list_elem_of_lookup_2. exact Hi. }
  eexists. split; [reflexivity |]. split; [| split; [| split; [| split]]].
  - rewrite dom_insert_L, dom_delete_L, Hdom0. set_solver.
  - intros k p Hk1 Hk2.
    rewrite lookup_insert_ne by congruence. rewrite lookup_delete_ne by congruence.
    apply Hlook.
  - intros v Hv. rewrite lookup_insert_eq. unfold dict_get.
    destruct (dp0 !! "risk") as [p |] eqn:Hrisk.
    + apply Hlook in Hrisk as (v' & Hv' & Hp'). rewrite Hv in Hv'.
      injection Hv' as <-. now exists p.
    + exfalso. apply not_elem_of_dom in Hrisk. apply Hrisk. rewrite Hdom0.
      apply elem_of_dom. now exists v.
  - intros Hnone. rewrite lookup_insert_eq. unfold dict_get.
    destruct (dp0 !! "risk") as [p |] eqn:Hrisk; [| reflexivity].
    apply Hlook in Hrisk as (v' & Hv' & _). congruence.
  - intros k p. destruct (decide (k = "risk_penalty")) as [-> | Hne].
    + rewrite lookup_insert_eq. intros [= <-]. unfold dict_get.
      destruct (dp0 !! "risk") as [p |] eqn:Hrisk.
      * apply Hlook in Hrisk as (v & _ & Hp'). eapply percentage_shape, Hp'.
      * now exists 0%Z.
    + rewrite lookup_insert_ne by congruence. intros Hk.
      apply lookup_delete_Some in Hk as [_ Hk].
      apply Hlook in Hk as (v & _ & Hp'). eapply percentage_shape, Hp'.
Qed.

(** The two entries of a formatted result that the next two properties are
    about. *)
Lemma frontend_result_entries
    (fr qm provider_info : gmap string value) (sb dp tier emoji : value)
    (npi oig board addr : gmap string value) :
  exists d,
    frontend_result fr qm provider_info sb dp tier emoji npi oig board addr = VDict d
    /\ d !! "final_profile"
       = Some (py_or (dict_get fr "final_profile" VNone)
                 (py_or (dict_get fr "golden_record" VNone)
                    (VDict (dict_literal
                       [ ("provider_name",
                           dict_get provider_info "full_name" (VStr "Unknown Provider"));
                         ("npi", dict_get provider_info "NPI" (VStr "N/A"));
                         ("specialty", dict_get provider_info "specialty" (VStr "N/A")) ]))))
    /\ d !! "quality_metrics"
       = Some (VDict (dict_update qm
            [ ("score_breakdown", sb);
              ("dimension_percentages", dp);
              ("confidence_tier", tier);
              ("tier_emoji", emoji);
              ("tier_description", dict_get qm "tier_description" (VStr ""));
              ("flag_severity", dict_get qm "flag_severity" (VDict ∅));
              ("risk_score", dict_get qm "risk_score" (VInt 0));
              ("fraud_indicator_count", dict_get qm "fraud_indicator_count" (VInt 0));
              ("conflict_count", dict_get qm "conflict_count" (VInt 0)) ])).
Proof.
  eexists. split; [reflexivity |]. split; now lookup_literal.
Qed.

Lemma VDict_inj (d d' : gmap string value) : VDict d = VDict d' -> d = d'.
Proof.
  intros Heq.
  exact (f_equal (fun v => match v with VDict x => x | _ => d end) Heq).
Qed.

(** X6: the formatter never changes a metric the agent supplied, except
    [tier_emoji] and an empty (falsy) [score_breakdown] or
    [dimension_percentages]. Whenever it returns, the [quality_metrics] of
    the result holds every entry of the agent's [quality_metrics] under the
    same key with the same value, apart from those three; its keys are the
    agent's together with the nine the formatter always sets. *)
Theorem agent_metrics_pass_through
    (fr qm provider_info d : gmap string value) :
  format_result_for_frontend (VDict fr) provider_info = Ok (VDict d) ->
  dict_get fr "quality_metrics" (VDict ∅) = VDict qm ->
  exists qmo,
    d !! "quality_metrics" = Some (VDict qmo)
    /\ dom qmo
       = dom qm ∪ list_to_set
           [ "score_breakdown"; "dimension_percentages"; "confidence_tier";
             "tier_emoji"; "tier_description"; "flag_severity"; "risk_score";
             "fraud_indicator_count"; "conflict_count" ]
    /\ (forall k v,
          qm !! k = Some v ->
          k <> "tier_emoji" ->
          (k = "score_breakdown" \/ k = "dimension_percentages" -> truthy v = true) ->
          qmo !! k = Some v).
Proof.
  intros Hf Hqm.
  apply format_result_Ok in Hf
    as (fr' & qm' & dp & emoji & npi & oig & board & addr
        & Hfr & Hqm' & Hdp & _ & _ & _ & _ & _ & Hr).
  apply VDict_inj in Hfr as <-. rewrite Hqm in Hqm'. apply VDict_inj in Hqm' as <-.
  destruct (frontend_result_entries fr qm provider_info (chosen_breakdown qm) dp
              (dict_get qm "confidence_tier" (VStr "UNKNOWN")) emoji npi oig board addr)
    as (d' & Hd' & _ & Hmetrics).
  rewrite <- Hr in Hd'. apply VDict_inj in Hd' as <-.
  eexists. split; [exact Hmetrics |]. split; [apply dict_update_dom |].
  intros k v Hk Hemoji Htruthy.
  assert (Hget : forall default, dict_get qm k default = v).
  { intros default. unfold dict_get. now rewrite Hk. }
  apply dict_update_lookup.
  { cbn [fmap list_fmap fst].
    repeat (apply NoDup_cons; split;
            [rewrite ?elem_of_cons, elem_of_nil; intuition discriminate |]).
    apply NoDup_nil_2. }
  destruct (decide (k ∈ [ "score_breakdown"; "dimension_percentages";
                          "confidence_tier"; "tier_emoji"; "tier_description";
                          "flag_severity"; "risk_score"; "fraud_indicator_count";
                          "conflict_count" ])) as [Hin | Hnin];
    [left | right; split; [exact Hnin | exact Hk]].
  rewrite !elem_of_cons, elem_of_nil in Hin. rewrite !elem_of_cons.
  destruct Hin as [-> | [-> | [-> | [-> | [-> | [-> | [-> | [-> | [-> | []]]]]]]]]].
  - left. f_equal. unfold chosen_breakdown. rewrite Hget.
    rewrite Htruthy by now left. reflexivity.
  - right; left. f_equal. unfold chosen_percentages in Hdp. rewrite !Hget in Hdp.
    rewrite Htruthy in Hdp by now right. now injection Hdp as <-.
  - do 2 right; left. now rewrite Hget.
  - congruence.
  - do 4 right; left. now rewrite Hget.
  - do 5 right; left. now rewrite Hget.
  - do 6 right; left. now rewrite Hget.
  - do 7 right; left. now rewrite Hget.
  - do 8 right; left. now rewrite Hget.
Qed.

(** X7: the [final_profile] of a formatted result is never empty (falsy).
    It is the agent's [final_profile] when that is truthy, else the agent's
    [golden_record] when that is truthy, else a profile of exactly three
    fields read from the record as it was sent, under the names [full_name],
    [NPI] and [specialty] only, with the defaults ["Unknown Provider"],
    ["N/A"] and ["N/A"]. *)
Theorem final_profile_never_empty
    (fr provider_info d : gmap string value) :
  format_result_for_frontend (VDict fr) provider_info = Ok (VDict d) ->
  exists fp,
    d !! "final_profile" = Some fp
    /\ truthy fp = true
    /\ (truthy (dict_get fr "final_profile" VNone) = true ->
        fp = dict_get fr "final_profile" VNone)
    /\ (truthy (dict_get fr "final_profile" VNone) = false ->
        truthy (dict_get fr "golden_record" VNone) = true ->
        fp = dict_get fr "golden_record" VNone)
    /\ (truthy (dict_get fr "final_profile" VNone) = false ->
        truthy (dict_get fr "golden_record" VNone) = false ->
        exists p,
          fp = VDict p
          /\ dom p = list_to_set [ "provider_name"; "npi"; "specialty" ]
          /\ p !! "provider_name"
             = Some (dict_get provider_info "full_name" (VStr "Unknown Provider"))
          /\ p !! "npi" = Some (dict_get provider_info "NPI" (VStr "N/A"))
          /\ p !! "specialty" = Some (dict_get provider_info "specialty" (VStr "N/A"))).
Proof.
  intros Hf.
  apply format_result_Ok in Hf
    as (fr' & qm & dp & emoji & npi & oig & board & addr
        & Hfr & _ & _ & _ & _ & _ & _ & _ & Hr).
  apply VDict_inj in Hfr as <-.
  destruct (frontend_result_entries fr qm provider_info (chosen_breakdown qm) dp
              (dict_get qm "confidence_tier" (VStr "UNKNOWN")) emoji npi oig board addr)
    as (d' & Hd' & Hprofile & _).
  rewrite <- Hr in Hd'. apply VDict_inj in Hd' as <-.
  eexists. split; [exact Hprofile |]. unfold py_or.
  destruct (truthy (dict_get fr "final_profile" VNone)) eqn:Hfp.
  { split; [exact Hfp |]. repeat split; intros; congruence. }
  destruct (truthy (dict_get fr "golden_record" VNone)) eqn:Hgr.
  { split; [exact Hgr |]. repeat split; intros; congruence. }
  split.
  { cbn [truthy]. apply negb_true_iff, bool_decide_eq_false.
    rewrite map_size_empty_iff. unfold dict_literal, dict_update.
    cbn [fold_left fst snd]. apply insert_non_empty. }
  split; [discriminate |]. split; [discriminate |]. intros _ _.
  eexists. split; [reflexivity |]. split.
  - unfold dict_literal, dict_update. cbn [fold_left fst snd].
    rewrite !dom_insert_L, dom_empty_L. set_solver.
  - repeat split; now lookup_literal.
Qed.

End Formatter.

(** ** ConnectionManager *)

Section ConnectionManager_facts.

Import ConnectionManager.

Lemma remove_first (x : websocket) (l1 l2 : list websocket) :
  x ∉ l1 -> remove x (l1 ++ x :: l2) = Ok (l1 ++ l2).
Proof.
  induction l1 as [| y l1 IH]; intros Hx; cbn [remove app].
  - now rewrite decide_True.
  - apply not_elem_of_cons in Hx as [Hne Hx].
    rewrite decide_False by congruence. now rewrite (IH Hx).
Qed.

Lemma disconnect_present (x : websocket) (l1 l2 : list websocket) :
  x ∉ l1 -> disconnect x (l1 ++ x :: l2) = (Ok tt, l1 ++ l2).
Proof.
  intros Hx. unfold disconnect. rewrite bool_decide_eq_true_2.
  - now rewrite (remove_first _ _ _ Hx).
  - apply elem_of_app. right. apply list_elem_of_here.
Qed.

Lemma disconnect_absent (x : websocket) (l : list websocket) :
  x ∉ l -> disconnect x l = (Ok tt, l).
Proof. intros Hx. unfold disconnect. now rewrite bool_decide_eq_false_2. Qed.

(** Every member of a list has a first occurrence. *)
Lemma first_occurrence (x : websocket) (l : list websocket) :
  x ∈ l -> exists l1 l2, l = l1 ++ x :: l2 /\ x ∉ l1.
Proof.
  induction l as [| y l IH]; intros Hx; [now apply elem_of_nil in Hx |].
  destruct (decide (y = x)) as [-> | Hne].
  - exists [], l. split; [reflexivity | apply not_elem_of_nil].
  - apply elem_of_cons in Hx as [-> | Hx]; [congruence |].
    destruct (IH Hx) as (l1 & l2 & -> & Hl1). exists (y :: l1), l2.
    split; [reflexivity |]. apply not_elem_of_cons. split; [congruence | exact Hl1].
Qed.

Lemma disconnect_cases (x : websocket) (l : list websocket) :
  exists l', disconnect x l = (Ok tt, l')
    /\ (((x ∉ l) /\ l' = l)
        \/ (exists l1 l2, l = l1 ++ x :: l2 /\ (x ∉ l1) /\ l' = l1 ++ l2)).
Proof.
  destruct (decide (x ∈ l)) as [Hin | Hnin].
  - destruct (first_occurrence _ _ Hin) as (l1 & l2 & -> & Hl1).
    exists (l1 ++ l2). split; [now apply disconnect_present |].
    right. now exists l1, l2.
  - exists l. split; [now apply disconnect_absent | now left].
Qed.

Lemma failed_sends_app (send_text : nat -> websocket -> result unit) (i : nat)
    (connections disconnected : list websocket) :
  failed_sends send_text i connections disconnected
  = disconnected ++ failed_sends send_text i connections [].
Proof.
  revert i disconnected. induction connections as [| c rest IH];
    intros i disconnected; cbn [failed_sends].
  - now rewrite app_nil_r.
  - rewrite IH. rewrite (IH _ (match send_text i c with Ok _ => [] | Raise _ => _ end)).
    destruct (send_text i c); [reflexivity | now rewrite <- app_assoc].
Qed.

Lemma failed_sends_cons (send_text : nat -> websocket -> result unit) (i : nat)
    (c : websocket) (rest : list websocket) :
  failed_sends send_text i (c :: rest) []
  = (match send_text i c with Ok _ => [] | Raise _ => [c] end)
    ++ failed_sends send_text (S i) rest [].
Proof. cbn [failed_sends]. rewrite failed_sends_app. now destruct (send_text i c). Qed.

Lemma failed_sends_elem (send_text : nat -> websocket -> result unit) (i : nat)
    (connections : list websocket) (c : websocket) :
  c ∈ failed_sends send_text i connections []
  <-> exists j e, connections !! j = Some c /\ send_text (i + j)%nat c = Raise e.
Proof.
  revert i. induction connections as [| c' rest IH]; intros i.
  - cbn [failed_sends]. split; [intros Hc; now apply elem_of_nil in Hc |].
    now intros (j & e & [=] & _).
  - rewrite failed_sends_cons, elem_of_app, IH. split.
    + intros [Hc | (j & e & Hj & He)].
      * destruct (send_text i c') as [| e] eqn:Hs; [now apply elem_of_nil in Hc |].
        apply list_elem_of_singleton in Hc as ->. exists 0%nat, e.
        split; [reflexivity | now rewrite Nat.add_0_r].
      * exists (S j), e. split; [exact Hj |]. now rewrite Nat.add_succ_r.
    + intros ([| j] & e & Hj & He).
      * injection Hj as ->. rewrite Nat.add_0_r in He. left. rewrite He.
        apply list_elem_of_here.
      * right. exists j, e. split; [exact Hj |]. now rewrite Nat.add_succ_r in He.
Qed.

Lemma failed_sends_submseteq (send_text : nat -> websocket -> result unit) (i : nat)
    (connections : list websocket) :
  failed_sends send_text i connections [] ⊆+ connections.
Proof.
  revert i. induction connections as [| c rest IH]; intros i.
  - reflexivity.
  - rewrite failed_sends_cons. destruct (send_text i c); cbn [app].
    + apply submseteq_cons, IH.
    + apply submseteq_skip, IH.
Qed.

Lemma filter_agree (P Q : websocket -> Prop)
    `{forall c, Decision (P c)} `{forall c, Decision (Q c)} (l : list websocket) :
  (forall c, c ∈ l -> P c <-> Q c) -> filter P l = filter Q l.
Proof.
  induction l as [| c l IH]; intros Hl; [reflexivity |].
  rewrite !filter_cons.
  rewrite IH by (intros c' Hc'; apply Hl; now right).
  destruct (decide (P c)) as [Hp | Hp], (decide (Q c)) as [Hq | Hq];
    try reflexivity; exfalso; apply (Hl c (list_elem_of_here _ _)) in Hp || apply Hp;
    tauto || (apply (Hl c (list_elem_of_here _ _)); exact Hq).
Qed.

Lemma filter_all (P : websocket -> Prop) `{forall c, Decision (P c)}
    (l : list websocket) :
  (forall c, c ∈ l -> P c) -> filter P l = l.
Proof.
  induction l as [| c l IH]; intros Hl; [reflexivity |].
  rewrite filter_cons, decide_True by (apply Hl, list_elem_of_here).
  now rewrite IH by (intros c' Hc'; apply Hl; now right).
Qed.

(** The second loop removes what the first has collected, one occurrence
    for each. *)
Lemma disconnect_each_removes (disconnected active : list websocket) :
  disconnected ⊆+ active ->
  exists kept,
    disconnect_each disconnected active = (Ok tt, kept)
    /\ disconnected ++ kept ≡ₚ active
    /\ (NoDup active ->
        kept = filter (fun c => c ∉ disconnected) active).
Proof.
  revert active. induction disconnected as [| x rest IH]; intros active Hsub.
  - exists active. split; [reflexivity |]. split; [reflexivity |].
    intros _. symmetry. apply filter_all. intros c _. apply not_elem_of_nil.
  - assert (Hx : x ∈ active).
    { eapply elem_of_submseteq; [apply list_elem_of_here | exact Hsub]. }
    destruct (first_occurrence _ _ Hx) as (l1 & l2 & -> & Hl1).
    cbn [disconnect_each]. rewrite (disconnect_present _ _ _ Hl1).
    assert (Hrest : rest ⊆+ l1 ++ l2).
    { apply (submseteq_app_inv_l _ _ [x]). cbn [app].
      etransitivity; [exact Hsub |]. now rewrite Permutation_middle. }
    destruct (IH _ Hrest) as (kept & Hkept & Hperm & Hnodup).
    exists kept. split; [exact Hkept |]. split.
    + cbn [app]. rewrite Hperm. apply Permutation_middle.
    + intros Hnd. apply NoDup_app in Hnd as (Hnd1 & Hdisj & Hnd2).
      apply NoDup_cons in Hnd2 as [Hl2 Hnd2].
      rewrite Hnodup.
      2:{ apply NoDup_app. repeat split; [exact Hnd1 | | exact Hnd2].
          intros c Hc1 Hc2. apply (Hdisj c Hc1). now right. }
      rewrite !filter_app, filter_cons.
      rewrite decide_False by (intros Hn; apply Hn, list_elem_of_here).
      assert (Hsame : forall l : list websocket, x ∉ l ->
                filter (fun c => c ∉ rest) l = filter (fun c => c ∉ x :: rest) l).
      { intros l Hl. apply filter_agree. intros c Hc.
        rewrite not_elem_of_cons. split; [| tauto].
        intros Hr. split; [| exact Hr]. intros ->. contradiction. }
      now rewrite (Hsame l1 Hl1), (Hsame l2 Hl2).
Qed.

(** X8: [broadcast] drops the connections whose send raised, and only
    those. It never raises itself. The connections collected for removal are
    those on which some send raised; afterwards the list together with them
    is the list of before, counting repetitions; and when no connection was
    listed twice, the list of after is the list of before without them, in
    the same order. *)
Theorem broadcast_drops_failed
    (send_text : nat -> websocket -> result unit)
    (active_connections : list websocket) :
  exists kept,
    broadcast send_text active_connections = (Ok tt, kept)
    /\ (forall c,
          c ∈ failed_sends send_text 0 active_connections []
          <-> exists i e, active_connections !! i = Some c
                          /\ send_text i c = Raise e)
    /\ failed_sends send_text 0 active_connections [] ++ kept ≡ₚ active_connections
    /\ (NoDup active_connections ->
        kept = filter (fun c => c ∉ failed_sends send_text 0 active_connections [])
                 active_connections
        /\ forall i c, active_connections !! i = Some c ->
             (c ∈ kept <-> send_text i c = Ok tt)).
Proof.
  destruct (disconnect_each_removes _ _
              (failed_sends_submseteq send_text 0 active_connections))
    as (kept & Hkept & Hperm & Hnodup).
  exists kept. split; [exact Hkept |].
  split; [intros c; apply failed_sends_elem |]. split; [exact Hperm |].
  intros Hnd. split; [exact (Hnodup Hnd) |].
  intros i c Hi. rewrite (Hnodup Hnd), list_elem_of_filter, failed_sends_elem.
  cbn [Nat.add]. split.
  - intros [Hnot _]. destruct (send_text i c) as [[] | e] eqn:Hs; [reflexivity |].
    exfalso. apply Hnot. now exists i, e.
  - intros Hok. split; [| eapply list_elem_of_lookup_2, Hi].
    intros (j & e & Hj & He).
    rewrite (NoDup_lookup _ _ _ _ Hnd Hj Hi) in He. congruence.
Qed.

(** X9: [connect] and [disconnect]. [disconnect] never raises. It leaves
    the list as it is when the websocket is not in it, and otherwise removes
    the first occurrence and nothing else: the list splits at the first
    occurrence into what comes before and what comes after it, and these two
    parts, in this order, are the list afterwards. So a websocket that is
    not in the list is back out of it after [connect] and [disconnect], with
    every other connection in place, whatever has been appended after it. A
    websocket connected twice is still in the list after one [disconnect].
    When [accept] raises, [connect] raises and appends nothing. *)
Theorem connect_then_disconnect (ws : websocket) (active_connections : list websocket) :
  (exists l, disconnect ws active_connections = (Ok tt, l)
             /\ length l = (length active_connections
                            - (if bool_decide (ws ∈ active_connections) then 1 else 0))%nat
             /\ (((ws ∉ active_connections) /\ l = active_connections)
                 \/ (exists before after,
                       active_connections = before ++ ws :: after
                       /\ (ws ∉ before)
                       /\ l = before ++ after)))
  /\ (ws ∉ active_connections ->
      disconnect ws active_connections = (Ok tt, active_connections)
      /\ forall later,
           ws ∉ later ->
           disconnect ws ((connect (Ok tt) ws active_connections).2 ++ later)
           = (Ok tt, active_connections ++ later))
  /\ (ws ∈ active_connections ->
      ws ∈ (disconnect ws (connect (Ok tt) ws active_connections).2).2)
  /\ (forall e, connect (Raise e) ws active_connections = (Raise e, active_connections)).
Proof.
  split; [| split; [| split]].
  - destruct (disconnect_cases ws active_connections)
      as (l & Hl & [(Hnin & ->) | (l1 & l2 & -> & Hl1 & ->)]).
    + exists active_connections. split; [exact Hl |]. split; [| now left].
      rewrite bool_decide_eq_false_2 by exact Hnin. lia.
    + eexists. split; [exact Hl |]. split; [| right; now exists l1, l2].
      rewrite bool_decide_eq_true_2
        by (apply elem_of_app; right; apply list_elem_of_here).
      rewrite !length_app. cbn [length]. lia.
  - intros Hnin. split; [now apply disconnect_absent |].
    intros later Hlater. cbn [connect snd]. rewrite <- app_assoc. cbn [app].
    now apply disconnect_present.
  - intros Hin. destruct (first_occurrence _ _ Hin) as (l1 & l2 & -> & Hl1).
    cbn [connect snd]. rewrite <- app_assoc. cbn [app].
    rewrite (disconnect_present _ _ _ Hl1). cbn [snd].
    rewrite !elem_of_app. right. right. apply list_elem_of_here.
  - reflexivity.
Qed.

End ConnectionManager_facts.

(** ** apply_provider *)

(** An integer against the two thresholds: it is at least 0.7, and at least
    0.4, exactly when it is at least 1. *)
Lemma int_compare_threshold (n : Z) (c : float) :
  c = 0.7%float \/ c = 0.4%float ->
  int_compare_float n c = Some (if (1 <=? n)%Z then Gt else Lt).
Proof.
  intros [-> | ->]; unfold int_compare_float.
  - let x := eval vm_compute in (Prim2SF 0.7) in change (Prim2SF 0.7) with x.
    cbv beta iota zeta. change (0 <=? -53)%Z with false. cbv iota.
    change (- -53)%Z with 53%Z. f_equal. destruct (Z.leb_spec 1 n).
    + apply Z.compare_gt_iff. lia.
    + apply Z.compare_lt_iff. lia.
  - let x := eval vm_compute in (Prim2SF 0.4) in change (Prim2SF 0.4) with x.
    cbv beta iota zeta. change (0 <=? -54)%Z with false. cbv iota.
    change (- -54)%Z with 54%Z. f_equal. destruct (Z.leb_spec 1 n).
    + apply Z.compare_gt_iff. lia.
    + apply Z.compare_lt_iff. lia.
Qed.

Lemma py_ge_int (n : Z) (c : float) :
  c = 0.7%float \/ c = 0.4%float -> py_ge (VInt n) c = Ok (1 <=? n)%Z.
Proof.
  intros Hc. unfold py_ge. rewrite (int_compare_threshold n c Hc).
  now destruct (1 <=? n)%Z.
Qed.

Lemma py_lt_int (n : Z) : py_lt (VInt n) 0.7 = Ok (negb (1 <=? n)%Z).
Proof.
  unfold py_lt. rewrite (int_compare_threshold n 0.7) by now left.
  now destruct (1 <=? n)%Z.
Qed.

Lemma eq_str_false (v : value) (s : string) : v <> VStr s -> eq_str v s = false.
Proof.
  intros Hv. destruct (eq_str v s) eqn:He; [| reflexivity].
  apply eq_str_true in He. contradiction.
Qed.

(** The order of floats: [SFcompare] the other way round. *)
Lemma SFcompare_antisym (a b : spec_float) :
  SFcompare b a = option_map CompOpp (SFcompare a b).
Proof.
  destruct a as [s1 | s1 | | s1 m1 e1], b as [s2 | s2 | | s2 m2 e2];
    cbn [SFcompare option_map]; try reflexivity;
    try (destruct s1, s2; reflexivity); try (destruct s1; reflexivity);
    try (destruct s2; reflexivity).
  destruct s1, s2; cbn [CompOpp]; try reflexivity;
    rewrite (Z.compare_antisym e1 e2); destruct (e1 ?= e2)%Z; cbn [CompOpp];
    try reflexivity; now rewrite (Pos.compare_cont_antisym m1 m2 Eq).
Qed.

(** A float that is at least [c] is not below [c]. *)
Lemma leb_not_ltb (c f : float) :
  PrimFloat.leb c f = true -> PrimFloat.ltb f c = false.
Proof.
  rewrite leb_spec, ltb_spec. unfold SFleb, SFltb.
  rewrite (SFcompare_antisym (Prim2SF c) (Prim2SF f)).
  destruct (SFcompare (Prim2SF c) (Prim2SF f)) as [[| |] |];
    cbn [option_map CompOpp]; congruence.
Qed.

Lemma py_ge_not_lt (v : value) (c : float) :
  c = 0.7%float \/ c = 0.4%float ->
  py_ge v c = Ok true -> py_lt v c = Ok false.
Proof.
  intros Hc Hge.
  assert (Hint : forall n, py_ge (VInt n) c = Ok true -> py_lt (VInt n) c = Ok false).
  { intros n Hn. rewrite py_ge_int in Hn by exact Hc. injection Hn as Hn.
    unfold py_lt. rewrite (int_compare_threshold n c Hc). now rewrite Hn. }
  destruct v as [| b | n | f | | |]; try discriminate.
  - destruct b; [exact (Hint 1%Z Hge) | exact (Hint 0%Z Hge)].
  - exact (Hint n Hge).
  - cbn [py_ge py_lt] in *. injection Hge as Hle. f_equal. now apply leb_not_ltb.
Qed.

Lemma py_lt_not_ge (v : value) (c : float) :
  c = 0.7%float \/ c = 0.4%float ->
  py_lt v c = Ok true -> py_ge v c = Ok false.
Proof.
  intros Hc Hlt.
  destruct (py_ge v c) as [[|] | e] eqn:Hge; [| reflexivity |].
  - rewrite (py_ge_not_lt v c Hc Hge) in Hlt. discriminate.
  - destruct v; discriminate.
Qed.

(** The status for an integer score off the YELLOW path. *)
Lemma application_status_int (path requires_review : value) (n : Z) :
  path <> VStr "YELLOW" ->
  application_status path (VInt n) requires_review
  = Ok (if eq_str path "GREEN" && (1 <=? n)%Z && negb (truthy requires_review)
        then "approved" else "flagged_for_review").
Proof.
  intros Hpath. unfold application_status.
  rewrite (eq_str_false path "YELLOW" Hpath).
  rewrite !py_ge_int by auto. rewrite py_lt_int.
  destruct (eq_str path "GREEN"), (1 <=? n)%Z, (truthy requires_review);
    reflexivity.
Qed.

(** X10: the status of an application, as the handler decides it. An
    application on the YELLOW path is pending review whatever its score is,
    even when the score is not a number. An application is approved only on
    the GREEN path with a score of at least 0.7 and no review required; on
    the GREEN path with such a score and a review required it is flagged for
    review, not pending. On every path but YELLOW a score from 0.4 up to, not
    including, 0.7 makes it pending, also on the RED path. An integer score
    never makes an application pending: it counts as high from 1 on and as
    low otherwise. A score that is not a number (text, null, a list, an
    object) raises a [TypeError] on every path but YELLOW. *)
Theorem status_decision_table (path confidence_score requires_review : value) :
  (path = VStr "YELLOW" ->
   application_status path confidence_score requires_review = Ok "pending_review")
  /\ (application_status path confidence_score requires_review = Ok "approved" ->
      path = VStr "GREEN"
      /\ py_ge confidence_score 0.7 = Ok true
      /\ truthy requires_review = false)
  /\ (path = VStr "GREEN" ->
      py_ge confidence_score 0.7 = Ok true ->
      application_status path confidence_score requires_review
      = Ok (if truthy requires_review then "flagged_for_review" else "approved"))
  /\ (path <> VStr "YELLOW" ->
      py_ge confidence_score 0.4 = Ok true ->
      py_lt confidence_score 0.7 = Ok true ->
      application_status path confidence_score requires_review = Ok "pending_review")
  /\ (forall n,
        confidence_score = VInt n ->
        path <> VStr "YELLOW" ->
        application_status path confidence_score requires_review
        = Ok (if eq_str path "GREEN" && (1 <=? n)%Z && negb (truthy requires_review)
              then "approved" else "flagged_for_review"))
  /\ (path <> VStr "YELLOW" ->
      (forall b, confidence_score <> VBool b) ->
      (forall n, confidence_score <> VInt n) ->
      (forall f, confidence_score <> VFloat f) ->
      exists e,
        application_status path confidence_score requires_review = Raise e
        /\ exn_type e = "TypeError").
Proof.
  split; [| split; [| split; [| split; [| split]]]].
  - intros ->. reflexivity.
  - unfold application_status. destruct (eq_str path "GREEN") eqn:Hpath.
    + apply eq_str_true in Hpath as ->.
      destruct (py_ge confidence_score 0.7) as [[|] | e] eqn:Hge; cbn [Py.bind].
      * destruct (truthy requires_review); cbn [andb negb]; [| now auto].
        change (eq_str (VStr "GREEN") "YELLOW") with false. cbv iota.
        destruct (py_ge confidence_score 0.4) as [[|] | e']; cbn [Py.bind];
          [destruct (py_lt confidence_score 0.7) as [[|] | e'']; cbn [Py.bind] | |];
          discriminate.
      * change (eq_str (VStr "GREEN") "YELLOW") with false. cbv iota.
        destruct (py_ge confidence_score 0.4) as [[|] | e']; cbn [Py.bind];
          [destruct (py_lt confidence_score 0.7) as [[|] | e'']; cbn [Py.bind] | |];
          discriminate.
      * discriminate.
    + cbn [Py.bind]. destruct (eq_str path "YELLOW"); cbn [Py.bind]; [discriminate |].
      destruct (py_ge confidence_score 0.4) as [[|] | e']; cbn [Py.bind];
        [destruct (py_lt confidence_score 0.7) as [[|] | e'']; cbn [Py.bind] | |];
        discriminate.
  - intros -> Hge. unfold application_status.
    change (eq_str (VStr "GREEN") "GREEN") with true. cbv iota.
    rewrite Hge. cbn [Py.bind andb].
    destruct (truthy requires_review); cbn [negb]; [| reflexivity].
    change (eq_str (VStr "GREEN") "YELLOW") with false. cbv iota.
    assert (Hlt : py_lt confidence_score 0.7 = Ok false)
      by (apply py_ge_not_lt; [now left | exact Hge]).
    destruct (py_ge confidence_score 0.4) as [[|] | e'] eqn:Hsome; cbn [Py.bind].
    + now rewrite Hlt.
    + reflexivity.
    + destruct confidence_score; discriminate.
  - intros Hpath Hsome Hlt. unfold application_status.
    assert (Hhigh : py_ge confidence_score 0.7 = Ok false)
      by (apply py_lt_not_ge; [now left | exact Hlt]).
    rewrite Hhigh. rewrite (eq_str_false path "YELLOW" Hpath).
    destruct (eq_str path "GREEN"); cbn [Py.bind andb];
      now rewrite Hsome, Hlt.
  - intros n -> Hpath. now apply application_status_int.
  - intros Hpath Hb Hn Hf. unfold application_status.
    rewrite (eq_str_false path "YELLOW" Hpath).
    destruct confidence_score as [| b | n | f | s | l | d];
      try (now destruct (Hb b)); try (now destruct (Hn n)); try (now destruct (Hf f));
      destruct (eq_str path "GREEN"); cbn; eexists; split; reflexivity.
Qed.

Section Apply_facts.

Context `{Host} `{Server}.

Lemma application_data_lookup (form : application_form) (saved_name : string)
    (ai_raw ai_parsed : value) (v : validation) (size_bytes : Z) :
  exists a av,
    application_data form saved_name ai_raw ai_parsed v size_bytes = VDict a
    /\ a !! "application_id" = Some (VStr application_id)
    /\ a !! "status" = Some (VStr (v_status v))
    /\ a !! "ai_validation" = Some (VDict av)
    /\ av !! "confidence_score" = Some (v_confidence_score v)
    /\ av !! "path" = Some (v_path v)
    /\ av !! "raw_result" = Some ai_raw
    /\ av !! "parsed_result" = Some ai_parsed.
Proof.
  do 2 eexists. split; [reflexivity |]. repeat split; now lookup_literal.
Qed.

Lemma submitted_lookup (v : validation) (response : value) :
  submitted v = Ok response ->
  exists r summary,
    response = VDict r
    /\ r !! "success" = Some (VBool true)
    /\ r !! "application_id" = Some (VStr application_id)
    /\ r !! "status" = Some (VStr (v_status v))
    /\ r !! "validation_summary" = Some (VDict summary)
    /\ summary !! "confidence_score" = Some (v_confidence_score v)
    /\ summary !! "path" = Some (v_path v).
Proof.
  unfold submitted. intros Hs.
  apply bind_Ok in Hs as (shown & _ & Hs). apply bind_Ok in Hs as (n1 & _ & Hs).
  apply bind_Ok in Hs as (n2 & _ & [= <-]).
  do 2 eexists. split; [reflexivity |]. repeat split; now lookup_literal.
Qed.

Lemma failed_response_lookup (e : exn) :
  exists r,
    failed_response e = VDict r
    /\ r !! "success" = Some (VBool false)
    /\ r !! "error" = Some (VStr (exn_msg e))
    /\ r !! "message" = Some (VStr ("Failed to save application: " +:+ exn_msg e)).
Proof.
  eexists. split; [reflexivity |]. repeat split; now lookup_literal.
Qed.

Lemma load_applications_uploads (written : list string) (d : disk) :
  load_applications (Disk written (applications_file d)) = load_applications d.
Proof. reflexivity. Qed.

(** The three ways the body of the handler ends: before the upload is
    saved, after it and before the applications file is written, or after
    both. *)
Lemma apply_provider_body_cases (form : application_form) (d : disk) :
  (exists e, apply_provider_body form d = (Raise e, d))
  \/ (exists extension e,
        file_extension form = Ok extension
        /\ apply_provider_body form d
           = (Raise e,
              Disk (uploads d ++ [upload_path (saved_filename form extension)])
                   (applications_file d)))
  \/ (exists extension entry v old,
        file_extension form = Ok extension
        /\ prepared form (saved_filename form extension) = Ok (entry, v)
        /\ load_applications d = Ok (VList old)
        /\ apply_provider_body form d
           = (submitted v,
              Disk (uploads d ++ [upload_path (saved_filename form extension)])
                   (Some (Ok (VList (old ++ [entry])))))).
Proof.
  unfold apply_provider_body.
  destruct mkdir as [[] | e]; cbn [Py.bind]; [| left; now exists e].
  destruct (file_extension form) as [extension | e] eqn:Hext; [| left; now exists e].
  destruct (copyfileobj (upload_path (saved_filename form extension))) as [[] | e];
    [| left; now exists e].
  right.
  destruct (prepared form (saved_filename form extension)) as [[entry v] | e] eqn:Hprep;
    cbn [Py.bind]; [| left; now exists extension, e].
  rewrite load_applications_uploads. cbn [uploads].
  destruct (load_applications d) as [applications | e] eqn:Hload; cbn [Py.bind];
    [| left; now exists extension, e].
  destruct applications as [| | | | | old |]; cbn [append Py.bind fst snd];
    try (left; eexists extension, _; split; reflexivity).
  destruct open_w as [[] | e]; cbn [Py.bind]; [| left; now exists extension, e].
  right. exists extension, entry, v, old.
  split; [reflexivity |]. split; [exact Hprep |]. split; reflexivity.
Qed.

(** X11: the applications file is append-only. A request never removes an
    upload and writes at most one. It leaves the applications file as it is,
    or replaces it by the list read from it with one entry appended at the
    end, whose [application_id] is the new one; the list read is empty when
    the file does not exist or does not hold JSON, so that an undecodable file
    is replaced by a file with the new application only. The response is the
    failure response or the summary; whenever it says [success: True] the
    entry has been appended and the response carries its [status]. *)
Theorem applications_are_appended (form : application_form) (d : disk) :
  exists response d',
    apply_provider form d = (response, d')
    /\ (exists written, uploads d' = uploads d ++ written
                        /\ (length written <= 1)%nat)
    /\ (applications_file d' = applications_file d
        \/ exists old entry a,
             load_applications d = Ok (VList old)
             /\ applications_file d' = Some (Ok (VList (old ++ [entry])))
             /\ entry = VDict a
             /\ a !! "application_id" = Some (VStr application_id))
    /\ (applications_file d = None
        \/ (exists e, applications_file d = Some (Raise e)
                      /\ exn_type e = "JSONDecodeError") ->
        load_applications d = Ok (VList []))
    /\ exists r,
         response = VDict r
         /\ (r !! "success" = Some (VBool false)
             \/ r !! "success" = Some (VBool true)
                /\ exists old entry a status,
                     load_applications d = Ok (VList old)
                     /\ applications_file d' = Some (Ok (VList (old ++ [entry])))
                     /\ entry = VDict a
                     /\ a !! "status" = Some (VStr status)
                     /\ r !! "status" = Some (VStr status)).
Proof.
  assert (Hload : applications_file d = None
                  \/ (exists e, applications_file d = Some (Raise e)
                                /\ exn_type e = "JSONDecodeError") ->
                  load_applications d = Ok (VList [])).
  { unfold load_applications. intros [-> | (e & -> & ->)]; reflexivity. }
  unfold apply_provider.
  destruct (apply_provider_body_cases form d)
    as [(e & ->) | [(extension & e & _ & ->)
                   | (extension & entry & v & old & _ & Hprep & Hold & ->)]].
  - destruct (failed_response_lookup e) as (r & Hr & Hsuccess & _).
    do 2 eexists. split; [reflexivity |].
    split; [exists []; split; [now rewrite app_nil_r | cbn; lia] |].
    split; [now left |]. split; [exact Hload |]. exists r. now split; [| left].
  - destruct (failed_response_lookup e) as (r & Hr & Hsuccess & _).
    do 2 eexists. split; [reflexivity |].
    split; [eexists [_]; split; [reflexivity | cbn; lia] |].
    split; [now left |]. split; [exact Hload |]. exists r. now split; [| left].
  - assert (Hentry : exists a, entry = VDict a
                       /\ a !! "application_id" = Some (VStr application_id)
                       /\ a !! "status" = Some (VStr (v_status v))).
    { unfold prepared in Hprep. apply bind_Ok in Hprep as ([raw parsed] & _ & Hprep).
      apply bind_Ok in Hprep as (v' & _ & Hprep).
      apply bind_Ok in Hprep as (size_bytes & _ & [= <- <-]).
      destruct (application_data_lookup form (saved_filename form extension)
                  raw parsed v' size_bytes) as (a & av & Ha & Hid & Hstatus & _).
      now exists a. }
    destruct Hentry as (a & -> & Hid & Hstatus).
    destruct (submitted v) as [response | e] eqn:Hsub.
    + destruct (submitted_lookup v response Hsub)
        as (r & summary & -> & Hsuccess & _ & Hrstatus & _).
      do 2 eexists. split; [reflexivity |].
      split; [eexists [_]; split; [reflexivity | cbn; lia] |].
      split; [right; now exists old, (VDict a), a |]. split; [exact Hload |].
      exists r. split; [reflexivity |]. right. split; [exact Hsuccess |].
      now exists old, (VDict a), a, (v_status v).
    + destruct (failed_response_lookup e) as (r & Hr & Hsuccess & _).
      do 2 eexists. split; [reflexivity |].
      split; [eexists [_]; split; [reflexivity | cbn; lia] |].
      split; [right; now exists old, (VDict a), a |]. split; [exact Hload |].
      exists r. now split; [| left].
Qed.

(** The handler when the file system does what it is asked. *)
Lemma apply_provider_runs (form : application_form) (d : disk)
    (name : string) (ai_raw ai_parsed : value) (v : validation)
    (size_bytes : Z) (old : list value) :
  let saved_name := saved_filename form (suffix name) in
  mkdir = Ok tt ->
  filename form = Some name ->
  copyfileobj (upload_path saved_name) = Ok tt ->
  decode_results form = Ok (ai_raw, ai_parsed) ->
  read_validation ai_parsed = Ok v ->
  st_size (upload_path saved_name) = Ok size_bytes ->
  load_applications d = Ok (VList old) ->
  open_w = Ok tt ->
  apply_provider_body form d
  = (submitted v,
     Disk (uploads d ++ [upload_path saved_name])
          (Some (Ok (VList (old ++ [application_data form saved_name ai_raw
                                      ai_parsed v size_bytes]))))).
Proof.
  intros saved_name Hmkdir Hname Hcopy Hdecode Hread Hsize Hload Hopen.
  unfold apply_provider_body, file_extension. rewrite Hmkdir, Hname. cbn [Py.bind].
  fold saved_name. rewrite Hcopy.
  unfold prepared. rewrite Hdecode. cbn [Py.bind]. rewrite Hread. cbn [Py.bind].
  rewrite Hsize. cbn [Py.bind].
  rewrite load_applications_uploads, Hload. cbn [Py.bind append fst snd uploads].
  rewrite Hopen. reflexivity.
Qed.

(** X12: an application can be saved and still reported as failed. When
    the decoded result is on the YELLOW path and its [confidence_score] is
    text, and the file system does what it is asked, the handler appends the
    application to the applications file with status ["pending_review"] and
    then answers [success: False], because the score has no percent format. *)
Theorem saved_but_reported_failed (form : application_form) (d : disk)
    (name score : string) (ai_raw : value) (parsed : gmap string value)
    (size_bytes : Z) (old : list value) :
  let saved_name := saved_filename form (suffix name) in
  mkdir = Ok tt ->
  filename form = Some name ->
  copyfileobj (upload_path saved_name) = Ok tt ->
  json_loads (aiRawResult form) = Ok ai_raw ->
  json_loads (aiParsedResult form) = Ok (VDict parsed) ->
  parsed !! "path" = Some (VStr "YELLOW") ->
  parsed !! "confidence_score" = Some (VStr score) ->
  st_size (upload_path saved_name) = Ok size_bytes ->
  load_applications d = Ok (VList old) ->
  open_w = Ok tt ->
  exists response d' r entry a,
    apply_provider form d = (response, d')
    /\ response = VDict r
    /\ r !! "success" = Some (VBool false)
    /\ r !! "error"
       = Some (VStr "Unknown format code '%' for object of type 'str'")
    /\ applications_file d' = Some (Ok (VList (old ++ [entry])))
    /\ entry = VDict a
    /\ a !! "application_id" = Some (VStr application_id)
    /\ a !! "status" = Some (VStr "pending_review").
Proof.
  intros saved_name Hmkdir Hname Hcopy Hraw Hparsed Hpath Hscore Hsize Hload Hopen.
  set (v := Validation (VStr score) (VStr "YELLOW")
              (dict_get parsed "requires_human_review" (VBool false))
              (dict_get parsed "fraud_indicators" (VList []))
              (dict_get parsed "qa_flags" (VList [])) "pending_review").
  assert (Hdecode : decode_results form = Ok (ai_raw, VDict parsed)).
  { unfold decode_results. now rewrite Hraw, Hparsed. }
  assert (Hread : read_validation (VDict parsed) = Ok v).
  { unfold read_validation. cbn [has_get Py.bind]. cbv zeta.
    rewrite (dict_get_Some _ _ _ _ Hpath), (dict_get_Some _ _ _ _ Hscore).
    reflexivity. }
  pose proof (apply_provider_runs form d name ai_raw (VDict parsed) v size_bytes old
                Hmkdir Hname Hcopy Hdecode Hread Hsize Hload Hopen) as Hrun.
  cbv zeta in Hrun. fold saved_name in Hrun.
  destruct (application_data_lookup form saved_name ai_raw (VDict parsed) v size_bytes)
    as (a & av & Ha & Hid & Hstatus & _).
  destruct (failed_response_lookup
              (Exn "ValueError" "Unknown format code '%' for object of type 'str'"))
    as (r & Hr & Hsuccess & Herror & _).
  unfold apply_provider. rewrite Hrun.
  change (submitted v)
    with (@Raise value
            (Exn "ValueError" "Unknown format code '%' for object of type 'str'")).
  do 2 eexists. exists r. eexists. exists a.
  split; [reflexivity |]. split; [exact Hr |]. split; [exact Hsuccess |].
  split; [exact Herror |]. split; [reflexivity |]. split; [exact Ha |].
  split; [exact Hid | exact Hstatus].
Qed.

(** X13: a result that is not JSON. When either of the two result fields
    does not decode, neither decoded value is used: the application is
    flagged for review with [confidence_score] 0 and [path] ["UNKNOWN"], and
    it stores both fields as the text that was sent, also the one that would
    have decoded. With the file system doing what it is asked, the
    application is appended and the response says [success: True]. *)
Theorem undecodable_result_is_flagged (form : application_form) (d : disk)
    (name : string) (e : exn) (size_bytes : Z) (old : list value) :
  let saved_name := saved_filename form (suffix name) in
  mkdir = Ok tt ->
  filename form = Some name ->
  copyfileobj (upload_path saved_name) = Ok tt ->
  exn_type e = "JSONDecodeError" ->
  json_loads (aiRawResult form) = Raise e
  \/ ((exists ai_raw, json_loads (aiRawResult form) = Ok ai_raw)
      /\ json_loads (aiParsedResult form) = Raise e) ->
  st_size (upload_path saved_name) = Ok size_bytes ->
  load_applications d = Ok (VList old) ->
  open_w = Ok tt ->
  exists response d' r summary entry a av,
    apply_provider form d = (response, d')
    /\ response = VDict r
    /\ r !! "success" = Some (VBool true)
    /\ r !! "status" = Some (VStr "flagged_for_review")
    /\ r !! "validation_summary" = Some (VDict summary)
    /\ summary !! "confidence_score" = Some (VInt 0)
    /\ summary !! "path" = Some (VStr "UNKNOWN")
    /\ applications_file d' = Some (Ok (VList (old ++ [entry])))
    /\ entry = VDict a
    /\ a !! "status" = Some (VStr "flagged_for_review")
    /\ a !! "ai_validation" = Some (VDict av)
    /\ av !! "raw_result"
       = Some (VDict (dict_literal [ ("raw_data", VStr (aiRawResult form)) ]))
    /\ av !! "parsed_result"
       = Some (VDict (dict_literal [ ("parsed_data", VStr (aiParsedResult form)) ])).
Proof.
  intros saved_name Hmkdir Hname Hcopy He Hjson Hsize Hload Hopen.
  set (ai_raw := VDict (dict_literal [ ("raw_data", VStr (aiRawResult form)) ])).
  set (parsed := dict_literal [ ("parsed_data", VStr (aiParsedResult form)) ]).
  set (v := Validation (VInt 0) (VStr "UNKNOWN") (VBool false) (VList []) (VList [])
              "flagged_for_review").
  assert (Hdecode : decode_results form = Ok (ai_raw, VDict parsed)).
  { unfold decode_results.
    destruct Hjson as [-> | [(raw & ->) ->]]; cbn [Py.bind]; now rewrite He. }
  assert (Hget : forall k default, k <> "parsed_data" -> dict_get parsed k default = default).
  { intros k default Hk. unfold dict_get, parsed, dict_literal, dict_update.
    cbn [fold_left fst snd]. rewrite lookup_insert_ne by congruence.
    now rewrite lookup_empty. }
  assert (Hread : read_validation (VDict parsed) = Ok v).
  { unfold read_validation. cbn [has_get Py.bind]. cbv zeta.
    rewrite !Hget by discriminate.
    rewrite application_status_int by discriminate. reflexivity. }
  pose proof (apply_provider_runs form d name ai_raw (VDict parsed) v size_bytes old
                Hmkdir Hname Hcopy Hdecode Hread Hsize Hload Hopen) as Hrun.
  cbv zeta in Hrun. fold saved_name in Hrun.
  destruct (application_data_lookup form saved_name ai_raw (VDict parsed) v size_bytes)
    as (a & av & Ha & _ & Hstatus & Hav & _ & _ & Hraw & Hparsed).
  assert (Hsub : exists response, submitted v = Ok response) by (eexists; reflexivity).
  destruct Hsub as (response & Hsub).
  destruct (submitted_lookup v response Hsub)
    as (r & summary & -> & Hsuccess & _ & Hrstatus & Hsummary & Hscore & Hpath).
  unfold apply_provider. rewrite Hrun, Hsub.
  do 2 eexists. exists r, summary. eexists. exists a, av.
  split; [reflexivity |]. split; [reflexivity |]. split; [exact Hsuccess |].
  split; [exact Hrstatus |]. split; [exact Hsummary |]. split; [exact Hscore |].
  split; [exact Hpath |]. split; [reflexivity |]. split; [exact Ha |].
  split; [exact Hstatus |]. split; [exact Hav |]. split; [exact Hraw | exact Hparsed].
Qed.

End Apply_facts.

(** ** The order of a record's events in the response *)

Lemma interleaved_sublist {A : Type} (parts : list (list A)) (whole : list A) :
  interleaved parts whole ->
  forall i part, parts !! i = Some part -> sublist part whole.
Proof.
  induction 1 as [parts Hall | parts j part' x whole Hj _ IH]; intros i part Hi.
  - rewrite Forall_forall in Hall. rewrite (Hall part); [constructor |].
    exact (list_elem_of_lookup_2 _ _ _ Hi).
  - destruct (decide (i = j)) as [-> | Hne].
    + rewrite (list_lookup_insert_eq _ _ _ (lookup_lt_Some _ _ _ Hj)) in Hi.
      injection Hi as <-. apply sublist_app; [exact (IH _ _ Hj) | reflexivity].
    + rewrite list_lookup_insert_ne in Hi by congruence.
      apply sublist_inserts_r. exact (IH _ _ Hi).
Qed.

Section Order.

Context `{Host}.

Variable provider_list : list value.

Lemma order_invariant_start : order_invariant provider_list (stream_start provider_list).
Proof.
  intros Hne. exists [], (replicate (length provider_list) []).
  unfold stream_start. destruct provider_list as [| p l] eqn:Hl; [now contradiction Hne |].
  cbn [length Nat.eqb tasks result_queue yielded at_phase app].
  split; [| split; [| split; [| split; [| split]]]].
  - constructor. apply Forall_forall. intros part Hpart.
    now apply elem_of_replicate in Hpart as [-> _].
  - apply length_replicate.
  - apply length_replicate.
  - intros i provider t part Hp Ht Hpart.
    apply lookup_replicate in Ht as [-> _]. apply lookup_replicate in Hpart as [-> _].
    reflexivity.
  - intros _. reflexivity.
  - discriminate.
Qed.

Lemma order_invariant_step (a : action) (s s' : stream) :
  order_invariant provider_list s ->
  step provider_list a s s' ->
  order_invariant provider_list s'.
Proof.
  intros Hinv Hstep Hne.
  destruct (Hinv Hne) as (received & sent & Hinter & Hsent & Htasks & Hparts & Hopen & Hclosed).
  destruct Hstep as
    [ i provider n s Hi Hp Hsem | i e todo s Hi | i s Hi | e q s Hphase Hq Hlt
    | s Hphase Hq Hlt Hall | s Hphase Hge | s Hphase Hall | e q s Hphase Hq
    | s Hphase Hq ];
    cbn [tasks result_queue yielded at_phase] in *.
  - exists received, sent. split; [exact Hinter |]. split; [exact Hsent |].
    split; [now rewrite length_insert |]. split; [| now split].
    intros j provider' t part Hp' Ht Hpart.
    destruct (decide (j = i)) as [-> | Hji].
    + rewrite (list_lookup_insert_eq _ _ _ (lookup_lt_Some _ _ _ Hi)) in Ht.
      injection Ht as <-. rewrite Hp in Hp'. injection Hp' as <-.
      exact (Hparts i provider Waiting part Hp Hi Hpart).
    + rewrite list_lookup_insert_ne in Ht by congruence. eauto.
  - assert (exists part, sent !! i = Some part) as (part & Hpart).
    { apply lookup_lt_is_Some. rewrite Hsent, <- Htasks. exact (lookup_lt_Some _ _ _ Hi). }
    exists received, (<[i := part ++ [e]]> sent).
    split; [rewrite app_assoc; now constructor |].
    split; [now rewrite length_insert |]. split; [now rewrite length_insert |].
    split; [| now split].
    intros j provider t part' Hp Ht Hpart'.
    destruct (decide (j = i)) as [-> | Hji].
    + rewrite (list_lookup_insert_eq _ _ _ (lookup_lt_Some _ _ _ Hi)) in Ht.
      rewrite list_lookup_insert_eq in Hpart' by (exact (lookup_lt_Some _ _ _ Hpart)).
      injection Ht as <-. injection Hpart' as <-. rewrite <- app_assoc.
      exact (Hparts i provider _ part Hp Hi Hpart).
    + rewrite list_lookup_insert_ne in Ht by congruence.
      rewrite list_lookup_insert_ne in Hpart' by congruence. eauto.
  - exists received, sent. split; [exact Hinter |]. split; [exact Hsent |].
    split; [now rewrite length_insert |]. split; [| now split].
    intros j provider t part Hp Ht Hpart.
    destruct (decide (j = i)) as [-> | Hji].
    + rewrite (list_lookup_insert_eq _ _ _ (lookup_lt_Some _ _ _ Hi)) in Ht.
      injection Ht as <-. exact (Hparts i provider _ part Hp Hi Hpart).
    + rewrite list_lookup_insert_ne in Ht by congruence. eauto.
  - exists (received ++ [e]), sent. rewrite Hq in Hinter.
    split; [now rewrite <- app_assoc |]. split; [exact Hsent |].
    split; [exact Htasks |]. split; [exact Hparts |]. split; [| discriminate].
    intros _. rewrite Hopen by (rewrite Hphase; discriminate).
    now rewrite map_app.
  - exists received, sent. rewrite Hq in Hinter.
    split; [exact Hinter |]. split; [exact Hsent |]. split; [exact Htasks |].
    split; [exact Hparts |]. split; [| discriminate].
    intros _. apply Hopen. rewrite Hphase. discriminate.
  - exists received, sent.
    split; [exact Hinter |]. split; [exact Hsent |]. split; [exact Htasks |].
    split; [exact Hparts |]. split; [| discriminate].
    intros _. apply Hopen. rewrite Hphase. discriminate.
  - exists received, sent.
    split; [exact Hinter |]. split; [exact Hsent |]. split; [exact Htasks |].
    split; [exact Hparts |]. split; [| discriminate].
    intros _. apply Hopen. rewrite Hphase. discriminate.
  - exists (received ++ [e]), sent. rewrite Hq in Hinter.
    split; [now rewrite <- app_assoc |]. split; [exact Hsent |].
    split; [exact Htasks |]. split; [exact Hparts |]. split; [| discriminate].
    intros _. rewrite Hopen by (rewrite Hphase; discriminate).
    now rewrite map_app.
  - exists received, sent. rewrite Hq in Hinter.
    split; [exact Hinter |]. split; [exact Hsent |]. split; [exact Htasks |].
    split; [exact Hparts |]. split; [intros Hc; now contradiction Hc |].
    intros _. rewrite Hopen by (rewrite Hphase; discriminate).
    unfold closing_lines. cbn [app]. reflexivity.
Qed.

Lemma reachable_order_invariant (s : stream) :
  reachable provider_list s -> order_invariant provider_list s.
Proof.
  revert s. apply reachable_invariant.
  - apply order_invariant_start.
  - intros a s s' Hinv Hfire. apply fire_step in Hfire.
    eapply order_invariant_step; eassumption.
Qed.

(** X14: the events of a record keep their order. In the closed response
    to a batch with records, the events between the opening line and the two
    closing lines interleave the event sequences of the workers: the events
    of different records may be mixed in any way the schedule allows, but
    those of one record come in the order its worker put them, so that the
    line announcing a record comes before its result. *)
Theorem events_keep_worker_order (s : stream) :
  reachable provider_list s ->
  at_phase s = Closed ->
  provider_list <> [] ->
  exists received,
    yielded s
    = opening_line provider_list :: map sse_of received ++ closing_lines provider_list
    /\ interleaved (events_by_record provider_list) received
    /\ forall i provider,
         provider_list !! i = Some provider ->
         sublist (worker_events provider i (length provider_list)) received.
Proof.
  intros Hreach Hphase Hne.
  destruct (reachable_results_invariant provider_list s Hreach) as (_ & _ & Hdone & Hempty).
  destruct (reachable_order_invariant s Hreach Hne)
    as (received & sent & Hinter & Hsent & Htasks & Hparts & _ & Hclosed).
  rewrite (Hempty Hphase), app_nil_r in Hinter.
  assert (Hall : sent = events_by_record provider_list).
  { apply list_eq. intros i. unfold events_by_record. rewrite list_lookup_imap.
    destruct (provider_list !! i) as [provider |] eqn:Hp; cbn [fmap option_fmap option_map].
    - assert (exists t, tasks s !! i = Some t) as (t & Ht).
      { apply lookup_lt_is_Some. rewrite Htasks. exact (lookup_lt_Some _ _ _ Hp). }
      assert (exists part, sent !! i = Some part) as (part & Hpart).
      { apply lookup_lt_is_Some. rewrite Hsent. exact (lookup_lt_Some _ _ _ Hp). }
      rewrite Hpart. f_equal. rewrite <- (Hparts i provider t part Hp Ht Hpart).
      assert (Ht' : t = Finished).
      { specialize (Hdone (or_intror Hphase)). rewrite forallb_forall in Hdone.
        specialize (Hdone t). destruct t; try reflexivity;
          (assert (Hf : false = true)
             by (apply Hdone; apply list_elem_of_In;
                 exact (list_elem_of_lookup_2 _ _ _ Ht));
           discriminate). }
      subst t. cbn [unsent]. now rewrite app_nil_r.
    - apply lookup_ge_None. rewrite Hsent. now apply lookup_ge_None. }
  subst sent. exists received. split; [now apply Hclosed |]. split; [exact Hinter |].
  intros i provider Hp. apply (interleaved_sublist _ _ Hinter i).
  unfold events_by_record. rewrite list_lookup_imap, Hp. reflexivity.
Qed.

End Order.

(** ** The list endpoints of the analytics *)

Lemma mapM_Raise {A B : Type} (f : A -> result B) (l : list A) (e : exn) :
  mapM f l = Raise e ->
  exists before a after,
    l = before ++ a :: after
    /\ Forall (fun x => exists b, f x = Ok b) before
    /\ f a = Raise e.
Proof.
  induction l as [| a l IH]; cbn [mapM]; [discriminate |].
  destruct (f a) as [b | e'] eqn:Ha; cbn [Py.bind].
  - destruct (mapM f l) as [bs | e'] eqn:Hl; cbn [Py.bind]; [discriminate |].
    intros [= ->]. destruct (IH eq_refl) as (before & a' & after & -> & Hbefore & Ha').
    exists (a :: before), a', after. split; [reflexivity |].
    split; [constructor; eauto | exact Ha'].
  - intros [= ->]. exists [], a, l. split; [reflexivity |]. split; [constructor | exact Ha].
Qed.

Lemma VDict_inj' (d d' : gmap string value) :
  @Ok value (VDict d) = Ok (VDict d') -> d = d'.
Proof.
  intros Heq.
  exact (f_equal (fun r => match r with Ok (VDict x) => x | _ => d end) Heq).
Qed.

Section Analytics_facts.

Context `{Host}.

Variable hash : string -> Z.

Lemma providers_response_all_or_nothing (entry : provider_row -> result value)
    (db : database) (timestamp : string) :
  all_or_nothing entry db timestamp (providers_response entry db timestamp).
Proof.
  unfold all_or_nothing, providers_response.
  destruct (fetched db) as [rows | e]; cbn [Py.bind].
  - destruct (mapM entry rows) as [providers | e] eqn:Hm.
    + eexists. split; [reflexivity |]. left. exists rows, providers.
      split; [reflexivity |]. split; [now apply mapM_Forall2 |].
      rewrite (mapM_Ok_length _ _ _ Hm). repeat split; now lookup_literal.
    + apply mapM_Raise in Hm as (before & row & after & -> & Hbefore & Hrow).
      eexists. split; [reflexivity |]. right. exists e.
      split; [right; now exists before, row, after |]. repeat split; now lookup_literal.
  - eexists. split; [reflexivity |]. right. exists e.
    split; [now left |]. repeat split; now lookup_literal.
Qed.

(** X15: the list endpoints answer all or nothing. The response of
    /api/analytics/providers-geolocation, of
    /api/analytics/validation-heatmap and of
    /api/analytics/confidence-breakdown either says [success: True] and lists
    one entry for every row fetched, in the order of the rows, with [total]
    the number of rows; or it says [success: False] with the message of the
    error and an empty list and no [total]: when the connection or the query
    raised, and also when the entry of a single row raised, whatever the rows
    before it gave. *)
Theorem list_endpoints_all_or_nothing (db : database) (timestamp : string) :
  all_or_nothing (geolocation_entry hash) db timestamp
    (get_providers_geolocation hash db timestamp)
  /\ all_or_nothing heatmap_entry db timestamp (get_validation_heatmap db timestamp)
  /\ all_or_nothing breakdown_entry db timestamp
       (get_confidence_breakdown db timestamp).
Proof. repeat split; apply providers_response_all_or_nothing. Qed.

(** X16: without [DATABASE_URL] nothing is queried. When the variable is
    unset or empty, each of the three list endpoints answers [success:
    False] with the error ["DATABASE_URL environment variable is not set"]
    and an empty list, whatever connecting and the query would have given. *)
Theorem no_database_url (db : database) (timestamp : string) :
  DATABASE_URL db = None \/ DATABASE_URL db = Some "" ->
  let refused :=
    VDict (dict_literal
      [ ("success", VBool false);
        ("error", VStr "DATABASE_URL environment variable is not set");
        ("providers", VList []) ]) in
  get_providers_geolocation hash db timestamp = refused
  /\ get_validation_heatmap db timestamp = refused
  /\ get_confidence_breakdown db timestamp = refused.
Proof.
  intros Hurl refused.
  assert (Hfetched : fetched db
                     = Raise (Exn "ValueError"
                                "DATABASE_URL environment variable is not set")).
  { unfold fetched, get_db_connection. now destruct Hurl as [-> | ->]. }
  unfold get_providers_geolocation, get_validation_heatmap, get_confidence_breakdown,
    providers_response.
  rewrite Hfetched. repeat split; reflexivity.
Qed.

Lemma stage_get_missing (execution_meta : gmap string value) (stage key : string)
    (default : value) :
  execution_meta !! stage = None ->
  stage_get execution_meta stage key default = Ok default.
Proof.
  intros Hnone. unfold stage_get. rewrite (dict_get_None _ _ _ Hnone). reflexivity.
Qed.

Lemma percent_score_missing (sb : gmap string value) (key : string) :
  sb !! key = None -> percent_score sb key = Ok 0%Z.
Proof.
  intros Hnone. unfold percent_score. rewrite (dict_get_None _ _ _ Hnone). reflexivity.
Qed.

(** X17: a row without metadata. When the [validation_metadata] of a row
    is null (or empty), the confidence breakdown and the heatmap still list
    the row: the confidence breakdown gives it the path ["UNKNOWN"] and the
    six dimensions with score 0 and their weights, the heatmap gives it every
    stage as ["pending"] except [score], which is always ["complete"], and
    the three stage scores as 0. A null [confidence_tier] is listed as
    ["UNKNOWN"] and a null [created_at] as null. *)
Theorem row_without_metadata (row : provider_row) :
  truthy (row_validation_metadata row) = false ->
  (exists d,
     breakdown_entry row = Ok (VDict d)
     /\ d !! "path" = Some (VStr "UNKNOWN")
     /\ d !! "dimensions"
        = Some (VList (map (fun entry : string * string * Z =>
                   VDict (dict_literal
                     [ ("dimension", VStr entry.1.1); ("score", VInt 0);
                       ("max", VInt 100); ("weight", VInt entry.2) ]))
                 dimension_table))
     /\ (row_confidence_tier row = VNone -> d !! "tier" = Some (VStr "UNKNOWN"))
     /\ (row_created_at row = None -> d !! "validated_at" = Some VNone))
  /\ (exists h stages scores,
        heatmap_entry row = Ok (VDict h)
        /\ h !! "stages" = Some (VDict stages)
        /\ stages !! "score" = Some (VStr "complete")
        /\ (forall k, k ∈ [ "vlm"; "npi"; "oig"; "license"; "address"; "web" ] ->
              stages !! k = Some (VStr "pending"))
        /\ h !! "stage_scores" = Some (VDict scores)
        /\ (forall k, k ∈ [ "npi"; "address"; "web" ] -> scores !! k = Some (VInt 0))).
Proof.
  intros Hfalsy.
  assert (Hmeta : metadata_of row = VDict ∅).
  { unfold metadata_of. now rewrite Hfalsy. }
  split.
  - unfold breakdown_entry. rewrite Hmeta. cbn [has_get Py.bind].
    rewrite (dict_get_None ∅ "quality_metrics") by apply lookup_empty.
    cbn [has_get Py.bind].
    rewrite (dict_get_None ∅ "score_breakdown") by apply lookup_empty.
    rewrite (dict_get_None ∅ "path") by apply lookup_empty.
    assert (Hdims : dimensions (VDict ∅)
                    = Ok (map (fun entry : string * string * Z =>
                            VDict (dict_literal
                              [ ("dimension", VStr entry.1.1); ("score", VInt 0);
                                ("max", VInt 100); ("weight", VInt entry.2) ]))
                          dimension_table)).
    { unfold dimensions. cbn [has_get Py.bind]. apply mapM_of_Forall2.
      apply Forall2_fmap_r, Forall_Forall2_diag, Forall_forall.
      intros [[label key] weight] _. unfold dimension_entry.
      rewrite percent_score_missing by apply lookup_empty. reflexivity. }
    rewrite Hdims. cbn [Py.bind]. eexists. split; [reflexivity |].
    split; [now lookup_literal |]. split; [now lookup_literal |].
    split.
    + intros ->. now lookup_literal.
    + intros Hnone. unfold validated_at. rewrite Hnone. now lookup_literal.
  - unfold heatmap_entry. rewrite Hmeta. cbn [has_get Py.bind].
    rewrite (dict_get_None ∅ "execution_metadata") by apply lookup_empty.
    cbn [has_get Py.bind].
    rewrite !stage_get_missing by apply lookup_empty. cbn [Py.bind].
    do 3 eexists. split; [reflexivity |].
    split; [now lookup_literal |]. split; [now lookup_literal |].
    split; [| split; [now lookup_literal |]].
    + intros k Hk. rewrite !elem_of_cons, elem_of_nil in Hk.
      destruct Hk as [-> | [-> | [-> | [-> | [-> | [-> | []]]]]]]; now lookup_literal.
    + intros k Hk. rewrite !elem_of_cons, elem_of_nil in Hk.
      destruct Hk as [-> | [-> | [-> | []]]]; now lookup_literal.
Qed.

(** The displacement of a marker depends on the hash modulo 1000 only. *)
Lemma jitter_mod (h : Z) : jitter h = jitter (Z.of_nat (Z.to_nat (h mod 1000))).
Proof.
  unfold jitter. rewrite Z2Nat.id by (apply Z.mod_pos_bound; lia).
  now rewrite Z.mod_mod by lia.
Qed.

Lemma jitter_near (centre : float * float) (h h' : Z) :
  centre ∈ default_coords :: state_table.*2 ->
  near centre.1 (centre.1 + jitter h) = true
  /\ near centre.2 (centre.2 + jitter h') = true.
Proof.
  intros Hcentre.
  assert (Hall : forallb (fun c : float * float =>
                    forallb (fun k => near c.1 (c.1 + jitter (Z.of_nat k))
                                      && near c.2 (c.2 + jitter (Z.of_nat k)))
                            (seq 0 1000))
                   (default_coords :: state_table.*2) = true)
    by (vm_compute; reflexivity).
  rewrite forallb_forall in Hall.
  specialize (Hall centre (proj1 (list_elem_of_In _ _) Hcentre)).
  rewrite forallb_forall in Hall.
  assert (Hk : forall x, In (Z.to_nat (x mod 1000)) (seq 0 1000)).
  { intros x. apply in_seq. pose proof (Z.mod_pos_bound x 1000). lia. }
  rewrite (jitter_mod h), (jitter_mod h'). split.
  - pose proof (Hall _ (Hk h)) as Hh. apply andb_true_iff in Hh. apply Hh.
  - pose proof (Hall _ (Hk h')) as Hh'. apply andb_true_iff in Hh'. apply Hh'.
Qed.

(** X18: a marker stays near the centre of its state. Whenever the entry
    of a row is built, its [lat] and [lon] are floats within five degrees of
    the coordinates the table gives for the [state] of the row, or of the
    default coordinates (39.8283, -98.5795) when the state is not in the
    table or is not text; this holds whatever [hash] returns. *)
Theorem marker_near_state_centre (row : provider_row) (d : gmap string value) :
  geolocation_entry hash row = Ok (VDict d) ->
  exists centre lat lon,
    coords_of (row_state row) = Ok centre
    /\ ((exists s, row_state row = VStr s /\ state_coords !! s = Some centre)
        \/ (centre = default_coords
            /\ forall s, row_state row = VStr s -> state_coords !! s = None))
    /\ d !! "lat" = Some (VFloat lat)
    /\ d !! "lon" = Some (VFloat lon)
    /\ near centre.1 lat = true
    /\ near centre.2 lon = true.
Proof.
  unfold geolocation_entry. intros Hentry.
  apply bind_Ok in Hentry as (centre & Hcentre & Hentry). cbv zeta in Hentry.
  apply bind_Ok in Hentry as (metadata & _ & Hentry).
  apply bind_Ok in Hentry as (quality_metrics & _ & Hentry).
  apply VDict_inj' in Hentry.
  assert (Hwhere : (exists s, row_state row = VStr s /\ state_coords !! s = Some centre)
                   \/ (centre = default_coords
                       /\ forall s, row_state row = VStr s -> state_coords !! s = None)).
  { unfold coords_of in Hcentre.
    destruct (row_state row) as [| b | n | f | s | l | m]; try discriminate;
      try (injection Hcentre as <-; right; split; [reflexivity | discriminate]).
    injection Hcentre as <-.
    destruct (state_coords !! s) as [c |] eqn:Hs; cbn [default].
    - left. now exists s.
    - right. split; [reflexivity |]. now intros s' [= <-]. }
  assert (Hin : centre ∈ default_coords :: state_table.*2).
  { destruct Hwhere as [(s & _ & Hs) | [-> _]]; [| apply list_elem_of_here].
    apply list_elem_of_further. unfold state_coords in Hs.
    apply elem_of_list_to_map_2 in Hs.
    apply list_elem_of_fmap. now exists (s, centre). }
  destruct (jitter_near centre (hash (py_str (row_id row)))
              (hash (py_str (row_id row) +:+ "lon")) Hin) as (Hlat & Hlon).
  exists centre. do 2 eexists. split; [exact Hcentre |]. split; [exact Hwhere |].
  split; [rewrite <- Hentry; now lookup_literal |].
  split; [rewrite <- Hentry; now lookup_literal |].
  split; [exact Hlat | exact Hlon].
Qed.

End Analytics_facts.

(** ** get_dashboard_stats *)

Lemma pairs_again {A B : Type} (l : list (A * B)) :
  map (fun row => (row.1, row.2)) l = l.
Proof. induction l as [| [a b] l IH]; [reflexivity |]. cbn [map fst snd]. now rewrite IH. Qed.

(** X19: the dashboard answers all or nothing. The response of
    /api/analytics/dashboard-stats either says [success: True] with the
    timestamp and the six statistics: the three counts as the queries gave
    them, [avg_confidence], one entry of [recent_activity] for each recent
    row, in the order of the rows, and the path distribution, which has each
    path of the query with its count; or it says [success: False] with the
    message of the error, empty [stats] and no timestamp: when there is no
    connection, when one of the six queries raised, and when the entry of a
    recent row raised. [avg_confidence] is 100 times the average, and 0.0
    when the average is NULL, as it is on an empty table. *)
Theorem dashboard_stats_all_or_nothing (db : database) (q : dashboard_queries)
    (timestamp : string) :
  (exists r,
     get_dashboard_stats db q timestamp = VDict r
     /\ ((r !! "success" = Some (VBool true)
          /\ r !! "timestamp" = Some (VStr timestamp)
          /\ r !! "error" = None
          /\ exists stats total review average paths fraud rows entries distribution,
               get_db_connection db = Ok tt
               /\ total_providers q = Ok total
               /\ needs_review q = Ok review
               /\ avg q = Ok average
               /\ path_results q = Ok paths
               /\ fraud_detected q = Ok fraud
               /\ recent q = Ok rows
               /\ Forall2 (fun row entry => recent_entry row = Ok entry) rows entries
               /\ r !! "stats" = Some (VDict stats)
               /\ dom stats
                  = list_to_set [ "total_providers"; "needs_review"; "avg_confidence";
                                  "path_distribution"; "fraud_detected";
                                  "recent_activity" ]
               /\ stats !! "total_providers" = Some total
               /\ stats !! "needs_review" = Some review
               /\ stats !! "avg_confidence" = Some (VFloat (avg_percent average))
               /\ stats !! "fraud_detected" = Some fraud
               /\ stats !! "recent_activity" = Some (VList entries)
               /\ stats !! "path_distribution" = Some (VDict distribution)
               /\ (NoDup paths.*1 ->
                   forall path count,
                     distribution !! path = Some count <-> (path, count) ∈ paths))
         \/ (exists e,
               dashboard_stats db q = Raise e
               /\ r !! "success" = Some (VBool false)
               /\ r !! "error" = Some (VStr (exn_msg e))
               /\ r !! "stats" = Some (VDict ∅)
               /\ r !! "timestamp" = None)))
  /\ avg_percent None = 0%float
  /\ (forall f, truthy (VFloat f) = true -> avg_percent (Some f) = (f * 100)%float)
  /\ (forall e, get_db_connection db = Raise e -> dashboard_stats db q = Raise e)
  /\ (forall rows before row after e,
        get_db_connection db = Ok tt ->
        (exists total, total_providers q = Ok total) ->
        (exists review, needs_review q = Ok review) ->
        (exists average, avg q = Ok average) ->
        (exists paths, path_results q = Ok paths) ->
        (exists fraud, fraud_detected q = Ok fraud) ->
        recent q = Ok rows ->
        rows = before ++ row :: after ->
        Forall (fun row' => exists entry, recent_entry row' = Ok entry) before ->
        recent_entry row = Raise e ->
        dashboard_stats db q = Raise e).
Proof.
  split; [| split; [reflexivity |]].
  - unfold get_dashboard_stats.
    destruct (dashboard_stats db q) as [stats | e] eqn:Hstats.
    + eexists. split; [reflexivity |]. left.
      split; [now lookup_literal |]. split; [now lookup_literal |].
      split; [now lookup_literal |].
      unfold dashboard_stats in Hstats.
      apply bind_Ok in Hstats as ([] & Hconn & Hstats).
      apply bind_Ok in Hstats as (total & Htotal & Hstats).
      apply bind_Ok in Hstats as (review & Hreview & Hstats).
      apply bind_Ok in Hstats as (average & Havg & Hstats).
      apply bind_Ok in Hstats as (paths & Hpaths & Hstats). cbv zeta in Hstats.
      apply bind_Ok in Hstats as (fraud & Hfraud & Hstats).
      apply bind_Ok in Hstats as (rows & Hrows & Hstats).
      apply bind_Ok in Hstats as (entries & Hentries & Hstats).
      rewrite pairs_again in Hstats.
      exists stats, total, review, average, paths, fraud, rows, entries,
        (dict_literal paths).
      assert (Hstats' : stats = dict_literal
                [ ("total_providers", total); ("needs_review", review);
                  ("avg_confidence", VFloat (avg_percent average));
                  ("path_distribution", VDict (dict_literal paths));
                  ("fraud_detected", fraud);
                  ("recent_activity", VList entries) ]).
      { symmetry.
        exact (f_equal (fun r => match r with Ok x => x | Raise _ => stats end) Hstats). }
      do 7 (split; [assumption |]).
      split; [now apply mapM_Forall2 |].
      split; [now lookup_literal |].
      split.
      { rewrite Hstats'. unfold dict_literal, dict_update. cbn [fold_left fst snd].
        rewrite !dom_insert_L, dom_empty_L. set_solver. }
      do 6 (split; [rewrite Hstats'; now lookup_literal |]).
      intros Hnodup path count. unfold dict_literal.
      rewrite (dict_update_lookup _ _ _ _ Hnodup), lookup_empty. split.
      * now intros [Hin | [_ [=]]].
      * intros Hin. now left.
    + eexists. split; [reflexivity |]. right. exists e.
      split; [reflexivity |]. repeat split; now lookup_literal.
  - split; [| split].
    + intros f Hf. unfold avg_percent. now rewrite Hf.
    + intros e He. unfold dashboard_stats. now rewrite He.
    + intros rows before row after e Hconn (total & Htotal) (review & Hreview)
        (average & Havg) (paths & Hpaths) (fraud & Hfraud) Hrows -> Hbefore Hrow.
      unfold dashboard_stats.
      rewrite Hconn, Htotal, Hreview, Havg, Hpaths, Hfraud, Hrows. cbn [Py.bind].
      assert (Hraise : mapM recent_entry (before ++ row :: after) = Raise e).
      { clear Hrows. induction Hbefore as [| row' before (entry & Hentry) _ IH];
          cbn [app mapM].
        - now rewrite Hrow.
        - rewrite Hentry. cbn [Py.bind]. now rewrite IH. }
      now rewrite Hraise.
Qed.

(** ** The response of /validate-file, from the upload on *)

Section Response_facts.

Context `{Host}.




End Response_facts.

(** ** Text in, text out *)

(** X20: a record of text stays text. When every value of the record is a
    string, as in the rows read from a CSV file, every one of the eleven
    fields of the normalised record is a string: no null and no number
    reaches the agent. *)
Theorem normalize_keeps_text (provider_info : gmap string value) :
  (forall k v, provider_info !! k = Some v -> exists s, v = VStr s) ->
  forall k v,
    normalize_provider_data provider_info !! k = Some v -> exists s, v = VStr s.
Proof.
  intros Htext.
  assert (Hget : forall k d, exists s, dict_get provider_info k (VStr d) = VStr s).
  { intros k d. unfold dict_get. destruct (provider_info !! k) as [v |] eqn:Hk; [| eauto].
    exact (Htext k v Hk). }
  assert (Hor : forall k alt d,
             exists s, py_or (dict_get provider_info k VNone)
                         (dict_get provider_info alt (VStr d)) = VStr s).
  { intros k alt d. unfold py_or, dict_get at 1 2.
    destruct (provider_info !! k) as [v |] eqn:Hk; cbn [truthy]; [| apply Hget].
    destruct (truthy v); [exact (Htext k v Hk) | apply Hget]. }
  intros k v. unfold normalize_provider_data, dict_literal, dict_update.
  cbn [fold_left fst snd]. rewrite !lookup_insert_Some, lookup_empty.
  intros Hk. decompose [or and] Hk; subst;
    try discriminate; try apply Hget; apply Hor.
Qed.

(** ** Instances *)

Lemma batch_closes `{Host} (provider_list : list value) :
  exists schedule s,
    run provider_list schedule (stream_start provider_list) = Some s
    /\ at_phase s = Closed.
Proof.
  apply (run_completes provider_list
           (remaining provider_list (stream_start provider_list))).
  - apply semaphore_invariant_start.
  - apply results_invariant_start.
  - lia.
Qed.

Lemma main_loop_ends_when_complete_witness :
  fire (H := echo_host) six_records TimeoutBreak (five_running (H := echo_host)) = None
  /\ fire (H := echo_host) six_records DrainItem (five_running (H := echo_host)) = None
  /\ completed (five_running (H := echo_host))
     = length (results_yielded (five_running (H := echo_host))).
Proof.
  assert (run (H := echo_host) six_records five_acquired (stream_start six_records)
          = Some (five_running (H := echo_host))) as Hrun by reflexivity.
  destruct (main_loop_ends_when_complete (H := echo_host) six_records _
              (ex_intro _ five_acquired Hrun)) as (Hbreak & Hdrain & Hloop & _).
  split; [exact Hbreak |]. split; [exact Hdrain |]. exact (proj1 (Hloop eq_refl)).
Defined.


Lemma events_keep_worker_order_witness :
  exists schedule s received,
    run (H := echo_host) mixed_batch schedule (stream_start mixed_batch) = Some s
    /\ interleaved (events_by_record (H := echo_host) mixed_batch) received
    /\ sublist (worker_events (H := echo_host) VNone 0 2) received.
Proof.
  destruct (batch_closes (H := echo_host) mixed_batch) as (schedule & s & Hrun & Hphase).
  destruct (events_keep_worker_order (H := echo_host) mixed_batch s
              (ex_intro _ schedule Hrun) Hphase ltac:(discriminate))
    as (received & _ & Hinter & Hsub).
  exists schedule, s, received. split; [exact Hrun |]. split; [exact Hinter |].
  exact (Hsub 0%nat VNone eq_refl).
Defined.

Lemma percentage_table_of_breakdown_witness :
  exists r dp,
    percentages_of (H := echo_host) (VDict zero_score_breakdown) = Ok r
    /\ r = VDict dp
    /\ dom dp = (dom zero_score_breakdown ∖ {["risk"]}) ∪ {["risk_penalty"]}
    /\ dp !! "risk" = None.
Proof.
  destruct (percentages_of_zero (H := echo_host)) as (r & Hr).
  destruct (percentage_table_of_breakdown (H := echo_host) zero_score_breakdown r Hr)
    as (dp & -> & Hdom & _).
  exists (VDict dp), dp. split; [exact Hr |]. split; [reflexivity |].
  split; [exact Hdom |]. apply not_elem_of_dom. rewrite Hdom.
  rewrite elem_of_union, elem_of_difference, !elem_of_singleton.
  intros [[_ Hrisk] | Hrisk]; [now apply Hrisk | discriminate].
Defined.

Lemma agent_metrics_pass_through_witness :
  exists d qmo,
    format_result_for_frontend (H := echo_host) (VDict tagged_state) jane_doe
    = Ok (VDict d)
    /\ d !! "quality_metrics" = Some (VDict qmo)
    /\ qmo !! "model_version" = Some (VStr "v2")
    /\ qmo !! "path" = Some (VStr "GREEN").
Proof.
  destruct (format_result_returns (H := echo_host) tagged_state tagged_metrics
              ∅ ∅ ∅ ∅ jane_doe "UNKNOWN" eq_refl (or_intror (or_introl eq_refl))
              eq_refl eq_refl eq_refl eq_refl eq_refl) as (dp & emoji & Hf).
  destruct (frontend_result_lookup tagged_state tagged_metrics jane_doe
              (chosen_breakdown tagged_metrics) dp (VStr "UNKNOWN") emoji ∅ ∅ ∅ ∅)
    as (d & qmo' & Hd & _).
  rewrite Hd in Hf.
  destruct (agent_metrics_pass_through (H := echo_host) tagged_state tagged_metrics
              jane_doe d Hf eq_refl) as (qmo & Hqmo & _ & Hkeep).
  exists d, qmo. split; [exact Hf |]. split; [exact Hqmo |]. split.
  - apply Hkeep; [reflexivity | discriminate | intros [[=] | [=]]].
  - apply Hkeep; [reflexivity | discriminate | intros [[=] | [=]]].
Defined.

Lemma final_profile_never_empty_witness :
  exists d fp,
    format_result_for_frontend (H := echo_host) (VDict ∅) jane_doe = Ok (VDict d)
    /\ d !! "final_profile" = Some fp
    /\ truthy fp = true.
Proof.
  pose (none := ∅ : gmap string value).
  destruct (format_result_returns (H := echo_host) none none none none none none
              jane_doe "UNKNOWN" eq_refl (or_intror (or_introl eq_refl))
              eq_refl eq_refl eq_refl eq_refl eq_refl) as (dp & emoji & Hf).
  destruct (frontend_result_lookup none none jane_doe (chosen_breakdown none) dp
              (VStr "UNKNOWN") emoji none none none none) as (d & qmo' & Hd & _).
  rewrite Hd in Hf.
  destruct (final_profile_never_empty (H := echo_host) none jane_doe d Hf)
    as (fp & Hfp & Htruthy & _).
  exists d, fp. split; [exact Hf |]. split; [exact Hfp | exact Htruthy].
Defined.

Lemma saved_but_reported_failed_witness :
  exists response d' r entry a,
    apply_provider (H := echo_host) (H0 := quiet_server loads_yellow)
      jane_form no_applications = (response, d')
    /\ response = VDict r
    /\ r !! "success" = Some (VBool false)
    /\ r !! "error" = Some (VStr "Unknown format code '%' for object of type 'str'")
    /\ applications_file d' = Some (Ok (VList ([] ++ [entry])))
    /\ entry = VDict a
    /\ a !! "application_id"
       = Some (VStr (application_id (H0 := quiet_server loads_yellow)))
    /\ a !! "status" = Some (VStr "pending_review").
Proof.
  exact (saved_but_reported_failed (H := echo_host) (H0 := quiet_server loads_yellow)
           jane_form no_applications "license.pdf" "high"
           (VDict yellow_text_score) yellow_text_score 1024%Z []
           eq_refl eq_refl eq_refl eq_refl eq_refl eq_refl eq_refl eq_refl eq_refl
           eq_refl).
Defined.

Lemma undecodable_result_is_flagged_witness :
  exists response d' r,
    apply_provider (H := echo_host) (H0 := quiet_server loads_nothing)
      jane_form no_applications = (response, d')
    /\ response = VDict r
    /\ r !! "success" = Some (VBool true)
    /\ r !! "status" = Some (VStr "flagged_for_review").
Proof.
  destruct (undecodable_result_is_flagged (H := echo_host)
              (H0 := quiet_server loads_nothing) jane_form no_applications
              "license.pdf" (Exn "JSONDecodeError" "Expecting value: line 1 column 1 (char 0)")
              1024%Z [] eq_refl eq_refl eq_refl eq_refl (or_introl eq_refl)
              eq_refl eq_refl eq_refl)
    as (response & d' & r & summary & entry & a & av & Hrun & Hr & Hsuccess & Hstatus & _).
  exists response, d', r.
  split; [exact Hrun |]. split; [exact Hr |]. split; [exact Hsuccess | exact Hstatus].
Defined.

Lemma row_without_metadata_witness :
  exists d,
    breakdown_entry (H := echo_host) bare_row = Ok (VDict d)
    /\ d !! "path" = Some (VStr "UNKNOWN")
    /\ d !! "tier" = Some (VStr "UNKNOWN")
    /\ d !! "validated_at" = Some VNone.
Proof.
  destruct (row_without_metadata (H := echo_host) bare_row eq_refl)
    as ((d & Hentry & Hpath & _ & Htier & Hdate) & _).
  exists d. split; [exact Hentry |]. split; [exact Hpath |].
  split; [exact (Htier eq_refl) | exact (Hdate eq_refl)].
Defined.

Lemma no_database_url_witness :
  get_confidence_breakdown (H := echo_host) no_database "2025-01-01T00:00:00"
  = VDict (dict_literal
      [ ("success", VBool false);
        ("error", VStr "DATABASE_URL environment variable is not set");
        ("providers", VList []) ]).
Proof.
  exact (proj2 (proj2 (no_database_url (H := echo_host) (fun _ => 0%Z) no_database
                         "2025-01-01T00:00:00" (or_introl eq_refl)))).
Defined.

Lemma marker_near_state_centre_witness :
  exists d lat lon,
    geolocation_entry (H := echo_host) (fun _ => 0%Z) bare_row = Ok (VDict d)
    /\ d !! "lat" = Some (VFloat lat)
    /\ d !! "lon" = Some (VFloat lon)
    /\ near 39.8283 lat = true
    /\ near (-98.5795) lon = true.
Proof.
  assert (exists d, geolocation_entry (H := echo_host) (fun _ => 0%Z) bare_row
                    = Ok (VDict d)) as (d & Hd) by (eexists; reflexivity).
  destruct (marker_near_state_centre (H := echo_host) (fun _ => 0%Z) bare_row d Hd)
    as (centre & lat & lon & Hcentre & _ & Hlat & Hlon & Hnear1 & Hnear2).
  injection Hcentre as <-.
  exists d, lat, lon. split; [exact Hd |]. split; [exact Hlat |].
  split; [exact Hlon |]. split; [exact Hnear1 | exact Hnear2].
Defined.

Lemma normalize_keeps_text_witness :
  exists s, normalize_provider_data jane_doe !! "full_name" = Some (VStr s).
Proof.
  assert (Htext : forall k v, jane_doe !! k = Some v -> exists s, v = VStr s).
  { intros k v. unfold jane_doe, dict_literal, dict_update. cbn [fold_left fst snd].
    rewrite !lookup_insert_Some, lookup_empty. intros Hk.
    decompose [or and] Hk; subst; try discriminate; eauto. }
  destruct (normalize_provider_data jane_doe !! "full_name") as [v |] eqn:Hv.
  - destruct (normalize_keeps_text jane_doe Htext "full_name" v Hv) as (s & ->).
    now exists s.
  - exfalso. revert Hv. unfold normalize_provider_data. lookup_literal. discriminate.
Defined.
